(** * git-sanity-checker: a shallow embedding of the rule engine

    The development follows [git-sanity-checker.go].  Go strings are byte
    sequences and are modelled by [string] (one [ascii] per byte); Go [int]
    values are modelled by [Z] (every integer the program computes is a line
    number, a length or a small counter, bounded by the size of the input, so
    no 64-bit wrap-around can occur); the rule catalog, a [map[string]rule],
    is a [gmap string rule].  A call to [fatal] (print and [os.Exit(1)]) and a
    Go run-time panic (slice bounds out of range) are the two abnormal
    outcomes of the [result] monad. *)

From Stdlib Require Import ZArith Ascii String List Lia DecimalString.
From stdpp Require Import base strings list gmap.

Local Open Scope Z_scope.

(** ** Outcomes *)

(** How a call ends: with a value; in [fatal], which prints [msg] and exits
    with status 1; or in a run-time panic. *)
Inductive result (A : Type) : Type :=
  | Ok (a : A)
  | Fatal (msg : string)
  | Panic (msg : string).
Arguments Ok {A} a.
Arguments Fatal {A} msg.
Arguments Panic {A} msg.

#[global] Instance result_ret : MRet result := fun A a => Ok a.

#[global] Instance result_bind : MBind result := fun A B f m =>
  match m with
  | Ok a => f a
  | Fatal msg => Fatal msg
  | Panic msg => Panic msg
  end.

#[global] Instance result_fmap : FMap result := fun A B f m =>
  match m with
  | Ok a => Ok (f a)
  | Fatal msg => Fatal msg
  | Panic msg => Panic msg
  end.

(** ** The parts of the Go language and standard library the program uses *)

Module Go.

Definition byteval (c : ascii) : Z := Z.of_N (N_of_ascii c).

(** [len(s)] *)
Definition len (s : string) : Z := Z.of_nat (String.length s).

Fixpoint takeBytes (n : nat) (s : string) : string :=
  match n, s with
  | S k, String c rest => String c (takeBytes k rest)
  | _, _ => ""
  end.

Fixpoint dropBytes (n : nat) (s : string) : string :=
  match n, s with
  | S k, String _ rest => dropBytes k rest
  | _, _ => s
  end.

(** [s[lo:hi]]: panics unless [0 <= lo <= hi <= len(s)]. *)
Definition slice (s : string) (lo hi : Z) : result string :=
  if (0 <=? lo) && (lo <=? hi) && (hi <=? len s)
  then Ok (takeBytes (Z.to_nat (hi - lo)) (dropBytes (Z.to_nat lo) s))
  else Panic "slice bounds out of range".

(** [s[lo:]] *)
Definition sliceFrom (s : string) (lo : Z) : result string :=
  slice s lo (len s).

(** [strings.HasPrefix]: [len(s) >= len(prefix) && s[:len(prefix)] == prefix] *)
Definition HasPrefix (s pre : string) : bool :=
  (len pre <=? len s) && String.eqb (takeBytes (String.length pre) s) pre.

(** [strings.HasSuffix]:
    [len(s) >= len(suffix) && s[len(s)-len(suffix):] == suffix] *)
Definition HasSuffix (s suf : string) : bool :=
  (len suf <=? len s)
  && String.eqb (dropBytes (String.length s - String.length suf) s) suf.

(** [strings.Index]: byte index of the first instance of [substr], or -1. *)
Fixpoint Index (s substr : string) : Z :=
  if HasPrefix s substr then 0
  else match s with
       | "" => -1
       | String _ rest =>
           let i := Index rest substr in
           if i <? 0 then -1 else i + 1
       end.

(** [strings.LastIndex]: byte index of the last instance, or -1. *)
Fixpoint LastIndex (s substr : string) : Z :=
  match s with
  | "" => if HasPrefix s substr then 0 else -1
  | String _ rest =>
      let j := LastIndex rest substr in
      if 0 <=? j then j + 1
      else if HasPrefix s substr then 0 else -1
  end.

(** [strings.Contains] *)
Definition Contains (s substr : string) : bool := 0 <=? Index s substr.

(** [strings.IndexByte] *)
Fixpoint IndexByte (s : string) (c : ascii) : Z :=
  match s with
  | "" => -1
  | String b rest =>
      if Ascii.eqb b c then 0
      else let i := IndexByte rest c in
           if i <? 0 then -1 else i + 1
  end.

(** *** UTF-8 decoding: what [for _, r := range s] iterates over *)

Definition RuneError : Z := 0xFFFD.
Definition RuneSelf : Z := 0x80.

(** The table [first] of package [unicode/utf8] together with
    [acceptRanges]: for a leading byte, the length of the sequence and the
    range accepted for the second byte; [None] for the bytes that never
    start a multi-byte sequence. *)
Definition first (b0 : Z) : option (nat * Z * Z) :=
  if b0 <? 0xC2 then None
  else if b0 <? 0xE0 then Some (2%nat, 0x80, 0xBF)
  else if b0 =? 0xE0 then Some (3%nat, 0xA0, 0xBF)
  else if b0 <? 0xED then Some (3%nat, 0x80, 0xBF)
  else if b0 =? 0xED then Some (3%nat, 0x80, 0x9F)
  else if b0 <? 0xF0 then Some (3%nat, 0x80, 0xBF)
  else if b0 =? 0xF0 then Some (4%nat, 0x90, 0xBF)
  else if b0 <? 0xF4 then Some (4%nat, 0x80, 0xBF)
  else if b0 =? 0xF4 then Some (4%nat, 0x80, 0x8F)
  else None.

Definition continuation (b : Z) : bool := (0x80 <=? b) && (b <=? 0xBF).

(** [utf8.DecodeRuneInString] on the non-empty string [String c0 rest]:
    the rune and its width in bytes. *)
Definition DecodeRune (c0 : ascii) (rest : string) : Z * nat :=
  let s0 := byteval c0 in
  if s0 <? RuneSelf then (s0, 1%nat)
  else
    match first s0 with
    | None => (RuneError, 1%nat)
    | Some (sz, lo, hi) =>
        match rest with
        | "" => (RuneError, 1%nat)
        | String c1 rest1 =>
            let s1 := byteval c1 in
            if (s1 <? lo) || (hi <? s1) then (RuneError, 1%nat)
            else if (sz <=? 2)%nat then
              (Z.lor (Z.shiftl (Z.land s0 0x1F) 6) (Z.land s1 0x3F), 2%nat)
            else
              match rest1 with
              | "" => (RuneError, 1%nat)
              | String c2 rest2 =>
                  let s2 := byteval c2 in
                  if negb (continuation s2) then (RuneError, 1%nat)
                  else if (sz <=? 3)%nat then
                    (Z.lor (Z.lor (Z.shiftl (Z.land s0 0x0F) 12)
                                  (Z.shiftl (Z.land s1 0x3F) 6))
                           (Z.land s2 0x3F), 3%nat)
                  else
                    match rest2 with
                    | "" => (RuneError, 1%nat)
                    | String c3 _ =>
                        let s3 := byteval c3 in
                        if negb (continuation s3) then (RuneError, 1%nat)
                        else
                          (Z.lor (Z.lor (Z.lor
                              (Z.shiftl (Z.land s0 0x07) 18)
                              (Z.shiftl (Z.land s1 0x3F) 12))
                              (Z.shiftl (Z.land s2 0x3F) 6))
                              (Z.land s3 0x3F), 4%nat)
                    end
              end
        end
    end.

(** The runes of [s] in order.  [skip] counts the bytes that still belong
    to the rune decoded last. *)
Fixpoint runesFrom (skip : nat) (s : string) : list Z :=
  match s with
  | "" => []
  | String c rest =>
      match skip with
      | S k => runesFrom k rest
      | O => let '(r, w) := DecodeRune c rest in
             r :: runesFrom (Nat.pred w) rest
      end
  end.

Definition runes (s : string) : list Z := runesFrom 0 s.

(** The pairs [(i, r)] of [for i, r := range s]. *)
Fixpoint rangeFrom (skip : nat) (i : Z) (s : string) : list (Z * Z) :=
  match s with
  | "" => []
  | String c rest =>
      match skip with
      | S k => rangeFrom k (i + 1) rest
      | O => let '(r, w) := DecodeRune c rest in
             (i, r) :: rangeFrom (Nat.pred w) (i + 1) rest
      end
  end.

(** [strings.IndexRune]: a rune below [RuneSelf] is searched as a byte; any
    other rune is searched among the decoded runes (a rune that is not a
    valid code point is never decoded, and [RuneError] stands for every
    invalid sequence, as in the library). *)
Definition IndexRune (s : string) (r : Z) : Z :=
  if (0 <=? r) && (r <? RuneSelf)
  then IndexByte s (ascii_of_N (Z.to_N r))
  else match List.find (fun p => snd p =? r) (rangeFrom 0 0 s) with
       | Some p => fst p
       | None => -1
       end.

(** [strings.ContainsRune] *)
Definition ContainsRune (s : string) (r : Z) : bool := 0 <=? IndexRune s r.

(** *** Replace, Split, Trim, Itoa *)

(** [strings.Replace(s, old, new, n)] for a non-empty [old]: the first [n]
    non-overlapping instances of [old], from the left, are replaced; all of
    them when [n < 0].  (The empty pattern, which Go splices between runes,
    is not used by this program and is left unchanged here.) *)
Fixpoint replaceFrom (skip : nat) (n : Z) (s old new : string) : string :=
  match s with
  | "" => ""
  | String c rest =>
      match skip with
      | S k => replaceFrom k n rest old new
      | O =>
          if negb (n =? 0) && HasPrefix s old
          then new +:+ replaceFrom (Nat.pred (String.length old)) (n - 1) rest old new
          else String c (replaceFrom 0 n rest old new)
      end
  end.

Definition Replace (s old new : string) (n : Z) : string :=
  if String.eqb old new || (n =? 0) || String.eqb old "" then s
  else replaceFrom 0 n s old new.

(** [strings.Split(s, sep)] for a non-empty [sep]: the pieces of [s]
    between the non-overlapping instances of [sep]; [cur] is the piece being
    read. *)
Fixpoint splitFrom (skip : nat) (cur s sep : string) : list string :=
  match s with
  | "" => [cur]
  | String c rest =>
      match skip with
      | S k => splitFrom k cur rest sep
      | O =>
          if HasPrefix s sep
          then cur :: splitFrom (Nat.pred (String.length sep)) "" rest sep
          else splitFrom 0 (cur +:+ String c "") rest sep
      end
  end.

Definition Split (s sep : string) : list string := splitFrom 0 "" s sep.

Definition inCutset (cutset : string) (c : ascii) : bool :=
  0 <=? IndexByte cutset c.

(** [strings.TrimLeft], [strings.TrimRight] and [strings.Trim] for a cutset
    of ASCII characters, where the library works byte by byte. *)
Fixpoint TrimLeft (s cutset : string) : string :=
  match s with
  | "" => ""
  | String c rest => if inCutset cutset c then TrimLeft rest cutset else s
  end.

Fixpoint TrimRight (s cutset : string) : string :=
  match s with
  | "" => ""
  | String c rest =>
      let r := TrimRight rest cutset in
      if String.eqb r "" && inCutset cutset c then "" else String c r
  end.

Definition Trim (s cutset : string) : string :=
  TrimLeft (TrimRight s cutset) cutset.

(** [strconv.Itoa] *)
Definition Itoa (i : Z) : string := NilZero.string_of_int (Z.to_int i).

(** *** path/filepath, with [/] as the separator *)

(** [filepath.Ext]: the suffix beginning at the final dot in the final
    element of the path; empty if there is no dot. *)
Fixpoint Ext (path : string) : string :=
  match path with
  | "" => ""
  | String c rest =>
      let e := Ext rest in
      if negb (String.eqb e "") || (0 <=? IndexByte rest "/") then e
      else if Ascii.eqb c "." then path else ""
  end.

(** [filepath.Base]: the last element of the path, trailing separators
    removed; ["."] for the empty path, ["/"] for a path of separators. *)
Definition Base (path : string) : string :=
  if String.eqb path "" then "."
  else
    let p := TrimRight path "/" in
    let i := LastIndex p "/" in
    let p := if 0 <=? i then dropBytes (Z.to_nat (i + 1)) p else p in
    if String.eqb p "" then "/" else p.

(** [strings.Join] *)
Fixpoint Join (elems : list string) (sep : string) : string :=
  match elems with
  | [] => ""
  | e :: rest =>
      match rest with
      | [] => e
      | _ :: _ => e +:+ sep +:+ Join rest sep
      end
  end.

(** [strings.ContainsAny] for ASCII [chars]. *)
Fixpoint ContainsAny (s chars : string) : bool :=
  match s with
  | "" => false
  | String c rest => inCutset chars c || ContainsAny rest chars
  end.

(** [sort.Strings]: ascending by bytes.  Which algorithm the library uses
    does not show in the result, equal strings being the same string. *)
Fixpoint insertString (s : string) (sorted : list string) : list string :=
  match sorted with
  | [] => [s]
  | x :: rest =>
      if String.leb s x then s :: sorted else x :: insertString s rest
  end.

Definition sortStrings (a : list string) : list string :=
  fold_right insertString [] a.

End Go.

(** ** Types and constants *)

Record ruleCheckArgs : Type := {
  filePath : string;
  fileAsString : string;
  fileAsLines : list string
}.

(** A check returns its diagnostic (empty when the file passes), unless it
    panics. *)
Definition checkFuncType : Type := ruleCheckArgs -> result string.

Record rule : Type := {
  name : string;
  argument : string;
  fileTypeFlags : Z;
  fileExtensions : list string;
  checkFunc : checkFuncType
}.

Definition flagTextFile : Z := 1.
Definition flagBinaryFile : Z := 2.

Definition csharpKeywordsWithSpacedParens : list string :=
  ["catch"; "for"; "foreach"; "if"; "lock"; "switch"; "using"; "while"].

(** Rocq string literals have no escapes: the control characters the program
    names are spelled out. *)
Definition TAB : string := String "009" "".
Definition LF : string := String "010" "".
Definition CR : string := String "013" "".
Definition CRLF : string := CR +:+ LF.
(** The double quote of the messages. *)
Definition quote : string := String "034" "".
(** The cutset [" \t"] of the calls to [strings.Trim]. *)
Definition spaceTab : string := " " +:+ TAB.

(** ** Utilities *)

Definition fatal {A : Type} (s : string) : result A := Fatal s.

Definition convertStringToLines (s : string) (returnNonEmptyOnly : bool)
  : list string :=
  if String.eqb s "" then []
  else
    let s := Go.Replace s CRLF LF (-1) in
    let s := Go.Replace s CR LF (-1) in
    let lines := Go.Split s LF in
    if negb returnNonEmptyOnly then lines
    else List.filter (fun line => negb (String.eqb line "")) lines.

Definition isControlCharacter (char : Z) : bool :=
  (char =? 127)
  || (((0 <=? char) && (char <=? 31))
      && negb (char =? 9) && negb (char =? 10) && negb (char =? 13)).

Fixpoint hasControlCharactersIn (rs : list Z) : bool :=
  match rs with
  | [] => false
  | char :: rest =>
      if isControlCharacter char then true else hasControlCharactersIn rest
  end.

Definition hasControlCharacters (line : string) : bool :=
  hasControlCharactersIn (Go.runes line).

Fixpoint stringArrayContains (array : list string) (s : string) : bool :=
  match array with
  | [] => false
  | element :: rest =>
      if String.eqb s element then true else stringArrayContains rest s
  end.

(** ** Rules *)

Definition fileError (filePath err : string) : string :=
  filePath +:+ ": " +:+ err.

Definition fileAndLineError (filePath : string) (lineNum : Z) (err : string)
  : string :=
  filePath +:+ ":" +:+ Go.Itoa lineNum +:+ ": " +:+ err.

(** The loops [for lineNum, line := range lines] carry the index [lineNum]
    of the line at the head of the list. *)
Fixpoint checkEachLineFrom (lineNum : Z) (filePath : string)
    (lines : list string) (errMsg : string) (isBad : string -> bool) : string :=
  match lines with
  | [] => ""
  | line :: rest =>
      if isBad line then fileAndLineError filePath (lineNum + 1) errMsg
      else checkEachLineFrom (lineNum + 1) filePath rest errMsg isBad
  end.

Definition checkEachLine := checkEachLineFrom 0.

Definition ruleCheckDoNothing : checkFuncType := fun args => Ok "".

Definition lineContainsTab (line : string) : bool :=
  Go.ContainsRune line 9.

Definition ruleCheckNoTabs : checkFuncType := fun args =>
  Ok (checkEachLine (filePath args) (fileAsLines args)
        "Tabs not allowed" lineContainsTab).

Fixpoint lineHasLeadingSpacesLoop (hasSpace : bool) (rs : list Z) : bool :=
  match rs with
  | [] => hasSpace
  | r :: rest =>
      if r =? 32 then lineHasLeadingSpacesLoop true rest else hasSpace
  end.

Definition lineHasLeadingSpaces (line : string) : bool :=
  if String.eqb line "" then false
  else lineHasLeadingSpacesLoop false (Go.runes line).

Definition ruleCheckNoLeadingSpaces : checkFuncType := fun args =>
  Ok (checkEachLine (filePath args) (fileAsLines args)
        "Leading spaces not allowed" lineHasLeadingSpaces).

(** *** TabsVsSpacesOnly *)

(** How the scan of one line ends: with the function returning a
    diagnostic, or with the two flags as the next line finds them. *)
Inductive lineScan : Type :=
  | Return (msg : string)
  | Next (hasTabIndent hasSpaceIndent : bool).

Fixpoint tabsVsSpacesLine (filePath : string) (lineNum : Z)
    (hasTabIndent hasSpaceIndent : bool) (rs : list Z) : lineScan :=
  match rs with
  | [] => Next hasTabIndent hasSpaceIndent
  | r :: rest =>
      if r =? 32 then
        if hasTabIndent
        then Return (fileAndLineError filePath (lineNum + 1)
                       "Found first space indent with prior tab indents")
        else tabsVsSpacesLine filePath lineNum hasTabIndent true rest
      else if r =? 9 then
        if hasSpaceIndent
        then Return (fileAndLineError filePath (lineNum + 1)
                       "Found first tab indent with prior space indents")
        else tabsVsSpacesLine filePath lineNum true hasSpaceIndent rest
      else Next hasTabIndent hasSpaceIndent
  end.

Fixpoint tabsVsSpacesFrom (filePath : string) (lineNum : Z)
    (hasTabIndent hasSpaceIndent : bool) (lines : list string) : string :=
  match lines with
  | [] => ""
  | line :: rest =>
      match tabsVsSpacesLine filePath lineNum hasTabIndent hasSpaceIndent
              (Go.runes line) with
      | Return msg => msg
      | Next hasTabIndent hasSpaceIndent =>
          tabsVsSpacesFrom filePath (lineNum + 1)
            hasTabIndent hasSpaceIndent rest
      end
  end.

Definition ruleCheckTabsVsSpacesOnly : checkFuncType := fun args =>
  Ok (tabsVsSpacesFrom (filePath args) 0 false false (fileAsLines args)).

(** *** ConsistentNewlines *)

Definition ruleCheckConsistentNewlines : checkFuncType := fun args =>
  let hasWindows := Go.Contains (fileAsString args) CRLF in
  let s := Go.Replace (fileAsString args) CRLF "" (-1) in
  let hasLinux := Go.ContainsRune s 10 in
  let hasOldMac := Go.ContainsRune s 13 in
  let count := 0 in
  let count := if hasWindows then count + 1 else count in
  let count := if hasLinux then count + 1 else count in
  let count := if hasOldMac then count + 1 else count in
  if 1 <? count
  then Ok (fileError (filePath args) "File uses inconsistent newlines")
  else Ok "".

(** *** ConsistentIndentWidth *)

Fixpoint numSpacesLoop (numSpaces : Z) (rs : list Z) : Z :=
  match rs with
  | [] => numSpaces
  | r :: rest =>
      if negb (r =? 32) then numSpaces else numSpacesLoop (numSpaces + 1) rest
  end.

Definition numSpacesOf (line : string) : Z := numSpacesLoop 0 (Go.runes line).

Record indentState : Type := {
  all3Spaces : bool;
  all4Spaces : bool;
  firstNon3SpaceLineNum : Z;
  firstNon4SpaceLineNum : Z
}.

Definition indentStep (lineNum : Z) (line : string) (st : indentState)
  : indentState :=
  let numSpaces := numSpacesOf line in
  let st :=
    if all3Spaces st && negb (Z.rem numSpaces 3 =? 0)
    then {| all3Spaces := false; all4Spaces := all4Spaces st;
            firstNon3SpaceLineNum := lineNum + 1;
            firstNon4SpaceLineNum := firstNon4SpaceLineNum st |}
    else st in
  if all4Spaces st && negb (Z.rem numSpaces 4 =? 0)
  then {| all3Spaces := all3Spaces st; all4Spaces := false;
          firstNon3SpaceLineNum := firstNon3SpaceLineNum st;
          firstNon4SpaceLineNum := lineNum + 1 |}
  else st.

Fixpoint indentLoop (lineNum : Z) (lines : list string) (st : indentState)
  : indentState :=
  match lines with
  | [] => st
  | line :: rest => indentLoop (lineNum + 1) rest (indentStep lineNum line st)
  end.

Definition ruleCheckConsistentIndentWidth : checkFuncType := fun args =>
  let st := indentLoop 0 (fileAsLines args)
              {| all3Spaces := true; all4Spaces := true;
                 firstNon3SpaceLineNum := 0; firstNon4SpaceLineNum := 0 |} in
  if negb (all3Spaces st) && negb (all4Spaces st) then
    if negb (all4Spaces st)
    then Ok (fileAndLineError (filePath args) (firstNon4SpaceLineNum st)
               "File has first non 4-space indent")
    else Ok (fileAndLineError (filePath args) (firstNon3SpaceLineNum st)
               "File has first non 3-space indent")
  else Ok "".

(** *** BadNameSpace *)

Definition getFilePathAsNameSpace (filePath : string) : result string :=
  let filePath := Go.Replace filePath "\" "/" (-1) in
  let base := Go.LastIndex filePath "/" in
  dir ← Go.slice filePath 0 base;
  let colon := Go.IndexRune dir 58 in
  dir ← (if 0 <=? colon then Go.sliceFrom dir (colon + 1) else Ok dir);
  dir ← (if Go.HasPrefix dir "/" then Go.sliceFrom dir 1 else Ok dir);
  let pathAsNameSpace := Go.Replace dir "/" "." (-1) in
  let pathAsNameSpace := Go.Replace pathAsNameSpace "\" "." (-1) in
  Ok pathAsNameSpace.

Fixpoint badNameSpaceFrom (filePath : string) (lineNum : Z)
    (pathAsNameSpace : string) (lines : list string) : result string :=
  match lines with
  | [] => Ok ""
  | line :: rest =>
      let line := Go.Trim line spaceTab in
      if negb (Go.HasPrefix line "namespace ")
      then badNameSpaceFrom filePath (lineNum + 1) pathAsNameSpace rest
      else
        namespace ← Go.sliceFrom line (Go.len "namespace ");
        pathAsNameSpace ←
          (if String.eqb pathAsNameSpace ""
           then getFilePathAsNameSpace filePath
           else Ok pathAsNameSpace);
        if negb (Go.HasSuffix pathAsNameSpace ("." +:+ namespace))
        then Ok (fileAndLineError filePath (lineNum + 1)
                   ("Namespace " +:+ namespace +:+ " is not a suffix of "
                    +:+ pathAsNameSpace))
        else badNameSpaceFrom filePath (lineNum + 1) pathAsNameSpace rest
  end.

Definition ruleCheckBadNameSpace : checkFuncType := fun args =>
  badNameSpaceFrom (filePath args) 0 "" (fileAsLines args).

(** *** BadClassName *)

(** [className] is [None] in the last branch of the chain, where the
    source goes on to the next line. *)
Fixpoint badClassNameFrom (filePath base : string) (lineNum : Z)
    (lines : list string) : result string :=
  match lines with
  | [] => Ok ""
  | line :: rest =>
      let line := Go.Trim line spaceTab in
      className ←
        (if Go.HasPrefix line "class "
         then Some <$> Go.sliceFrom line (Go.len "class ")
         else if Go.HasPrefix line "public class "
         then Some <$> Go.sliceFrom line (Go.len "public class ")
         else if Go.HasPrefix line "internal class "
         then Some <$> Go.sliceFrom line (Go.len "internal class ")
         else Ok None);
      match className with
      | None => badClassNameFrom filePath base (lineNum + 1) rest
      | Some className =>
          if negb (String.eqb className base)
          then Ok (fileAndLineError filePath (lineNum + 1)
                     ("Class name " +:+ className +:+ " should be " +:+ base
                      +:+ " instead"))
          else badClassNameFrom filePath base (lineNum + 1) rest
      end
  end.

Definition ruleCheckBadClassName : checkFuncType := fun args =>
  let base := Go.Base (filePath args) in
  base ← Go.slice base 0 (Go.len base - Go.len ".cs");
  badClassNameFrom (filePath args) base 0 (fileAsLines args).

(** *** NoMultiplePublicClasses *)

Fixpoint noMultiplePublicClassesFrom (filePath : string) (lineNum count : Z)
    (lines : list string) : string :=
  match lines with
  | [] => ""
  | line :: rest =>
      let line := Go.Trim line spaceTab in
      if Go.HasPrefix line "public class " then
        let count := count + 1 in
        if 1 <? count
        then fileAndLineError filePath (lineNum + 1)
               "Cannot have multiple public classes per file"
        else noMultiplePublicClassesFrom filePath (lineNum + 1) count rest
      else noMultiplePublicClassesFrom filePath (lineNum + 1) count rest
  end.

Definition ruleCheckNoMultiplePublicClasses : checkFuncType := fun args =>
  Ok (noMultiplePublicClassesFrom (filePath args) 0 0 (fileAsLines args)).

(** *** The three single-convention newline rules *)

Definition ruleCheckWindowsNewlines : checkFuncType := fun args =>
  let s := Go.Replace (fileAsString args) CRLF "" (-1) in
  if Go.ContainsRune s 10
  then Ok (fileError (filePath args)
             "File contains non-Windows (Linux) newlines")
  else if Go.ContainsRune s 13
  then Ok (fileError (filePath args)
             "File contains non-Windows (Old Mac) newlines")
  else Ok "".

Definition ruleCheckLinuxNewlines : checkFuncType := fun args =>
  if Go.Contains (fileAsString args) CRLF
  then Ok (fileError (filePath args)
             "File contains non-Linux (Windows) newlines")
  else
    let s := Go.Replace (fileAsString args) CRLF "" (-1) in
    if Go.ContainsRune s 13
    then Ok (fileError (filePath args)
               "File contains non-Linux (Old Mac) newlines")
    else Ok "".

Definition ruleCheckOldMacNewlines : checkFuncType := fun args =>
  if Go.Contains (fileAsString args) CRLF
  then Ok (fileError (filePath args)
             "File contains non-Old Mac (Windows) newlines")
  else
    let s := Go.Replace (fileAsString args) CRLF "" (-1) in
    if Go.ContainsRune s 10
    then Ok (fileError (filePath args)
               "File contains non-Old Mac (Linux) newlines")
    else Ok "".

(** *** NeedSpaceAfterKeyword *)

(** The inner loop over the keywords appends to the buffer; its [continue]
    is the last statement of the body. *)
Fixpoint needSpaceKeywords (filePath : string) (lineNum : Z) (line : string)
    (keywords : list string) (buffer : string) : string :=
  match keywords with
  | [] => buffer
  | keyword :: rest =>
      let buffer :=
        if Go.HasPrefix line (keyword +:+ "(")
        then buffer +:+ fileAndLineError filePath (lineNum + 1)
               ("Need space between keyword " +:+ keyword
                +:+ " and open paren" +:+ LF)
        else buffer in
      needSpaceKeywords filePath lineNum line rest buffer
  end.

Fixpoint needSpaceFrom (filePath : string) (lineNum : Z)
    (lines : list string) (buffer : string) : string :=
  match lines with
  | [] => buffer
  | line :: rest =>
      let line := Go.Trim line spaceTab in
      needSpaceFrom filePath (lineNum + 1) rest
        (needSpaceKeywords filePath lineNum line
           csharpKeywordsWithSpacedParens buffer)
  end.

Definition ruleCheckNeedSpaceAfterKeyword : checkFuncType := fun args =>
  Ok (needSpaceFrom (filePath args) 0 (fileAsLines args) "").

(** ** The catalog *)

Definition addRule (rulesMap : gmap string rule) (ruleName : string)
    (checkFunc : checkFuncType) (fileTypeFlags : Z) (fileExtensions : string)
  : gmap string rule :=
  let fileExtensionsArray :=
    if negb (String.eqb fileExtensions "")
    then Go.Split fileExtensions "|" else [] in
  <[ruleName := {| name := ruleName;
                   argument := "";
                   checkFunc := checkFunc;
                   fileTypeFlags := fileTypeFlags;
                   fileExtensions := fileExtensionsArray |}]> rulesMap.

Definition initRulesDefinitions : gmap string rule :=
  let defs : gmap string rule := ∅ in
  let defs := addRule defs "DoNothing" ruleCheckDoNothing flagTextFile "" in
  let defs := addRule defs "NoTabs" ruleCheckNoTabs flagTextFile "" in
  let defs := addRule defs "NoLeadingSpaces" ruleCheckNoLeadingSpaces flagTextFile "" in
  let defs := addRule defs "TabsVsSpacesOnly" ruleCheckTabsVsSpacesOnly flagTextFile "" in
  let defs := addRule defs "ConsistentNewlines" ruleCheckConsistentNewlines flagTextFile "" in
  let defs := addRule defs "ConsistentIndentWidth" ruleCheckConsistentIndentWidth flagTextFile "" in
  let defs := addRule defs "BadNameSpace" ruleCheckBadNameSpace flagTextFile ".cs" in
  let defs := addRule defs "BadClassName" ruleCheckBadClassName flagTextFile ".cs" in
  let defs := addRule defs "NoMultiplePublicClasses" ruleCheckNoMultiplePublicClasses flagTextFile ".cs" in
  let defs := addRule defs "WindowsNewlines" ruleCheckWindowsNewlines flagTextFile "" in
  let defs := addRule defs "LinuxNewlines" ruleCheckLinuxNewlines flagTextFile "" in
  let defs := addRule defs "OldMacNewlines" ruleCheckOldMacNewlines flagTextFile "" in
  let defs := addRule defs "NeedSpaceAfterKeyword" ruleCheckNeedSpaceAfterKeyword flagTextFile ".cs" in
  defs.

Definition rulesDefinitions : gmap string rule := initRulesDefinitions.

Definition getRuleMustExist (ruleName : string) : result rule :=
  match rulesDefinitions !! ruleName with
  | Some r => Ok r
  | None => fatal ("Unrecognized rule: " +:+ ruleName)
  end.

(** The composite literal names four fields; [fileTypeFlags] is not among
    them and takes the zero value of [int]. *)
Definition cloneRule (r : rule) : rule :=
  {| name := name r;
     argument := argument r;
     checkFunc := checkFunc r;
     fileExtensions := fileExtensions r;
     fileTypeFlags := 0 |}.

(** The assignment [newRule.argument = ...]. *)
Definition setArgument (r : rule) (a : string) : rule :=
  {| name := name r;
     argument := a;
     fileTypeFlags := fileTypeFlags r;
     fileExtensions := fileExtensions r;
     checkFunc := checkFunc r |}.

Definition parseRule (line : string) : result rule :=
  let spaceIndex := Go.Index line " " in
  if spaceIndex <? 0 then getRuleMustExist line
  else
    name' ← Go.slice line 0 spaceIndex;
    ruleDef ← getRuleMustExist name';
    let newRule := cloneRule ruleDef in
    arg ← Go.sliceFrom line (spaceIndex + 1);
    Ok (setArgument newRule arg).

Fixpoint parseConfigLines (lines : list string) (rules : list rule)
  : result (list rule) :=
  match lines with
  | [] => Ok rules
  | line :: rest =>
      let line := Go.Trim line spaceTab in
      if String.eqb line "" || Go.HasPrefix line "#" || Go.HasPrefix line "//"
      then parseConfigLines rest rules
      else
        r ← parseRule line;
        parseConfigLines rest (rules ++ [r])
  end.

Definition parseConfigRules (configFilePath : string) (lines : list string)
  : result (list rule) :=
  rules ← parseConfigLines lines [];
  if (length rules =? 0)%nat
  then fatal ("No rules are loaded from " +:+ quote +:+ configFilePath
              +:+ quote)
  else Ok rules.

(** ** The environment and the run *)

(** What a call of the operating system or of [path/filepath] returns:
    a value, or an error with the text of [err.Error()]. *)
Inductive sys : Type :=
  | SysOk (data : string)
  | SysErr (err : string).

(** The file system and working directory the program runs in.  [osOpen]
    gives the bytes that reads through the opened handle deliver;
    [ioutilReadFile] the whole content. *)
Record world : Type := {
  osOpen : string -> sys;
  ioutilReadFile : string -> sys;
  filepathAbs : string -> sys;
  filepathClean : string -> string
}.

(** What the run does that can be observed from outside. *)
Inductive event : Type :=
  | EvOpen (path : string)
  | EvReadFile (path : string)
  | EvCheck (r : rule) (args : ruleCheckArgs)
  | EvPrintln (msg : string).

(** A command: the events it performs, in order, and how it ends. *)
Definition io (A : Type) : Type := list event * result A.

#[global] Instance io_ret : MRet io := fun A a => ([], Ok a).

#[global] Instance io_bind : MBind io := fun A B f m =>
  match m with
  | (t, Ok a) => let '(t', r) := f a in (t ++ t', r)
  | (t, Fatal msg) => (t, Fatal msg)
  | (t, Panic msg) => (t, Panic msg)
  end.

Definition emit (e : event) : io unit := ([e], Ok tt).
Definition lift {A : Type} (r : result A) : io A := ([], r).
Definition trace {A : Type} (m : io A) : list event := fst m.
Definition outcome {A : Type} (m : io A) : result A := snd m.

(** [make([]byte, n)]: [n] zero bytes. *)
Fixpoint make (n : nat) : string :=
  match n with
  | O => ""
  | S k => String "000" (make k)
  end.

(** [file.Read(buf)] on a handle delivering [data]: the first bytes of the
    buffer are overwritten, the rest keeps what it held.  The count and the
    error that [Read] returns are dropped by the caller. *)
Definition fileRead (buf data : string) : string :=
  let n := Nat.min (String.length buf) (String.length data) in
  Go.takeBytes n data +:+ Go.dropBytes n buf.

Definition readFileString (w : world) (filePath : string) : io string :=
  emit (EvReadFile filePath);;
  match ioutilReadFile w filePath with
  | SysErr err => lift (fatal ("Cannot read file " +:+ filePath +:+ ": " +:+ err))
  | SysOk bytes => mret bytes
  end.

(** The only call passes 50 for [bytesCount]. *)
Definition readFirstNChars (w : world) (filePath : string) (bytesCount : Z)
  : io string :=
  emit (EvOpen filePath);;
  match osOpen w filePath with
  | SysErr err =>
      lift (fatal ("Cannot read file " +:+ quote +:+ filePath +:+ quote
                   +:+ ": " +:+ err))
  | SysOk data =>
      let bytes := make (Z.to_nat bytesCount) in
      mret (fileRead bytes data)
  end.

Definition getCanonicalPath (w : world) (filePath : string) : string :=
  let filePath :=
    match filepathAbs w filePath with
    | SysOk absFile => absFile
    | SysErr _ => filePath
    end in
  filepathClean w filePath.

(** The block [if !fileLoaded { ... }] of the loop body: the content is read
    and split into lines the first time a rule needs it. *)
Definition lazyLoad (w : world) (fileLoaded : bool) (args : ruleCheckArgs)
  : io ruleCheckArgs :=
  if negb fileLoaded
  then s ← readFileString w (filePath args);
       mret {| filePath := filePath args;
               fileAsString := s;
               fileAsLines := convertStringToLines s false |}
  else mret args.

(** The loop over the rules for one file.  [fileLoaded] and [args] hold the
    locals [fileLoaded], [filePath], [fileAsString] and [fileAsLines]; after
    the lazy load [fileLoaded] is true. *)
Fixpoint runRulesLoop (w : world) (fileExtension : string) (isBinary : bool)
    (rules : list rule) (fileLoaded : bool) (args : ruleCheckArgs) : io unit :=
  match rules with
  | [] => mret tt
  | rule :: rest =>
      if negb (length (fileExtensions rule) =? 0)%nat
         && negb (stringArrayContains (fileExtensions rule) fileExtension)
      then runRulesLoop w fileExtension isBinary rest fileLoaded args
      else if isBinary && (Z.land (fileTypeFlags rule) flagBinaryFile =? 0)
      then runRulesLoop w fileExtension isBinary rest fileLoaded args
      else if negb isBinary && (Z.land (fileTypeFlags rule) flagTextFile =? 0)
      then runRulesLoop w fileExtension isBinary rest fileLoaded args
      else
        args ← lazyLoad w fileLoaded args;
        emit (EvCheck rule args);;
        msg ← lift (checkFunc rule args);
        (if negb (String.eqb msg "") then emit (EvPrintln msg) else mret tt);;
        runRulesLoop w fileExtension isBinary rest true args
  end.

(** The body of the loop over the files. *)
Definition runRulesOnFile (w : world) (rules : list rule) (filePath : string)
  : io unit :=
  let fileExtension := Go.Ext filePath in
  let filePath := getCanonicalPath w filePath in
  firstNChars ← readFirstNChars w filePath 50;
  let isBinary := hasControlCharacters firstNChars in
  runRulesLoop w fileExtension isBinary rules false
    {| filePath := filePath; fileAsString := ""; fileAsLines := [] |}.

Fixpoint runRulesOnFiles (w : world) (rules : list rule) (files : list string)
  : io unit :=
  match files with
  | [] => mret tt
  | filePath :: rest =>
      runRulesOnFile w rules filePath;;
      runRulesOnFiles w rules rest
  end.

(** ** The files that git reports *)

(** What the program asks of the operating system when it is given no
    argument: whether a path is a directory ([os.Stat] without error and
    [IsDir]), whether [os.Chdir] succeeds, and what a command run in a
    working directory prints, with whether it ran without error. *)
Record shell : Type := {
  isDir : string -> bool;
  osChdir : string -> bool;
  combinedOutput : string -> string -> list string -> string * bool
}.

(** [execAndGetOutput], run in the working directory [cwd]. *)
Definition execAndGetOutput (sh : shell) (cwd command : string)
    (args : list string) : result string :=
  let '(output, ok) := combinedOutput sh cwd command args in
  if negb ok
  then fatal ("Cannot execute command " +:+ quote +:+ command +:+ quote
              +:+ ": " +:+ output)
  else Ok output.

(** The loop of [gotoGitRepoRootDir]: the slice [paths] is cut at its end
    in every turn, so that it is the first [n] elements of the split
    path.  The result is the working directory after the call: the
    directory found when [os.Chdir], whose error is dropped, succeeds. *)
Fixpoint gotoGitRepoRootDirFrom (sh : shell) (cwd : string) (n : nat)
    (paths : list string) : result string :=
  match n with
  | O => fatal "Not a git repository"
  | S k =>
      let d := Go.Join (take n paths) "/" in
      let p := d +:+ "/.git" in
      if isDir sh p
      then Ok (if osChdir sh d then d else cwd)
      else gotoGitRepoRootDirFrom sh cwd k paths
  end.

(** The error of [filepath.Abs] is dropped: the path is then empty. *)
Definition gotoGitRepoRootDir (w : world) (sh : shell) (cwd : string)
  : result string :=
  let filePath :=
    match filepathAbs w "." with
    | SysOk p => p
    | SysErr _ => ""
    end in
  let filePath := Go.Replace filePath "\" "/" (-1) in
  let paths := Go.Split filePath "/" in
  gotoGitRepoRootDirFrom sh cwd (length paths) paths.

Definition getListOfFilesFromGit (w : world) (sh : shell) (cwd : string)
  : result (list string) :=
  cwd ← gotoGitRepoRootDir w sh cwd;
  diff1 ← execAndGetOutput sh cwd "git" ["diff"; "--name-only"; "--cached"];
  diff2 ← execAndGetOutput sh cwd "git" ["diff"; "--name-only"];
  diff3 ← execAndGetOutput sh cwd "git"
            ["ls-files"; "--others"; "--exclude-standard"];
  let array1 := convertStringToLines diff1 true in
  let array2 := convertStringToLines diff2 true in
  let array3 := convertStringToLines diff3 true in
  Ok ((array1 ++ array2) ++ array3).

(** ** The files of the command line *)

(** [array[i]]: nothing where the index is outside the array. *)
Definition index (array : list string) (i : Z) : option string :=
  if i <? 0 then None else array !! Z.to_nat i.

(** The loop of [stringArrayReverse]: [array[i], array[j] = array[j],
    array[i]] while [i < j].  An index outside the array panics.  The loop
    takes at most [len(array)] turns, which is what [turns] counts down
    from. *)
Fixpoint stringArrayReverseFrom (turns : nat) (i j : Z) (array : list string)
  : result (list string) :=
  match turns with
  | O => Ok array
  | S k =>
      if i <? j
      then
        match index array i, index array j with
        | Some x, Some y =>
            stringArrayReverseFrom k (i + 1) (j - 1)
              (<[Z.to_nat j := x]> (<[Z.to_nat i := y]> array))
        | _, _ => Panic "index out of range"
        end
      else Ok array
  end.

(** The array after the call. *)
Definition stringArrayReverse (array : list string) : result (list string) :=
  stringArrayReverseFrom (length array) 0 (Z.of_nat (length array) - 1) array.

(** What the program asks of the file system when it is given arguments:
    the matches of a pattern ([filepath.Glob], [None] for its error);
    whether a path is a regular file ([os.Stat], [None] for its error);
    the names in a directory ([os.Open], [None] for its error, and then
    [Readdirnames], whose error is dropped); and [path.Join] of a directory
    and a name. *)
Record fileSystem : Type := {
  filepathGlob : string -> option (list string);
  osStat : string -> option bool;
  readdirnames : string -> option (list string);
  pathJoin : string -> string -> string
}.

(** The first loop of [getListOfFilesFromArguments], over [os.Args[1:]]. *)
Fixpoint argumentFiles (fs : fileSystem) (args files : list string)
  : list string :=
  match args with
  | [] => files
  | pattern :: rest =>
      if Go.ContainsAny pattern "?*"
      then
        match filepathGlob fs pattern with
        | Some matches => argumentFiles fs rest (files ++ matches)
        | None => argumentFiles fs rest files
        end
      else argumentFiles fs rest (files ++ [pattern])
  end.

(** The second loop, [for len(files) > 0]: nothing bounds its turns in
    the source, [None] is for the turns given being used up. *)
Fixpoint subdirFiles (fs : fileSystem) (turns : nat)
    (files files2 : list string) : option (list string) :=
  match turns with
  | O => None
  | S k =>
      match last files with
      | None => Some files2
      | Some f =>
          let files := take (length files - 1) files in
          match osStat fs f with
          | None => subdirFiles fs k files files2
          | Some true => subdirFiles fs k files (files2 ++ [f])
          | Some false =>
              if String.eqb (Go.Base f) ".git"
              then subdirFiles fs k files files2
              else
                match readdirnames fs f with
                | None => subdirFiles fs k files files2
                | Some fileNames =>
                    let fileNames := Go.sortStrings fileNames in
                    subdirFiles fs k
                      (files ++ map (pathJoin fs f) fileNames) files2
                end
          end
      end
  end.

Definition getListOfFilesFromArguments (fs : fileSystem) (turns : nat)
    (args : list string) : option (result (list string)) :=
  let files := argumentFiles fs args [] in
  files2 ← subdirFiles fs turns files [];
  Some (stringArrayReverse files2).

(** * The words of the specification

    The notions the claims are stated with, defined on their own and not by
    the code they are compared with. *)

Module Spec.

(** The words of the specification: the leading token of a config line is
    the whole line when it contains no space, otherwise the text before the
    first space; the argument is the remainder after the first space. *)
Fixpoint containsSpace (line : string) : bool :=
  match line with
  | "" => false
  | String c rest => Ascii.eqb c " " || containsSpace rest
  end.

Fixpoint leadingToken (line : string) : string :=
  match line with
  | "" => ""
  | String c rest =>
      if Ascii.eqb c " " then "" else String c (leadingToken rest)
  end.

Fixpoint afterFirstSpace (line : string) : string :=
  match line with
  | "" => ""
  | String c rest => if Ascii.eqb c " " then rest else afterFirstSpace rest
  end.

(** A control byte: below 32 and none of tab (9), line feed (10) and
    carriage return (13), or DEL (127). *)
Definition controlByte (c : ascii) : bool :=
  let b := Go.byteval c in
  ((b <? 32) && negb (b =? 9) && negb (b =? 10) && negb (b =? 13))
  || (b =? 127).

Fixpoint hasControlByte (data : string) : bool :=
  match data with
  | "" => false
  | String c rest => controlByte c || hasControlByte rest
  end.

(** The leading-space count of a line: the number of spaces before its
    first character that is not a space. *)
Fixpoint leadingSpaces (line : string) : nat :=
  match line with
  | "" => 0
  | String c rest => if Ascii.eqb c " " then S (leadingSpaces rest) else 0
  end.

(** The count is a multiple of [d]. *)
Definition multipleOf (d : nat) (line : string) : Prop :=
  (leadingSpaces line mod d = 0)%nat.

(** The leading whitespace of a line is its longest prefix of spaces and
    tabs.  It consists only of tabs when the first character of the line
    that is not a tab is not a space either. *)
Fixpoint onlyTabs (line : string) : bool :=
  match line with
  | "" => true
  | String c rest =>
      if Ascii.eqb c "009" then onlyTabs rest else negb (Ascii.eqb c " ")
  end.

(** The leading whitespace contains a tab. *)
Fixpoint hasLeadingTab (line : string) : bool :=
  match line with
  | "" => false
  | String c rest =>
      if Ascii.eqb c "009" then true
      else if Ascii.eqb c " " then hasLeadingTab rest else false
  end.

(** The leading whitespace starts with a space. *)
Definition startsWithSpace (line : string) : bool :=
  match line with
  | String c _ => Ascii.eqb c " "
  | "" => false
  end.

(** C5 as it is worded: only tabs passes, and a line whose leading
    whitespace contains a tab followed, anywhere later, by a line that starts
    with a space fails with the number of that later line. *)
Definition tabsVsSpacesClaim (args : ruleCheckArgs) : Prop :=
  (Forall (fun line => onlyTabs line = true) (fileAsLines args) ->
   ruleCheckTabsVsSpacesOnly args = Ok "")
  /\ (forall (i j : nat) li lj,
        (i < j)%nat ->
        fileAsLines args !! i = Some li -> hasLeadingTab li = true ->
        fileAsLines args !! j = Some lj -> startsWithSpace lj = true ->
        exists msg,
          ruleCheckTabsVsSpacesOnly args
          = Ok (fileAndLineError (filePath args) (Z.of_nat j + 1) msg)).

Definition spaceAfterTabMsg : string :=
  "Found first space indent with prior tab indents".

(** The three classifications of a raw text. *)
Fixpoint hasCRLF (text : string) : bool :=
  match text with
  | "" => false
  | String c rest =>
      (Ascii.eqb c "013"
       && match rest with String d _ => Ascii.eqb d "010" | "" => false end)
      || hasCRLF rest
  end.

(** The text with all CRLF pairs removed, read from the left. *)
Fixpoint withoutCRLF (text : string) : string :=
  match text with
  | "" => ""
  | String c rest =>
      match rest with
      | String d rest' =>
          if Ascii.eqb c "013" && Ascii.eqb d "010" then withoutCRLF rest'
          else String c (withoutCRLF rest)
      | "" => String c ""
      end
  end.

Fixpoint hasByte (b : ascii) (text : string) : bool :=
  match text with
  | "" => false
  | String c rest => Ascii.eqb c b || hasByte b rest
  end.

Definition hasBareLF (text : string) : bool := hasByte "010" (withoutCRLF text).
Definition hasBareCR (text : string) : bool := hasByte "013" (withoutCRLF text).

(** More than one of three holds. *)
Definition moreThanOne (a b c : bool) : bool := (a && b) || (a && c) || (b && c).

(** A class-declaration line: its trimmed form begins with [class ],
    [public class ] or [internal class ]; the declared name is what
    follows. *)
Definition classDeclaration (line : string) : option string :=
  let t := Go.Trim line spaceTab in
  if Go.HasPrefix t "class " then Some (Go.dropBytes 6 t)
  else if Go.HasPrefix t "public class " then Some (Go.dropBytes 13 t)
  else if Go.HasPrefix t "internal class " then Some (Go.dropBytes 15 t)
  else None.

Definition classNameMsg (className base : string) : string :=
  "Class name " +:+ className +:+ " should be " +:+ base +:+ " instead".

(** C3 as it is worded: every declaration line whose name disagrees with
    the base name has its own diagnostic in what the check returns. *)
Definition badClassNameClaim (args : ruleCheckArgs) : Prop :=
  forall base, Go.Base (filePath args) = base +:+ ".cs" ->
  forall (i : nat) line className,
    fileAsLines args !! i = Some line ->
    classDeclaration line = Some className ->
    className <> base ->
    exists out,
      ruleCheckBadClassName args = Ok out
      /\ Go.Contains out
           (fileAndLineError (filePath args) (Z.of_nat i + 1)
              (classNameMsg className base)) = true.

(** A namespace-declaration line: its trimmed form begins with
    [namespace ]; the declared namespace is what follows. *)
Definition namespaceDeclaration (line : string) : option string :=
  let t := Go.Trim line spaceTab in
  if Go.HasPrefix t "namespace " then Some (Go.dropBytes 10 t) else None.

(** ["." + N] is a suffix of [D]. *)
Definition dotSuffix (N D : string) : Prop :=
  exists front, D = front +:+ "." +:+ N.

Definition nameSpaceMsg (namespace pathAsNameSpace : string) : string :=
  "Namespace " +:+ namespace +:+ " is not a suffix of " +:+ pathAsNameSpace.

(** The applicability flags of a rule, as the two booleans of the data
    model. *)
Definition appliesToText (r : rule) : bool := Z.testbit (fileTypeFlags r) 0.
Definition appliesToBinary (r : rule) : bool := Z.testbit (fileTypeFlags r) 1.

(** The extension set of the rule is empty or contains the extension. *)
Definition extensionAccepted (r : rule) (ext : string) : Prop :=
  fileExtensions r = [] \/ In ext (fileExtensions r).

(** The classification of the file matches the flags of the rule. *)
Definition typeAccepted (r : rule) (isBinary : bool) : Prop :=
  if isBinary then appliesToBinary r = true else appliesToText r = true.

(** The number of times a run loads the full content of a file. *)
Fixpoint loads (t : list event) : nat :=
  match t with
  | [] => 0
  | EvReadFile _ :: rest => S (loads rest)
  | _ :: rest => loads rest
  end.

(** A config line counts when, trimmed of spaces and tabs, it is not empty
    and begins with neither [#] nor [//]. *)
Definition effective (line : string) : bool :=
  let t := Go.Trim line spaceTab in
  negb (String.eqb t "" || Go.HasPrefix t "#" || Go.HasPrefix t "//").

(** The rule a config line asks for: the name before the first space of
    the trimmed line, and the argument after it. *)
Definition requestedName (line : string) : string :=
  leadingToken (Go.Trim line spaceTab).

Definition requestedArgument (line : string) : string :=
  afterFirstSpace (Go.Trim line spaceTab).

(** The rule list [rules] answers the lines [lines] one for one: each rule
    has the name its line asks for, which is registered, the check and the
    extensions of the catalog entry, and the argument of its line. *)
Definition answers (line : string) (r : rule) : Prop :=
  exists R,
    rulesDefinitions !! requestedName line = Some R
    /\ name r = requestedName line
    /\ checkFunc r = checkFunc R
    /\ fileExtensions r = fileExtensions R
    /\ argument r = requestedArgument line.

(** The name asked for by the first line that counts and whose name is not
    registered. *)
Fixpoint firstUnrecognized (lines : list string) : option string :=
  match lines with
  | [] => None
  | line :: rest =>
      if effective line
      then match rulesDefinitions !! requestedName line with
           | Some _ => firstUnrecognized rest
           | None => Some (requestedName line)
           end
      else firstUnrecognized rest
  end.

Definition noRulesMsg (configFilePath : string) : string :=
  "No rules are loaded from " +:+ quote +:+ configFilePath +:+ quote.

(** The trimmed line begins with [public class ]. *)
Definition publicClassLine (line : string) : bool :=
  Go.HasPrefix (Go.Trim line spaceTab) "public class ".

(** The keyword, of the eight, that the trimmed line begins with directly
    before an open parenthesis. *)
Definition keywordBeforeParen (line : string) : option string :=
  List.find (fun keyword => Go.HasPrefix (Go.Trim line spaceTab) (keyword +:+ "("))
    csharpKeywordsWithSpacedParens.

Definition needSpaceMsg (filePath : string) (lineNum : Z) (keyword : string)
  : string :=
  fileAndLineError filePath lineNum
    ("Need space between keyword " +:+ keyword +:+ " and open paren" +:+ LF).

(** One message, ended by a line feed, for every line that begins with a
    keyword and a parenthesis, in the order of the lines; [n] lines come
    before. *)
Fixpoint needSpaceReport (filePath : string) (n : Z) (lines : list string)
  : string :=
  match lines with
  | [] => ""
  | line :: rest =>
      match keywordBeforeParen line with
      | Some keyword => needSpaceMsg filePath (n + 1) keyword
      | None => ""
      end +:+ needSpaceReport filePath (n + 1) rest
  end.

(** The text with every byte [a] replaced by [b]. *)
Fixpoint replaceByte (a b : ascii) (text : string) : string :=
  match text with
  | "" => ""
  | String c rest =>
      String (if Ascii.eqb c a then b else c) (replaceByte a b rest)
  end.

(** What comes before the last byte [b] of the text. *)
Fixpoint beforeLastByte (b : ascii) (text : string) : string :=
  match text with
  | "" => ""
  | String c rest =>
      if hasByte b rest then String c (beforeLastByte b rest) else ""
  end.

(** What comes after the first byte [b] of the text; the whole text when
    it has none. *)
Fixpoint afterByte (b : ascii) (text : string) : string :=
  match text with
  | "" => ""
  | String c rest =>
      if Ascii.eqb c b then rest
      else if hasByte b rest then afterByte b rest else text
  end.

(** The text without one leading [/]. *)
Definition withoutLeadingSlash (text : string) : string :=
  match text with
  | String c rest => if Ascii.eqb c "/" then rest else text
  | "" => ""
  end.

(** The namespace of a path: its directory part, with either separator;
    without the drive, up to the first colon; without a leading separator;
    and with its separators turned into dots. *)
Definition derivedNameSpace (path : string) : string :=
  replaceByte "/" "."
    (withoutLeadingSlash
       (afterByte ":" (beforeLastByte "/" (replaceByte "\" "/" path)))).

(** The path has a separator, of either kind. *)
Definition hasSeparator (path : string) : bool :=
  hasByte "/" path || hasByte "\" path.

(** The class name that BadClassName expects for a path: the base name
    without its last three bytes, if it has that many. *)
Definition expectedClassName (path : string) : option string :=
  let base := Go.Base path in
  if (String.length base <? 3)%nat then None
  else Some (Go.takeBytes (String.length base - 3) base).

(** The line declares no class, or the class [expected]. *)
Definition declaresOnly (expected line : string) : Prop :=
  forall className, classDeclaration line = Some className ->
                    className = expected.

(** Some line declares a namespace. *)
Definition declaresNameSpace (lines : list string) : bool :=
  existsb (fun line => match namespaceDeclaration line with
                       | Some _ => true
                       | None => false
                       end) lines.

(** The checks a run invokes, in order: the rule and what it is given. *)
Fixpoint checks (t : list event) : list (rule * ruleCheckArgs) :=
  match t with
  | [] => []
  | EvCheck r args :: rest => (r, args) :: checks rest
  | _ :: rest => checks rest
  end.


(** What a check is given is the content of the file at its path, and the
    lines of that content, empty ones included. *)
Definition holdsContent (w : world) (args : ruleCheckArgs) : Prop :=
  ioutilReadFile w (filePath args) = SysOk (fileAsString args)
  /\ fileAsLines args = convertStringToLines (fileAsString args) false.

(** A rule accepts a file by its extension, when the rule names none or
    names that one, and by its classification. *)
Definition accepts (ext : string) (isBinary : bool) (r : rule) : bool :=
  match fileExtensions r with
  | [] => true
  | exts => existsb (String.eqb ext) exts
  end
  && (if isBinary then appliesToBinary r else appliesToText r).

(** The classification of a file by the bytes that opening it delivers:
    control characters among the first 50, a shorter file being filled up
    with zero bytes. *)
Definition classifiedBinary (data : string) : bool :=
  hasControlCharacters (fileRead (make 50) data).

(** The message of the fatal error for a file that cannot be opened. *)
Definition cannotOpenMsg (path err : string) : string :=
  "Cannot read file " +:+ quote +:+ path +:+ quote +:+ ": " +:+ err.

(** The lines of a text: a line ends at a CR LF pair, at a CR or at an LF,
    and what follows the last line end is a line as well. *)
Fixpoint linesOf (text : string) : list string :=
  match text with
  | "" => [""]
  | String c rest =>
      if Ascii.eqb c "010" then "" :: linesOf rest
      else if Ascii.eqb c "013" then
        match rest with
        | String d rest' =>
            if Ascii.eqb d "010" then "" :: linesOf rest'
            else "" :: linesOf rest
        | "" => "" :: linesOf rest
        end
      else
        match linesOf rest with
        | line :: lines => String c line :: lines
        | [] => [String c ""]
        end
  end.

Definition nonEmpty (line : string) : bool := negb (String.eqb line "").

(** The line holds no byte of a line end. *)
Definition noLineEnd (line : string) : Prop :=
  hasByte "013" line = false /\ hasByte "010" line = false.

(** The elements of a path, between its separators of either kind. *)
Fixpoint elementsOf (path : string) : list string :=
  match path with
  | "" => [""]
  | String c rest =>
      if Ascii.eqb c "/" || Ascii.eqb c "\" then "" :: elementsOf rest
      else
        match elementsOf rest with
        | e :: es => String c e :: es
        | [] => [String c ""]
        end
  end.

(** The directory the program starts in, empty when it cannot be told. *)
Definition startingDirectory (w : world) : string :=
  match filepathAbs w "." with
  | SysOk p => p
  | SysErr _ => ""
  end.

(** The directory made of the first [k] elements of a path. *)
Definition ancestor (elements : list string) (k : nat) : string :=
  Go.Join (take k elements) "/".

(** The directory has a directory [.git]. *)
Definition holdsRepository (sh : shell) (dir : string) : bool :=
  isDir sh (dir +:+ "/.git").

(** The file names that a git command prints, one on a line. *)
Definition namesIn (output : string) : list string :=
  List.filter nonEmpty (linesOf output).

(** The files that an argument stands for: the matches of a pattern with
    [?] or [*], none for a malformed one; the argument itself
    otherwise. *)
Definition filesOfArgument (fs : fileSystem) (argument : string)
  : list string :=
  if hasByte "?" argument || hasByte "*" argument
  then match filepathGlob fs argument with
       | Some matches => matches
       | None => []
       end
  else [argument].

(** [listed fs paths out]: [out] is what is found at the paths, in their
    order: a regular file is itself; a directory is what is found at its
    entries, in ascending order of their names; nothing is found where
    the path cannot be examined, in a directory [.git], and in what cannot
    be opened. *)
Inductive listed (fs : fileSystem) : list string -> list string -> Prop :=
  | listed_nil : listed fs [] []
  | listed_missing f rest out :
      osStat fs f = None ->
      listed fs rest out -> listed fs (f :: rest) out
  | listed_regular f rest out :
      osStat fs f = Some true ->
      listed fs rest out -> listed fs (f :: rest) (f :: out)
  | listed_git f rest out :
      osStat fs f = Some false ->
      Go.Base f = ".git" ->
      listed fs rest out -> listed fs (f :: rest) out
  | listed_closed f rest out :
      osStat fs f = Some false ->
      Go.Base f <> ".git" ->
      readdirnames fs f = None ->
      listed fs rest out -> listed fs (f :: rest) out
  | listed_directory f rest names inside out :
      osStat fs f = Some false ->
      Go.Base f <> ".git" ->
      readdirnames fs f = Some names ->
      listed fs (map (pathJoin fs f) (Go.sortStrings names)) inside ->
      listed fs rest out -> listed fs (f :: rest) (inside ++ out).

(** The path is that of a regular file. *)
Definition regular (fs : fileSystem) (path : string) : bool :=
  match osStat fs path with
  | Some true => true
  | _ => false
  end.

(** The path is not that of a directory or of another thing that is not a
    regular file. *)
Definition plain (fs : fileSystem) (path : string) : bool :=
  match osStat fs path with
  | Some false => false
  | _ => true
  end.

End Spec.

(** * Definitions that only the proofs use *)

Module Helpers.

(** The first [k] bytes of [s] are there and none is below [Go.RuneSelf]. *)
Fixpoint highPrefix (k : nat) (s : string) : Prop :=
  match k with
  | O => True
  | S k' => match s with
            | "" => False
            | String c rest => Go.RuneSelf <= Go.byteval c /\ highPrefix k' rest
            end
  end.

(** A text without its first byte. *)
Definition afterFirstByte (s : string) : string :=
  match s with String _ rest => rest | "" => "" end.

(** The three guards at the head of the loop body of [runRulesOnFiles]:
    the rule is passed over when one of them holds. *)
Definition skipped (fileExtension : string) (isBinary : bool) (r : rule) : bool :=
  (negb (length (fileExtensions r) =? 0)%nat
   && negb (stringArrayContains (fileExtensions r) fileExtension))
  || (isBinary && (Z.land (fileTypeFlags r) flagBinaryFile =? 0))
  || (negb isBinary && (Z.land (fileTypeFlags r) flagTextFile =? 0)).

(** The text with an LF for every CR LF pair. *)
Fixpoint crlfToLF (text : string) : string :=
  match text with
  | "" => ""
  | String c rest =>
      match rest with
      | String d rest' =>
          if Ascii.eqb c "013" && Ascii.eqb d "010"
          then String "010" (crlfToLF rest')
          else String c (crlfToLF rest)
      | "" => String c ""
      end
  end.

(** The piece being read, put in front of the pieces that follow. *)
Definition attach (cur : string) (pieces : list string) : list string :=
  match pieces with
  | piece :: pieces' => (cur +:+ piece) :: pieces'
  | [] => [cur]
  end.

End Helpers.

(** * Concrete files and runs *)

Module Fixtures.
Import Spec.

(** A file system in which every file holds the two bytes [hi]. *)
Definition shortTextWorld : world :=
  {| osOpen := fun _ => SysOk "hi";
     ioutilReadFile := fun _ => SysOk "hi";
     filepathAbs := fun p => SysOk p;
     filepathClean := fun p => p |}.

(** Two files: a tab-indented line followed by two lines that start with a
    space; and a line indented with a space and a tab, followed by a line
    that starts with a space. *)
Definition tabThenTwoSpaces : ruleCheckArgs :=
  {| filePath := "f.txt"; fileAsString := "";
     fileAsLines := [TAB +:+ "a"; " b"; " c"] |}.

Definition spaceTabThenSpace : ruleCheckArgs :=
  {| filePath := "f.txt"; fileAsString := "";
     fileAsLines := [" " +:+ TAB +:+ "a"; " b"] |}.

(** [Widget.cs] with two class declarations, both of another name. *)
Definition twoBadClasses : ruleCheckArgs :=
  {| filePath := "Widget.cs"; fileAsString := "";
     fileAsLines := ["class A"; "class B"] |}.

(** A file at [src/foo/bar/Baz.cs]. *)
Definition bazFile (lines : list string) : ruleCheckArgs :=
  {| filePath := "src/foo/bar/Baz.cs"; fileAsString := "";
     fileAsLines := lines |}.

(** A text file of more than 50 bytes and a rule list for it. *)
Definition widgetSource : string :=
  "public class Gadget" +:+ LF
  +:+ "// a comment long enough to fill the prefix that is read" +:+ LF.

Definition widgetWorld : world :=
  {| osOpen := fun p =>
       if String.eqb p "/repo/Widget.cs" then SysOk widgetSource
       else SysErr "no such file";
     ioutilReadFile := fun p =>
       if String.eqb p "/repo/Widget.cs" then SysOk widgetSource
       else SysErr "no such file";
     filepathAbs := fun p => SysOk ("/repo/" +:+ p);
     filepathClean := fun p => p |}.

Definition stubRule (n : string) (flags : Z) (exts : list string) : rule :=
  {| name := n; argument := ""; fileTypeFlags := flags;
     fileExtensions := exts; checkFunc := ruleCheckDoNothing |}.

Definition stubRules : list rule :=
  [stubRule "text-cs" flagTextFile [".cs"];
   stubRule "text-java" flagTextFile [".java"];
   stubRule "binary-any" flagBinaryFile [];
   stubRule "text-any" flagTextFile [];
   stubRule "cloned" 0 []].

Definition javaRule : rule := stubRule "text-java" flagTextFile [".java"].

(** What the lazy load hands to the checks of [Widget.cs]. *)
Definition widgetArgs : ruleCheckArgs :=
  {| filePath := "/repo/Widget.cs"; fileAsString := widgetSource;
     fileAsLines := convertStringToLines widgetSource false |}.

(** Lines indented by 0, 4 and 5 spaces. *)
Definition indent045 : ruleCheckArgs :=
  {| filePath := "f.txt"; fileAsString := "";
     fileAsLines := ["a"; "    b"; "     c"] |}.

(** A text with a CRLF pair and a bare LF. *)
Definition mixedNewlines : ruleCheckArgs :=
  {| filePath := "f.txt";
     fileAsString := "a" +:+ CRLF +:+ "b" +:+ LF;
     fileAsLines := [] |}.

(** An event without the closures it carries. *)
Definition eventLabel (e : event) : string :=
  match e with
  | EvOpen p => "open " +:+ p
  | EvReadFile p => "read " +:+ p
  | EvCheck r args => "check " +:+ name r +:+ " " +:+ filePath args
  | EvPrintln msg => "print " +:+ msg
  end.

(** The lines of a config file with two rules between comments. *)
Definition sampleConfig : list string :=
  ["# Tabs not allowed anywhere."; "  NoTabs  "; ""; "//BadNameSpace";
   TAB +:+ "BadClassName"].

(** Three lines, the last two with a tab. *)
Definition tabsOnLines23 : ruleCheckArgs :=
  {| filePath := "f.txt"; fileAsString := "";
     fileAsLines := ["a"; "b" +:+ TAB; TAB +:+ "c"] |}.

(** A tab before spaces, and a space before a tab. *)
Definition tabSpaceThenSpaceTab : ruleCheckArgs :=
  {| filePath := "f.txt"; fileAsString := "";
     fileAsLines := [TAB +:+ "  a"; " " +:+ TAB +:+ "b"] |}.

(** Three public classes and an internal one. *)
Definition threePublicClasses : ruleCheckArgs :=
  {| filePath := "f.cs"; fileAsString := "";
     fileAsLines := ["public class A"; "internal class B";
                     "  public class C"; "public class D"] |}.

(** A text with CRLF line ends and one bare LF, one with LF only. *)
Definition crlfAndLF : ruleCheckArgs :=
  {| filePath := "f.txt";
     fileAsString := "a" +:+ CRLF +:+ "b" +:+ LF +:+ "c" +:+ CRLF;
     fileAsLines := [] |}.

Definition lfOnly : ruleCheckArgs :=
  {| filePath := "f.txt";
     fileAsString := "a" +:+ LF +:+ "b" +:+ LF;
     fileAsLines := [] |}.

Definition keywordLines : ruleCheckArgs :=
  {| filePath := "f.cs"; fileAsString := "";
     fileAsLines := ["if (x)"; "  foreach(var a in b)"; "for(;;)"; "form(x)"] |}.

Definition windowsPath : string := "C:\src\Acme\Widget.cs".
Definition bareName : string := "Widget.cs".
Definition acmeSource : list string := ["namespace Acme"; "class Widget"].
Definition shortName : string := "src/a".

(** The rule that a config line with an argument resolves to. *)
Definition noTabsStrict : rule :=
  match parseRule "NoTabs strict" with
  | Ok r => r
  | _ => stubRule "" 0 []
  end.

(** A rule that reports every file, and one that panics on every file. *)
Definition complainRule : rule :=
  {| name := "complain"; argument := ""; fileTypeFlags := flagTextFile;
     fileExtensions := [];
     checkFunc := fun args => Ok (fileError (filePath args) "seen") |}.

(** Three lines with the three line ends, an empty line among them. *)
Definition threeLineEnds : string := "a" +:+ CRLF +:+ CR +:+ "b" +:+ LF.

(** A repository at [C:/repo], the program started in its [src]; [a.cs] is
    staged and modified again, [b.cs] is modified. *)
Definition repoWorld : world :=
  {| osOpen := fun _ => SysErr "no such file";
     ioutilReadFile := fun _ => SysErr "no such file";
     filepathAbs := fun _ => SysOk "C:\repo\src";
     filepathClean := fun p => p |}.

Definition repoShell : shell :=
  {| isDir := fun p => String.eqb p "C:/repo/.git";
     osChdir := fun _ => true;
     combinedOutput := fun cwd command args =>
       if String.eqb cwd "C:/repo" && String.eqb command "git"
       then match args with
            | [_; _; _] =>
                if String.eqb (nth 0 args "") "diff"
                then ("a.cs" +:+ LF, true) else ("", true)
            | _ => ("a.cs" +:+ LF +:+ "b.cs" +:+ LF, true)
            end
       else ("fatal: not a git repository", false) |}.

(** A directory [src] with [b.cs], [a.cs] and a directory [.git]; and a
    file [README] beside it. *)
Definition smallTree : fileSystem :=
  {| filepathGlob := fun _ => None;
     osStat := fun p =>
       if String.eqb p "src" then Some false
       else if String.eqb p "src/.git" then Some false
       else if String.eqb p "src/a.cs" then Some true
       else if String.eqb p "src/b.cs" then Some true
       else if String.eqb p "README" then Some true
       else None;
     readdirnames := fun p =>
       if String.eqb p "src" then Some ["b.cs"; ".git"; "a.cs"]
       else if String.eqb p "src/.git" then Some ["config"]
       else None;
     pathJoin := fun d n => d +:+ "/" +:+ n |}.

End Fixtures.

(** * Facts about the Go primitives *)

Module GoFacts.
Import Go Spec Helpers.

Lemma len_nonneg s : 0 <= len s.
Proof. unfold len. lia. Qed.

Lemma len_String c s : len (String c s) = len s + 1.
Proof. unfold len. simpl. lia. Qed.

Lemma str_app_cons c (a b : string) : String c a +:+ b = String c (a +:+ b).
Proof. reflexivity. Qed.

Lemma str_app_nil_l (b : string) : "" +:+ b = b.
Proof. reflexivity. Qed.

Lemma str_length_app (a b : string) :
  String.length (a +:+ b) = (String.length a + String.length b)%nat.
Proof.
  induction a as [|c a IH]; [reflexivity|].
  rewrite str_app_cons. simpl. now rewrite IH.
Qed.

Lemma len_app a b : len (a +:+ b) = len a + len b.
Proof. unfold len. rewrite str_length_app. lia. Qed.

Lemma str_app_nil_r (a : string) : a +:+ "" = a.
Proof.
  induction a as [|c a IH]; [reflexivity|].
  now rewrite str_app_cons, IH.
Qed.

Lemma str_app_assoc (a b c : string) : (a +:+ b) +:+ c = a +:+ (b +:+ c).
Proof.
  induction a as [|x a IH]; [reflexivity|].
  now rewrite !str_app_cons, IH.
Qed.

Lemma takeBytes_0 s : takeBytes 0 s = "".
Proof. now destruct s. Qed.

Lemma dropBytes_0 s : dropBytes 0 s = s.
Proof. now destruct s. Qed.

Lemma takeBytes_all s : takeBytes (String.length s) s = s.
Proof. induction s as [|c s IH]; simpl; [reflexivity | now rewrite IH]. Qed.

Lemma takeBytes_app a b : takeBytes (String.length a) (a +:+ b) = a.
Proof.
  induction a as [|c a IH]; [apply takeBytes_0|].
  rewrite str_app_cons. simpl. now rewrite IH.
Qed.

Lemma dropBytes_app a b : dropBytes (String.length a) (a +:+ b) = b.
Proof.
  induction a as [|c a IH]; [apply dropBytes_0|].
  rewrite str_app_cons. simpl. exact IH.
Qed.

Lemma takeBytes_dropBytes n s : takeBytes n s +:+ dropBytes n s = s.
Proof.
  revert s. induction n as [|n IH]; intros [|c s]; simpl; try reflexivity.
  now rewrite str_app_cons, IH.
Qed.

Lemma length_takeBytes n s :
  (n <= String.length s)%nat -> String.length (takeBytes n s) = n.
Proof.
  revert s. induction n as [|n IH]; intros [|c s]; simpl; intros H;
    try reflexivity; try lia.
  rewrite IH; lia.
Qed.

Lemma length_dropBytes n s :
  String.length (dropBytes n s) = (String.length s - n)%nat.
Proof.
  revert s. induction n as [|n IH]; intros [|c s]; simpl; try reflexivity.
  apply IH.
Qed.

(** A slice within bounds does not panic. *)
Lemma slice_ok s lo hi :
  0 <= lo -> lo <= hi -> hi <= len s ->
  slice s lo hi = Ok (takeBytes (Z.to_nat (hi - lo)) (dropBytes (Z.to_nat lo) s)).
Proof.
  intros H1 H2 H3. unfold slice.
  destruct (Z.leb_spec 0 lo); [|lia].
  destruct (Z.leb_spec lo hi); [|lia].
  destruct (Z.leb_spec hi (len s)); [|lia].
  reflexivity.
Qed.

Lemma sliceFrom_ok s (n : nat) :
  (n <= String.length s)%nat -> sliceFrom s (Z.of_nat n) = Ok (dropBytes n s).
Proof.
  intros H. unfold sliceFrom. rewrite slice_ok; unfold len; try lia.
  rewrite Nat2Z.id. f_equal.
  replace (Z.to_nat (Z.of_nat (String.length s) - Z.of_nat n))
    with (String.length (dropBytes n s)) by (rewrite length_dropBytes; lia).
  apply takeBytes_all.
Qed.

Lemma slice_prefix_ok s (n : nat) :
  (n <= String.length s)%nat -> slice s 0 (Z.of_nat n) = Ok (takeBytes n s).
Proof.
  intros H. rewrite slice_ok; unfold len; try lia.
  rewrite Z.sub_0_r, Nat2Z.id. change (Z.to_nat 0) with 0%nat.
  now rewrite dropBytes_0.
Qed.

Lemma HasPrefix_spec s p : HasPrefix s p = true <-> exists r, s = p +:+ r.
Proof.
  unfold HasPrefix. rewrite andb_true_iff, Z.leb_le, String.eqb_eq. split.
  - intros [_ H]. exists (dropBytes (String.length p) s).
    rewrite <- H at 1. apply eq_sym, takeBytes_dropBytes.
  - intros [r ->]. rewrite len_app, takeBytes_app.
    pose proof (len_nonneg r). split; [lia | reflexivity].
Qed.

Lemma HasPrefix_dropBytes s p :
  HasPrefix s p = true -> s = p +:+ dropBytes (String.length p) s.
Proof.
  intros [r ->]%HasPrefix_spec. now rewrite dropBytes_app.
Qed.

Lemma HasPrefix_sliceFrom s p :
  HasPrefix s p = true ->
  sliceFrom s (len p) = Ok (dropBytes (String.length p) s).
Proof.
  intros H. unfold len at 1. apply sliceFrom_ok.
  apply HasPrefix_spec in H as [r ->]. rewrite str_length_app. lia.
Qed.

Lemma HasPrefix_char c rest d :
  HasPrefix (String c rest) (String d "") = Ascii.eqb c d.
Proof.
  unfold HasPrefix, len. simpl String.length.
  destruct (Z.leb_spec (Z.of_nat 1) (Z.of_nat (S (String.length rest))));
    [|lia].
  simpl. now destruct (Ascii.eqb c d).
Qed.

Lemma HasSuffix_spec s suf : HasSuffix s suf = true <-> exists r, s = r +:+ suf.
Proof.
  unfold HasSuffix. rewrite andb_true_iff, Z.leb_le, String.eqb_eq. split.
  - intros [_ H].
    exists (takeBytes (String.length s - String.length suf) s).
    rewrite <- H at 2. apply eq_sym, takeBytes_dropBytes.
  - intros [r ->]. rewrite len_app, str_length_app.
    pose proof (len_nonneg r). split; [lia|].
    replace (String.length r + String.length suf - String.length suf)%nat
      with (String.length r) by lia.
    apply dropBytes_app.
Qed.

(** [Index] returns -1 or a position at which the pattern fits. *)
Lemma Index_range s sub :
  Index s sub = -1 \/ (0 <= Index s sub /\ Index s sub + len sub <= len s).
Proof.
  induction s as [|c s IH]; simpl.
  - destruct (HasPrefix "" sub) eqn:E; [right | now left].
    unfold HasPrefix in E. apply andb_true_iff in E as [E _].
    apply Z.leb_le in E. lia.
  - destruct (HasPrefix (String c s) sub) eqn:E.
    + right. unfold HasPrefix in E. apply andb_true_iff in E as [E _].
      apply Z.leb_le in E. lia.
    + destruct (Z.ltb_spec (Index s sub) 0); [now left|].
      right. rewrite len_String. lia.
Qed.

(** *** Bytes and runes *)

Lemma land_le_r a b : 0 <= a -> 0 <= b -> Z.land a b <= b.
Proof.
  destruct a as [|p|p], b as [|q|q]; intros Ha Hb; try lia;
    try (vm_compute; discriminate).
  change (Z.land (Z.pos p) (Z.pos q)) with (Z.of_N (Pos.land p q)).
  pose proof (N.land_le_r (N.pos p) (N.pos q)) as H.
  change (N.land (N.pos p) (N.pos q)) with (Pos.land p q) in H. lia.
Qed.

Lemma lor_lower a b : 0 <= a -> 0 <= b -> a <= Z.lor a b.
Proof.
  intros Ha Hb. pose proof (Z.add_lor_land a b).
  pose proof (land_le_r a b Ha Hb). lia.
Qed.

Lemma byteval_range c : 0 <= byteval c < 256.
Proof.
  unfold byteval. pose proof (N_ascii_bounded c). lia.
Qed.

Lemma byteval_inj c d : byteval c = byteval d -> c = d.
Proof.
  unfold byteval. intros H. apply N2Z.inj in H.
  rewrite <- (ascii_N_embedding c), <- (ascii_N_embedding d). now f_equal.
Qed.

Lemma first_Some b sz lo hi :
  first b = Some (sz, lo, hi) -> 0x80 <= lo /\ (2 <= sz <= 4)%nat /\ 0xC2 <= b.
Proof.
  unfold first.
  repeat match goal with
         | |- context [if ?c then _ else _] => destruct c eqn:?
         end; intros [= <- <- <-]; (split; [lia|split;[lia|]]); lia.
Qed.

Lemma DecodeRune_ascii c rest :
  byteval c < RuneSelf -> DecodeRune c rest = (byteval c, 1%nat).
Proof.
  intros H. unfold DecodeRune. now destruct (Z.ltb_spec (byteval c) RuneSelf); [|lia].
Qed.

Lemma lor_upper a b : 0 <= a -> 0 <= b -> b <= Z.lor a b.
Proof. intros. rewrite Z.lor_comm. now apply lor_lower. Qed.

Lemma land_mask x n : 0 <= n -> Z.land x (Z.ones n) = x mod 2 ^ n.
Proof. intros. now apply Z.land_ones. Qed.

Ltac zbool :=
  repeat match goal with
    | H : (_ || _) = false |- _ => apply orb_false_iff in H as [? ?]
    | H : (_ && _) = true |- _ => apply andb_true_iff in H as [? ?]
    | H : negb _ = false |- _ => apply negb_false_iff in H
    | H : negb _ = true |- _ => apply negb_true_iff in H
    | H : (_ <? _) = true |- _ => apply Z.ltb_lt in H
    | H : (_ <? _) = false |- _ => apply Z.ltb_ge in H
    | H : (_ <=? _) = true |- _ => apply Z.leb_le in H
    | H : (_ <=? _) = false |- _ => apply Z.leb_gt in H
    | H : (_ =? _) = true |- _ => apply Z.eqb_eq in H
    | H : (_ =? _) = false |- _ => apply Z.eqb_neq in H
    end.

Lemma lor_ge_l a b c : 0 <= a -> 0 <= b -> c <= a -> c <= Z.lor a b.
Proof. intros Ha Hb Hc. pose proof (lor_lower a b Ha Hb). lia. Qed.

Lemma lor_ge_r a b c : 0 <= a -> 0 <= b -> c <= b -> c <= Z.lor a b.
Proof. intros Ha Hb Hc. pose proof (lor_upper a b Ha Hb). lia. Qed.

Ltac mod_lia := Z.div_mod_to_equations; lia.

Ltac lor_nonneg :=
  repeat first [ mod_lia | apply Z.lor_nonneg; split ].

Ltac lor_bound :=
  first [ mod_lia
        | apply lor_ge_l; [lor_nonneg | lor_nonneg | lor_bound]
        | apply lor_ge_r; [lor_nonneg | lor_nonneg | lor_bound] ].

Lemma DecodeRune_high c rest :
  RuneSelf <= byteval c -> 128 <= fst (DecodeRune c rest).
Proof.
  intros H. pose proof (byteval_range c) as Hc.
  unfold DecodeRune, first, continuation, RuneError, RuneSelf in *.
  repeat case_match; simplify_eq; cbn [fst]; try lia; zbool.
  all: change 0x1F with (Z.ones 5); change 0x0F with (Z.ones 4);
       change 0x07 with (Z.ones 3); change 0x3F with (Z.ones 6);
       rewrite !land_mask, !Z.shiftl_mul_pow2 by lia.
  all: change (2 ^ 3) with 8; change (2 ^ 4) with 16; change (2 ^ 5) with 32;
       change (2 ^ 6) with 64; change (2 ^ 12) with 4096;
       change (2 ^ 18) with 262144.
  all: lor_bound.
Qed.

Lemma DecodeRune_width c rest :
  (1 <= snd (DecodeRune c rest))%nat
  /\ highPrefix (Nat.pred (snd (DecodeRune c rest))) rest.
Proof.
  pose proof (byteval_range c) as Hc.
  unfold DecodeRune, first, continuation, RuneError, RuneSelf in *.
  repeat case_match; simplify_eq; cbn [snd Nat.pred highPrefix];
    unfold RuneSelf; zbool; repeat split; lia.
Qed.

(** The rune at the head of a non-empty string: the byte itself when it is
    below [RuneSelf], otherwise a rune that is not below it. *)
Lemma runes_head c s :
  exists r k, runes (String c s) = r :: runesFrom k s
    /\ highPrefix k s
    /\ (byteval c < RuneSelf -> r = byteval c /\ k = 0%nat)
    /\ (RuneSelf <= byteval c -> 128 <= r).
Proof.
  unfold runes. cbn [runesFrom].
  destruct (DecodeRune c s) as [r w] eqn:E.
  exists r, (Nat.pred w). split; [reflexivity|].
  pose proof (DecodeRune_width c s) as [_ Hw]. rewrite E in Hw.
  split; [exact Hw|]. split.
  - intros H. rewrite DecodeRune_ascii in E by exact H.
    now injection E as <- <-.
  - intros H. pose proof (DecodeRune_high c s H) as Hh.
    now rewrite E in Hh.
Qed.

Lemma runes_ascii c s :
  byteval c < RuneSelf -> runes (String c s) = byteval c :: runes s.
Proof.
  intros H. unfold runes. cbn [runesFrom].
  now rewrite DecodeRune_ascii by exact H.
Qed.

(** A zero byte is never skipped as part of a longer sequence: it always
    shows up as the rune 0. *)
Lemma runesFrom_zero a b k :
  highPrefix k (a +:+ String "000" b) ->
  In 0 (runesFrom k (a +:+ String "000" b)).
Proof.
  revert k. induction a as [|c a IH]; intros k Hk.
  - rewrite str_app_nil_l in *. destruct k as [|k].
    + cbn [runesFrom]. rewrite DecodeRune_ascii by (vm_compute; reflexivity).
      now left.
    + cbn in Hk. destruct Hk as [Hk _]. vm_compute in Hk. now destruct Hk.
  - rewrite str_app_cons in *. destruct k as [|k].
    + cbn [runesFrom]. destruct (DecodeRune c _) as [r w] eqn:E.
      right. apply IH.
      pose proof (DecodeRune_width c (a +:+ String "000" b)) as [_ Hw].
      now rewrite E in Hw.
    + cbn [runesFrom]. apply IH. now destruct Hk.
Qed.

(** *** The examples of the package documentation *)

Example Index_doc :
  Index "chicken" "ken" = 4 /\ Index "chicken" "dmr" = -1
  /\ LastIndex "go gopher" "go" = 3 /\ LastIndex "go gopher" "rodent" = -1
  /\ IndexByte "gophers" "h" = 3 /\ IndexByte "golang" "x" = -1
  /\ IndexRune "chicken" 107 = 4 /\ IndexRune "chicken" 100 = -1
  /\ ContainsRune "chicken" 97 = false /\ ContainsRune "aardvark" 97 = true.
Proof. repeat split; reflexivity. Qed.

Example HasPrefix_doc :
  HasPrefix "Golang" "Go" = true /\ HasPrefix "Golang" "C" = false
  /\ HasPrefix "Golang" "" = true
  /\ HasSuffix "Amigo" "go" = true /\ HasSuffix "Amigo" "O" = false
  /\ HasSuffix "Amigo" "Ami" = false /\ HasSuffix "Amigo" "" = true.
Proof. repeat split; reflexivity. Qed.

Example Replace_doc :
  Replace "oink oink oink" "k" "ky" 2 = "oinky oinky oink"
  /\ Replace "oink oink oink" "oink" "moo" (-1) = "moo moo moo".
Proof. split; reflexivity. Qed.

Example Split_doc :
  Split "a,b,c" "," = ["a"; "b"; "c"]
  /\ Split "a man a plan a canal panama" "a "
     = [""; "man "; "plan "; "canal panama"]
  /\ Split "" "," = [""].
Proof. repeat split; reflexivity. Qed.

Example Trim_Itoa_doc :
  Trim ("  " +:+ TAB +:+ "class A " +:+ TAB) spaceTab = "class A"
  /\ Itoa 10 = "10" /\ Itoa 0 = "0" /\ Itoa (-45) = "-45".
Proof. repeat split; reflexivity. Qed.

Example Base_Ext_doc :
  Base "/foo/bar/baz.js" = "baz.js" /\ Base "/foo/bar/baz/" = "baz"
  /\ Base "dev.txt" = "dev.txt" /\ Base "../todo.txt" = "todo.txt"
  /\ Base ".." = ".." /\ Base "/" = "/" /\ Base "" = "."
  /\ Ext "index" = "" /\ Ext "index.js" = ".js" /\ Ext "main.test.js" = ".js"
  /\ Ext "a.b/c" = "".
Proof. repeat split; reflexivity. Qed.

(** The euro sign, an e with acute accent followed by a stray byte, a
    four-byte emoji, and a sequence cut short. *)
Example runes_utf8 :
  runes (String "226" (String "130" (String "172" "x"))) = [8364; 120]
  /\ runes (String "195" (String "169" (String "255" ""))) = [233; RuneError]
  /\ runes (String "240" (String "159" (String "152" (String "128" ""))))
     = [128512]
  /\ runes (String "226" (String "130" "x")) = [RuneError; RuneError; 120].
Proof. repeat split; reflexivity. Qed.

(** *** Diagnostics *)

Lemma fileError_nonempty p err : fileError p err <> "".
Proof.
  unfold fileError. destruct p; [|rewrite str_app_cons]; discriminate.
Qed.

Lemma fileAndLineError_nonempty p n err : fileAndLineError p n err <> "".
Proof.
  unfold fileAndLineError. destruct p; [|rewrite str_app_cons]; discriminate.
Qed.

End GoFacts.

(** * The resolver *)

Module Resolver.
Import Go GoFacts Spec Helpers Fixtures.

Lemma leadingToken_length line :
  (String.length (leadingToken line) <= String.length line)%nat.
Proof.
  induction line as [|c s IH]; simpl; [lia|].
  destruct (Ascii.eqb c " "); simpl; lia.
Qed.

Lemma Index_no_space line :
  containsSpace line = false ->
  Index line " " = -1 /\ leadingToken line = line.
Proof.
  induction line as [|c s IH]; [now split|].
  cbn [containsSpace leadingToken Index]. rewrite HasPrefix_char.
  destruct (Ascii.eqb c " "); [discriminate|]. simpl.
  intros [-> ->]%IH. now split.
Qed.

Lemma Index_space line :
  containsSpace line = true ->
  Index line " " = Z.of_nat (String.length (leadingToken line))
  /\ takeBytes (String.length (leadingToken line)) line = leadingToken line
  /\ dropBytes (S (String.length (leadingToken line))) line = afterFirstSpace line.
Proof.
  induction line as [|c s IH]; [discriminate|].
  cbn [containsSpace leadingToken afterFirstSpace Index].
  rewrite HasPrefix_char.
  destruct (Ascii.eqb c " ").
  - intros _. repeat split.
  - intros H. destruct (IH H) as (Hi & Ht & Hd). rewrite Hi.
    destruct (Z.ltb_spec (Z.of_nat (String.length (leadingToken s))) 0);
      [lia|].
    cbn [String.length takeBytes dropBytes]. rewrite Ht.
    split; [lia|]. split; [reflexivity | exact Hd].
Qed.

Lemma line_split line :
  containsSpace line = true ->
  line = leadingToken line +:+ " " +:+ afterFirstSpace line.
Proof.
  induction line as [|c s IH]; [discriminate|]. simpl.
  destruct (Ascii.eqb_spec c " ") as [->|_]; simpl; [reflexivity|].
  intros H. now rewrite str_app_cons, <- IH.
Qed.

Lemma leadingToken_no_space line : containsSpace (leadingToken line) = false.
Proof.
  induction line as [|c s IH]; [reflexivity|]. simpl.
  destruct (Ascii.eqb c " ") eqn:E; simpl; [reflexivity|].
  now rewrite E.
Qed.

(** What [parseRule] computes, in the words of the specification. *)
Lemma parseRule_unfold line :
  parseRule line =
    if containsSpace line
    then ruleDef ← getRuleMustExist (leadingToken line);
         Ok (setArgument (cloneRule ruleDef) (afterFirstSpace line))
    else getRuleMustExist line.
Proof.
  unfold parseRule. destruct (containsSpace line) eqn:E.
  - destruct (Index_space line E) as (Hi & Ht & Hd). rewrite Hi.
    pose proof (leadingToken_length line) as Hlen.
    pose proof (line_split line E) as Hs.
    assert (S (String.length (leadingToken line)) <= String.length line)%nat
      as Hlen'.
    { rewrite Hs at 2. rewrite !str_length_app. simpl. lia. }
    destruct (Z.ltb_spec (Z.of_nat (String.length (leadingToken line))) 0);
      [lia|].
    rewrite slice_prefix_ok, Ht by lia. cbn [mbind result_bind].
    destruct (getRuleMustExist (leadingToken line)); cbn; try reflexivity.
    replace (Z.of_nat (String.length (leadingToken line)) + 1)
      with (Z.of_nat (S (String.length (leadingToken line)))) by lia.
    now rewrite sliceFrom_ok, Hd by lia.
  - destruct (Index_no_space line E) as [-> _]. reflexivity.
Qed.

(** Every catalog entry is registered under its own name and applies to
    text files only. *)
Lemma catalog_entries :
  map_Forall (fun n R => name R = n /\ fileTypeFlags R = flagTextFile)
    rulesDefinitions.
Proof.
  unfold rulesDefinitions, initRulesDefinitions. cbv zeta. unfold addRule.
  repeat (apply map_Forall_insert_2; [split; reflexivity|]).
  apply map_Forall_empty.
Qed.

(** C9.  Resolving a config line is fatal exactly when its leading token
    (the whole line when it has no space, otherwise the text before the
    first space) is not the name of a registered rule, and it returns a
    rule exactly when the token is registered. *)
Theorem parseRule_fatal_iff_unregistered line :
  ((exists msg, parseRule line = Fatal msg)
     <-> rulesDefinitions !! leadingToken line = None)
  /\ ((exists r, parseRule line = Ok r)
     <-> is_Some (rulesDefinitions !! leadingToken line)).
Proof.
  rewrite parseRule_unfold.
  assert (getRuleMustExist (leadingToken line)
          = if containsSpace line
            then getRuleMustExist (leadingToken line)
            else getRuleMustExist line) as Htok.
  { destruct (containsSpace line) eqn:E; [reflexivity|].
    now destruct (Index_no_space line E) as [_ ->]. }
  unfold getRuleMustExist in *.
  destruct (containsSpace line);
    destruct (rulesDefinitions !! leadingToken line) as [R|] eqn:HR.
  - cbn. split; split.
    + intros [msg H]. discriminate.
    + discriminate.
    + intros _. now exists R.
    + intros _. eexists. reflexivity.
  - cbn. split; split.
    + reflexivity.
    + intros _. eexists. reflexivity.
    + intros [r H]. discriminate.
    + intros [x H]. discriminate.
  - rewrite <- Htok. split; split.
    + intros [msg H]. discriminate.
    + discriminate.
    + intros _. now exists R.
    + intros _. eexists. reflexivity.
  - rewrite <- Htok. unfold fatal. split; split.
    + reflexivity.
    + intros _. eexists. reflexivity.
    + intros [r H]. discriminate.
    + intros [x H]. discriminate.
Qed.

Lemma parseRule_fatal_iff_unregistered_witness :
  rulesDefinitions !! leadingToken "Nope x" = None
  /\ exists msg, parseRule "Nope x" = Fatal msg.
Proof.
  split; [vm_compute; reflexivity|].
  apply (proj2 (proj1 (parseRule_fatal_iff_unregistered "Nope x"))).
  vm_compute. reflexivity.
Defined.

(** C1.  For a config line with a space whose leading token names the
    registered rule [R], the resolver returns a rule with the name, the
    check and the extensions of [R] and with the remainder of the line as
    its argument; its file-type flags, however, are 0 and not those of [R],
    which are [flagTextFile]: [cloneRule] does not copy them. *)
Theorem parseRule_clone_loses_flags line R :
  containsSpace line = true ->
  rulesDefinitions !! leadingToken line = Some R ->
  exists r, parseRule line = Ok r
    /\ name r = name R
    /\ checkFunc r = checkFunc R
    /\ fileExtensions r = fileExtensions R
    /\ argument r = afterFirstSpace line
    /\ fileTypeFlags r = 0
    /\ fileTypeFlags R = flagTextFile.
Proof.
  intros Hsp HR. rewrite parseRule_unfold, Hsp.
  unfold getRuleMustExist. rewrite HR. cbn.
  eexists. split; [reflexivity|]. cbn.
  repeat split. now destruct (catalog_entries _ _ HR).
Qed.

Lemma parseRule_clone_loses_flags_witness :
  exists r, parseRule "NoTabs x y" = Ok r
    /\ name r = "NoTabs"
    /\ checkFunc r = ruleCheckNoTabs
    /\ fileExtensions r = []
    /\ argument r = "x y"
    /\ fileTypeFlags r = 0
    /\ flagTextFile = flagTextFile.
Proof.
  apply (parseRule_clone_loses_flags "NoTabs x y"
           {| name := "NoTabs"; argument := "";
              fileTypeFlags := flagTextFile; fileExtensions := [];
              checkFunc := ruleCheckNoTabs |}).
  - reflexivity.
  - vm_compute. reflexivity.
Defined.

End Resolver.

(** * The file classifier *)

Module Classifier.
Import Go GoFacts Spec Helpers Fixtures.

Lemma hasControlCharactersIn_true rs r :
  In r rs -> isControlCharacter r = true -> hasControlCharactersIn rs = true.
Proof.
  induction rs as [|x rs IH]; intros Hin Hr; [destruct Hin|].
  cbn [hasControlCharactersIn].
  destruct (isControlCharacter x) eqn:E; [reflexivity|].
  destruct Hin as [->|Hin]; [congruence | now apply IH].
Qed.

Lemma dropBytes_make n m : dropBytes n (make m) = make (m - n).
Proof.
  revert m. induction n as [|n IH]; intros [|m]; try reflexivity.
  cbn [make dropBytes]. rewrite IH. reflexivity.
Qed.

Lemma fileRead_short data (n : nat) :
  (String.length data < n)%nat ->
  fileRead (make n) data
  = data +:+ String "000" (make (n - S (String.length data))).
Proof.
  intros H. unfold fileRead.
  assert (String.length (make n) = n) as ->.
  { clear. induction n; simpl; congruence. }
  rewrite Nat.min_r by lia. rewrite takeBytes_all, dropBytes_make.
  destruct (n - String.length data)%nat as [|k] eqn:E; [lia|].
  cbn [make]. do 3 f_equal. lia.
Qed.

(** C2.  A file shorter than the 50-byte prefix is read without error, but
    it is always declared binary, whatever it holds: the buffer keeps its
    zero bytes behind the content, all of it is converted to the string, and
    the rune 0 is a control character. *)
Theorem short_file_is_declared_binary w path data :
  osOpen w path = SysOk data ->
  (String.length data < 50)%nat ->
  exists prefix,
    outcome (readFirstNChars w path 50) = Ok prefix
    /\ prefix = data +:+ make (50 - String.length data)
    /\ hasControlCharacters prefix = true.
Proof.
  intros Hopen Hlen. unfold readFirstNChars. rewrite Hopen.
  eexists. split; [reflexivity|].
  change (Z.to_nat 50) with 50%nat. rewrite fileRead_short by exact Hlen.
  split.
  - f_equal. destruct (50 - String.length data)%nat as [|k] eqn:E; [lia|].
    cbn [make]. do 2 f_equal. lia.
  - unfold hasControlCharacters.
    apply hasControlCharactersIn_true with (r := 0); [|reflexivity].
    apply runesFrom_zero. exact I.
Qed.

Lemma short_file_is_declared_binary_witness :
  hasControlByte "hi" = false
  /\ exists prefix,
       outcome (readFirstNChars shortTextWorld "notes.txt" 50) = Ok prefix
       /\ prefix = "hi" +:+ make 48
       /\ hasControlCharacters prefix = true.
Proof.
  split; [reflexivity|].
  apply (short_file_is_declared_binary shortTextWorld "notes.txt" "hi").
  - reflexivity.
  - vm_compute. lia.
Defined.

End Classifier.

(** * ConsistentIndentWidth *)

Module IndentWidth.
Import Go GoFacts Spec Helpers Fixtures.

Lemma numSpacesLoop_leadingSpaces line n :
  numSpacesLoop n (runes line) = n + Z.of_nat (leadingSpaces line).
Proof.
  revert n. induction line as [|c s IH]; intros n; [cbn; lia|].
  cbn [leadingSpaces]. destruct (Ascii.eqb_spec c " ") as [->|Hc].
  - rewrite runes_ascii by (vm_compute; reflexivity).
    change (byteval " ") with 32. cbn [numSpacesLoop].
    change (negb (32 =? 32)) with false. cbn iota. rewrite IH. lia.
  - destruct (runes_head c s) as (r & k & -> & _ & Hlo & Hhi).
    cbn [numSpacesLoop].
    destruct (Z.eqb_spec r 32) as [->|_]; [exfalso | cbn; lia].
    destruct (Z.lt_ge_cases (byteval c) RuneSelf) as [H|H].
    + destruct (Hlo H) as [E _]. apply Hc, byteval_inj. now rewrite <- E.
    + specialize (Hhi H). lia.
Qed.

Lemma numSpacesOf_leadingSpaces line :
  numSpacesOf line = Z.of_nat (leadingSpaces line).
Proof. unfold numSpacesOf. now rewrite numSpacesLoop_leadingSpaces. Qed.

Lemma rem_multipleOf line (d : nat) :
  (0 < d)%nat ->
  (Z.rem (numSpacesOf line) (Z.of_nat d) =? 0) = true <-> multipleOf d line.
Proof.
  intros Hd. rewrite numSpacesOf_leadingSpaces, Z.eqb_eq. unfold multipleOf.
  rewrite Z.rem_mod_nonneg by lia. rewrite <- Nat2Z.inj_mod. lia.
Qed.

Lemma indentStep_all3 n line st :
  all3Spaces (indentStep n line st)
  = all3Spaces st && (Z.rem (numSpacesOf line) 3 =? 0).
Proof.
  unfold indentStep.
  destruct (all3Spaces st) eqn:E3, (all4Spaces st) eqn:E4,
    (Z.rem (numSpacesOf line) 3 =? 0), (Z.rem (numSpacesOf line) 4 =? 0);
    cbn; rewrite ?E3, ?E4; cbn; rewrite ?E3; reflexivity.
Qed.

Lemma indentStep_all4 n line st :
  all4Spaces (indentStep n line st)
  = all4Spaces st && (Z.rem (numSpacesOf line) 4 =? 0).
Proof.
  unfold indentStep.
  destruct (all3Spaces st) eqn:E3, (all4Spaces st) eqn:E4,
    (Z.rem (numSpacesOf line) 3 =? 0), (Z.rem (numSpacesOf line) 4 =? 0);
    cbn; rewrite ?E3, ?E4; cbn; rewrite ?E4; reflexivity.
Qed.

Lemma indentStep_first4 n line st :
  firstNon4SpaceLineNum (indentStep n line st)
  = if all4Spaces st && negb (Z.rem (numSpacesOf line) 4 =? 0)
    then n + 1 else firstNon4SpaceLineNum st.
Proof.
  unfold indentStep.
  destruct (all3Spaces st) eqn:E3, (all4Spaces st) eqn:E4,
    (Z.rem (numSpacesOf line) 3 =? 0), (Z.rem (numSpacesOf line) 4 =? 0);
    cbn; rewrite ?E3, ?E4; cbn; reflexivity.
Qed.

(** The two flags after the loop: still set exactly when every line kept
    them. *)
Lemma indentLoop_all3 lines n st :
  all3Spaces (indentLoop n lines st) = true
  <-> all3Spaces st = true /\ Forall (multipleOf 3) lines.
Proof.
  revert n st. induction lines as [|l lines IH]; intros n st; cbn [indentLoop].
  - split; [intros H; split; [exact H | constructor] | now intros [H _]].
  - rewrite IH, indentStep_all3, andb_true_iff, Forall_cons.
    rewrite (rem_multipleOf l 3) by lia. tauto.
Qed.

Lemma indentLoop_all4 lines n st :
  all4Spaces (indentLoop n lines st) = true
  <-> all4Spaces st = true /\ Forall (multipleOf 4) lines.
Proof.
  revert n st. induction lines as [|l lines IH]; intros n st; cbn [indentLoop].
  - split; [intros H; split; [exact H | constructor] | now intros [H _]].
  - rewrite IH, indentStep_all4, andb_true_iff, Forall_cons.
    rewrite (rem_multipleOf l 4) by lia. tauto.
Qed.

Lemma indentLoop_first4_kept lines n st :
  all4Spaces st = false ->
  firstNon4SpaceLineNum (indentLoop n lines st) = firstNon4SpaceLineNum st.
Proof.
  revert n st. induction lines as [|l lines IH]; intros n st H;
    cbn [indentLoop]; [reflexivity|].
  rewrite IH by (rewrite indentStep_all4, H; reflexivity).
  rewrite indentStep_first4, H. reflexivity.
Qed.

(** The line number remembered for the 4-multiple property is that of the
    first line that broke it. *)
Lemma indentLoop_first4 lines n st (i : nat) line :
  all4Spaces st = true ->
  lines !! i = Some line ->
  ~ multipleOf 4 line ->
  (forall (j : nat) l, (j < i)%nat -> lines !! j = Some l -> multipleOf 4 l) ->
  firstNon4SpaceLineNum (indentLoop n lines st) = n + Z.of_nat i + 1.
Proof.
  revert n st i. induction lines as [|l lines IH]; intros n st i Hst Hi Hbad Hbefore;
    [discriminate|].
  cbn [indentLoop]. destruct i as [|i].
  - injection Hi as ->.
    assert ((Z.rem (numSpacesOf line) 4 =? 0) = false) as E.
    { apply not_true_is_false. intros E. apply Hbad.
      apply (rem_multipleOf line 4); [lia | exact E]. }
    rewrite indentLoop_first4_kept
      by (rewrite indentStep_all4, Hst, E; reflexivity).
    rewrite indentStep_first4, Hst, E. cbn. lia.
  - assert ((Z.rem (numSpacesOf l) 4 =? 0) = true) as E.
    { apply (rem_multipleOf l 4); [lia|]. apply (Hbefore 0%nat); [lia|reflexivity]. }
    rewrite (IH (n + 1) _ i).
    + lia.
    + rewrite indentStep_all4, Hst, E. reflexivity.
    + exact Hi.
    + exact Hbad.
    + intros j l' Hj Hl'. apply (Hbefore (S j)); [lia | exact Hl'].
Qed.

(** C4.  The file passes if every line's leading-space count is a multiple
    of 3, or every one a multiple of 4, or no line is indented; if both
    properties are broken it fails with the number of the first line that
    broke the 4-multiple property, under the non-4-space message; the counts
    0, 4, 5 fail at line 3. *)
Theorem consistentIndentWidth_passes_or_reports_first_non4 args :
  (Forall (multipleOf 3) (fileAsLines args)
   \/ Forall (multipleOf 4) (fileAsLines args)
   \/ Forall (fun line => leadingSpaces line = 0%nat) (fileAsLines args) ->
   ruleCheckConsistentIndentWidth args = Ok "")
  /\ (forall (i : nat) line,
        ~ Forall (multipleOf 3) (fileAsLines args) ->
        fileAsLines args !! i = Some line ->
        ~ multipleOf 4 line ->
        (forall (j : nat) l, (j < i)%nat -> fileAsLines args !! j = Some l ->
                             multipleOf 4 l) ->
        ruleCheckConsistentIndentWidth args
        = Ok (fileAndLineError (filePath args) (Z.of_nat i + 1)
                "File has first non 4-space indent"))
  /\ (map leadingSpaces ["a"; "    b"; "     c"] = [0; 4; 5]%nat
      /\ ruleCheckConsistentIndentWidth
           {| filePath := "f.txt"; fileAsString := "";
              fileAsLines := ["a"; "    b"; "     c"] |}
         = Ok "f.txt:3: File has first non 4-space indent").
Proof.
  split; [|split].
  - intros H. unfold ruleCheckConsistentIndentWidth.
    set (st := indentLoop _ _ _).
    assert (all3Spaces st = true \/ all4Spaces st = true) as [E|E].
    { destruct H as [H|[H|H]].
      - left. apply indentLoop_all3. now split.
      - right. apply indentLoop_all4. now split.
      - left. apply indentLoop_all3. split; [reflexivity|].
        eapply Forall_impl; [exact H|]. intros l Hl. unfold multipleOf.
        cbn beta in Hl. now rewrite Hl. }
    + now rewrite E.
    + rewrite E. now destruct (all3Spaces st).
  - intros i line H3 Hi Hbad Hbefore. unfold ruleCheckConsistentIndentWidth.
    set (st0 := {| all3Spaces := true |}).
    assert (all3Spaces (indentLoop 0 (fileAsLines args) st0) = false) as E3.
    { apply not_true_is_false. intros E. apply indentLoop_all3 in E as [_ E].
      now apply H3. }
    assert (all4Spaces (indentLoop 0 (fileAsLines args) st0) = false) as E4.
    { apply not_true_is_false. intros E. apply indentLoop_all4 in E as [_ E].
      rewrite Forall_forall in E. apply Hbad, E.
      apply list_elem_of_lookup. now exists i. }
    rewrite E3, E4. cbn.
    rewrite (indentLoop_first4 _ 0 st0 i line); auto.
  - split; vm_compute; reflexivity.
Qed.

Lemma consistentIndentWidth_witness :
  ruleCheckConsistentIndentWidth indent045
  = Ok (fileAndLineError "f.txt" 3 "File has first non 4-space indent").
Proof.
  apply (proj1 (proj2
           (consistentIndentWidth_passes_or_reports_first_non4 indent045))
           2%nat "     c").
  - intros H. apply Forall_cons in H as [_ H]. apply Forall_cons in H as [H _].
    vm_compute in H. discriminate.
  - reflexivity.
  - vm_compute. discriminate.
  - intros [|[|j]] l Hj H; [| |lia]; vm_compute in H; injection H as <-;
      reflexivity.
Defined.

End IndentWidth.

(** * TabsVsSpacesOnly *)

Module TabsVsSpaces.
Import Go GoFacts Spec Helpers Fixtures.

Lemma runes_space s : runes (String " " s) = 32 :: runes s.
Proof. now rewrite runes_ascii by (vm_compute; reflexivity). Qed.

Lemma runes_tab s : runes (String "009" s) = 9 :: runes s.
Proof. now rewrite runes_ascii by (vm_compute; reflexivity). Qed.

Lemma runes_other c s :
  c <> " "%char -> c <> "009"%char ->
  exists r k, runes (String c s) = r :: runesFrom k s /\ r <> 32 /\ r <> 9.
Proof.
  intros Hsp Htab. destruct (runes_head c s) as (r & k & E & _ & Hlo & Hhi).
  exists r, k. split; [exact E|].
  destruct (Z.lt_ge_cases (byteval c) RuneSelf) as [H|H].
  - destruct (Hlo H) as [-> _]. split; intros Hb.
    + apply Hsp, byteval_inj. now rewrite Hb.
    + apply Htab, byteval_inj. now rewrite Hb.
  - specialize (Hhi H). lia.
Qed.

(** The three ways the scan of a line can begin. *)
Lemma scan_space p n t s rest :
  tabsVsSpacesLine p n t s (runes (String " " rest))
  = if t then Return (fileAndLineError p (n + 1) spaceAfterTabMsg)
    else tabsVsSpacesLine p n t true (runes rest).
Proof. rewrite runes_space. reflexivity. Qed.

Lemma scan_tab p n t s rest :
  tabsVsSpacesLine p n t s (runes (String "009" rest))
  = if s then Return (fileAndLineError p (n + 1)
                        "Found first tab indent with prior space indents")
    else tabsVsSpacesLine p n true s (runes rest).
Proof. rewrite runes_tab. reflexivity. Qed.

Lemma scan_other p n t s c rest :
  c <> " "%char -> c <> "009"%char ->
  tabsVsSpacesLine p n t s (runes (String c rest)) = Next t s.
Proof.
  intros Hsp Htab. destruct (runes_other c rest Hsp Htab) as (r & k & -> & H1 & H2).
  cbn [tabsVsSpacesLine].
  destruct (Z.eqb_spec r 32); [contradiction|].
  destruct (Z.eqb_spec r 9); [contradiction|]. reflexivity.
Qed.

Ltac scan_cases c :=
  destruct (Ascii.eqb_spec c "009") as [->|?];
  [ rewrite ?scan_tab
  | destruct (Ascii.eqb_spec c " ") as [->|?];
    [ rewrite ?scan_space | rewrite ?scan_other by assumption ] ].

(** A line whose leading whitespace is tabs only leaves the space flag
    alone and sets the tab flag if it has a tab. *)
Lemma scan_onlyTabs p n t line :
  onlyTabs line = true ->
  tabsVsSpacesLine p n t false (runes line)
  = Next (t || hasLeadingTab line) false.
Proof.
  revert t. induction line as [|c rest IH]; intros t H.
  - cbn. now rewrite orb_false_r.
  - cbn [onlyTabs hasLeadingTab] in *. scan_cases c.
    + rewrite IH by exact H. now rewrite orb_true_r.
    + discriminate.
    + now rewrite orb_false_r.
Qed.

(** The flags are never reset. *)
Lemma scan_monotone p n line t s t' s' :
  tabsVsSpacesLine p n t s (runes line) = Next t' s' ->
  (t = true -> t' = true) /\ (s = true -> s' = true).
Proof.
  revert t s. induction line as [|c rest IH]; intros t s.
  - cbn. intros [= <- <-]. tauto.
  - scan_cases c.
    + destruct s; [discriminate|]. intros H. apply IH in H. intuition.
    + destruct t; [discriminate|]. intros H. apply IH in H. intuition.
    + intros [= <- <-]. tauto.
Qed.

Lemma scan_hasLeadingTab p n line t s t' s' :
  hasLeadingTab line = true ->
  tabsVsSpacesLine p n t s (runes line) = Next t' s' -> t' = true.
Proof.
  revert t s. induction line as [|c rest IH]; intros t s Htab; [discriminate|].
  cbn [hasLeadingTab] in Htab. revert Htab. scan_cases c; intros Htab.
  - destruct s; [discriminate|]. intros H.
    now apply scan_monotone in H as [H _]; apply H.
  - destruct t; [discriminate|]. apply IH. exact Htab.
  - discriminate.
Qed.

Lemma scan_startsWithSpace p n line s :
  startsWithSpace line = true ->
  tabsVsSpacesLine p n true s (runes line)
  = Return (fileAndLineError p (n + 1) spaceAfterTabMsg).
Proof.
  destruct line as [|c rest]; [discriminate|]. cbn [startsWithSpace].
  intros ->%Ascii.eqb_eq. now rewrite scan_space.
Qed.

(** Every message of a scan names its own line. *)
Lemma scan_Return p n line t s msg :
  tabsVsSpacesLine p n t s (runes line) = Return msg ->
  exists err, msg = fileAndLineError p (n + 1) err.
Proof.
  revert t s. induction line as [|c rest IH]; intros t s; [discriminate|].
  scan_cases c.
  - destruct s; [intros [= <-]; eauto | apply IH].
  - destruct t; [intros [= <-]; eauto | apply IH].
  - discriminate.
Qed.

(** Only tabs everywhere: the loop ends without a message. *)
Lemma loop_onlyTabs p n t lines :
  Forall (fun line => onlyTabs line = true) lines ->
  tabsVsSpacesFrom p n t false lines = "".
Proof.
  revert n t. induction lines as [|l lines IH]; intros n t H; [reflexivity|].
  apply Forall_cons in H as [Hl H]. cbn [tabsVsSpacesFrom].
  rewrite scan_onlyTabs by exact Hl. now apply IH.
Qed.

(** With the tab flag set, a line that starts with a space is reached only
    if no earlier line has failed. *)
Lemma loop_tab_then_space p lines n s (j : nat) lj :
  lines !! j = Some lj -> startsWithSpace lj = true ->
  exists (k : nat) err,
    (k <= j)%nat
    /\ tabsVsSpacesFrom p n true s lines
       = fileAndLineError p (n + Z.of_nat k + 1) err.
Proof.
  revert n s j. induction lines as [|l lines IH]; intros n s j Hj Hsp;
    [discriminate|].
  cbn [tabsVsSpacesFrom]. destruct j as [|j].
  - injection Hj as ->. rewrite scan_startsWithSpace by exact Hsp.
    exists 0%nat, spaceAfterTabMsg. split; [lia|]. do 2 f_equal; lia.
  - destruct (tabsVsSpacesLine p n true s (runes l)) as [msg|t' s'] eqn:E.
    + apply scan_Return in E as [err ->]. exists 0%nat, err.
      split; [lia|]. do 2 f_equal; lia.
    + apply scan_monotone in E as [Ht _]. rewrite Ht by reflexivity.
      destruct (IH (n + 1) s' j Hj Hsp) as (k & err & Hk & ->).
      exists (S k), err. split; [lia|]. do 2 f_equal; lia.
Qed.

Lemma loop_fails_by_later_space p lines n t s (i j : nat) li lj :
  (i < j)%nat ->
  lines !! i = Some li -> hasLeadingTab li = true ->
  lines !! j = Some lj -> startsWithSpace lj = true ->
  exists (k : nat) err,
    (k <= j)%nat
    /\ tabsVsSpacesFrom p n t s lines
       = fileAndLineError p (n + Z.of_nat k + 1) err.
Proof.
  revert n t s i j. induction lines as [|l lines IH];
    intros n t s i j Hij Hi Htab Hj Hsp; [discriminate|].
  destruct j as [|j]; [lia|]. cbn [tabsVsSpacesFrom].
  destruct (tabsVsSpacesLine p n t s (runes l)) as [msg|t' s'] eqn:E.
  - apply scan_Return in E as [err ->]. exists 0%nat, err.
    split; [lia|]. do 2 f_equal; lia.
  - destruct i as [|i].
    + injection Hi as ->. apply scan_hasLeadingTab in E; [|exact Htab].
      subst t'.
      destruct (loop_tab_then_space p lines (n + 1) s' j lj Hj Hsp)
        as (k & err & Hk & ->).
      exists (S k), err. split; [lia|]. do 2 f_equal; lia.
    + destruct (IH (n + 1) t' s' i j ltac:(lia) Hi Htab Hj Hsp)
        as (k & err & Hk & ->).
      exists (S k), err. split; [lia|]. do 2 f_equal; lia.
Qed.

(** When every line before the one that starts with a space has tabs
    only, that line is where the loop stops. *)
Lemma loop_first_space p lines n t (i j : nat) li lj :
  (i < j)%nat ->
  lines !! i = Some li -> hasLeadingTab li = true ->
  lines !! j = Some lj -> startsWithSpace lj = true ->
  (forall (k : nat) l, (k < j)%nat -> lines !! k = Some l -> onlyTabs l = true) ->
  tabsVsSpacesFrom p n t false lines
  = fileAndLineError p (n + Z.of_nat j + 1) spaceAfterTabMsg.
Proof.
  revert n t i j. induction lines as [|l lines IH];
    intros n t i j Hij Hi Htab Hj Hsp Hbefore; [discriminate|].
  destruct j as [|j]; [lia|]. cbn [tabsVsSpacesFrom].
  rewrite scan_onlyTabs by (apply (Hbefore 0%nat); [lia | reflexivity]).
  assert (forall (k : nat) l0, (k < j)%nat -> lines !! k = Some l0 ->
                               onlyTabs l0 = true) as Hbefore'.
  { intros k l0 Hk Hl0. apply (Hbefore (S k)); [lia | exact Hl0]. }
  destruct i as [|i].
  - injection Hi as ->. rewrite Htab, orb_true_r.
    clear IH Hij Htab. revert n Hj Hbefore'. clear Hbefore.
    revert j. induction lines as [|l lines IH]; intros j n Hj Hb; [discriminate|].
    cbn [tabsVsSpacesFrom]. destruct j as [|j].
    + injection Hj as ->. rewrite scan_startsWithSpace by exact Hsp.
      do 2 f_equal; lia.
    + rewrite scan_onlyTabs by (apply (Hb 0%nat); [lia | reflexivity]).
      cbn [orb]. rewrite (IH j (n + 1)).
      * do 2 f_equal; lia.
      * exact Hj.
      * intros k l0 Hk Hl0. apply (Hb (S k)); [lia | exact Hl0].
  - rewrite (IH (n + 1) _ i j ltac:(lia) Hi Htab Hj Hsp Hbefore').
    do 2 f_equal; lia.
Qed.

(** C5, the claim as worded fails: in the first file the later line 3 starts
    with a space but line 2 is reported; in the second the later line 2
    starts with a space but line 1 is reported. *)
Lemma tabsVsSpaces_later_line_not_reported :
  ~ tabsVsSpacesClaim tabThenTwoSpaces /\ ~ tabsVsSpacesClaim spaceTabThenSpace.
Proof.
  split; intros [_ H].
  - destruct (H 0%nat 2%nat (TAB +:+ "a") " c") as [msg Hmsg];
      try reflexivity; [lia|].
    vm_compute in Hmsg. discriminate.
  - destruct (H 0%nat 1%nat (" " +:+ TAB +:+ "a") " b") as [msg Hmsg];
      try reflexivity; [lia|].
    vm_compute in Hmsg. discriminate.
Qed.

(** C5, amended.  A file whose lines all have leading whitespace of tabs
    only passes.  When the leading whitespace of some line contains a tab
    and a strictly later line starts with a space, the file fails at that
    later line or before it; it fails at that later line, with the
    space-after-tab message, when every line before it has leading
    whitespace of tabs only. *)
Theorem tabsVsSpaces_fails_at_first_conflict args :
  (Forall (fun line => onlyTabs line = true) (fileAsLines args) ->
   ruleCheckTabsVsSpacesOnly args = Ok "")
  /\ (forall (i j : nat) li lj,
        (i < j)%nat ->
        fileAsLines args !! i = Some li -> hasLeadingTab li = true ->
        fileAsLines args !! j = Some lj -> startsWithSpace lj = true ->
        (exists (k : nat) err,
            (k <= j)%nat
            /\ ruleCheckTabsVsSpacesOnly args
               = Ok (fileAndLineError (filePath args) (Z.of_nat k + 1) err))
        /\ ((forall (k : nat) l, (k < j)%nat -> fileAsLines args !! k = Some l ->
                                 onlyTabs l = true) ->
            ruleCheckTabsVsSpacesOnly args
            = Ok (fileAndLineError (filePath args) (Z.of_nat j + 1)
                    spaceAfterTabMsg))).
Proof.
  unfold ruleCheckTabsVsSpacesOnly. split.
  - intros H. now rewrite loop_onlyTabs.
  - intros i j li lj Hij Hi Htab Hj Hsp. split.
    + destruct (loop_fails_by_later_space (filePath args) (fileAsLines args)
                  0 false false i j li lj Hij Hi Htab Hj Hsp)
        as (k & err & Hk & ->).
      exists k, err. split; [exact Hk|]. do 3 f_equal.
    + intros Hbefore.
      rewrite (loop_first_space _ _ 0 false i j li lj Hij Hi Htab Hj Hsp Hbefore).
      do 3 f_equal.
Qed.

Lemma tabsVsSpaces_witness :
  ruleCheckTabsVsSpacesOnly tabThenTwoSpaces
  = Ok (fileAndLineError "f.txt" 2 spaceAfterTabMsg).
Proof.
  apply (proj2 (proj2 (tabsVsSpaces_fails_at_first_conflict tabThenTwoSpaces)
                  0%nat 1%nat (TAB +:+ "a") " b"
                  ltac:(lia) eq_refl eq_refl eq_refl eq_refl)).
  intros [|j] l Hj H; [|lia]. vm_compute in H. injection H as <-.
  reflexivity.
Defined.

End TabsVsSpaces.

(** * ConsistentNewlines *)

Module Newlines.
Import Go GoFacts Spec Helpers Fixtures.

Lemma HasPrefix_nil s : HasPrefix s "" = true.
Proof. apply HasPrefix_spec. now exists s. Qed.

Lemma HasPrefix_cons c s d p :
  HasPrefix (String c s) (String d p) = Ascii.eqb c d && HasPrefix s p.
Proof.
  unfold HasPrefix. rewrite !len_String. cbn [String.length takeBytes String.eqb].
  destruct (Ascii.eqb c d); cbn.
  - destruct (Z.leb_spec (len p + 1) (len s + 1)), (Z.leb_spec (len p) (len s));
      try reflexivity; lia.
  - now rewrite andb_false_r.
Qed.

Lemma HasPrefix_empty d p : HasPrefix "" (String d p) = false.
Proof.
  unfold HasPrefix. rewrite len_String. pose proof (len_nonneg p).
  change (len "") with 0. now destruct (Z.leb_spec (len p + 1) 0); [lia|].
Qed.

Lemma IndexByte_range s c : -1 <= IndexByte s c.
Proof.
  induction s as [|b s IH]; cbn [IndexByte]; [lia|].
  destruct (Ascii.eqb b c); [lia|].
  destruct (Z.ltb_spec (IndexByte s c) 0); lia.
Qed.

Lemma IndexByte_hasByte s c : (0 <=? IndexByte s c) = hasByte c s.
Proof.
  induction s as [|b s IH]; [reflexivity|]. cbn [IndexByte hasByte].
  destruct (Ascii.eqb b c); [reflexivity|]. cbn [orb]. rewrite <- IH.
  destruct (Z.ltb_spec (IndexByte s c) 0).
  - symmetry. apply Z.leb_gt. lia.
  - rewrite (proj2 (Z.leb_le 0 (IndexByte s c))) by lia. apply Z.leb_le. lia.
Qed.

Lemma ContainsRune_LF s : ContainsRune s 10 = hasByte "010" s.
Proof. unfold ContainsRune, IndexRune. cbn [andb Z.leb Z.ltb]. apply IndexByte_hasByte. Qed.

Lemma ContainsRune_CR s : ContainsRune s 13 = hasByte "013" s.
Proof. unfold ContainsRune, IndexRune. cbn [andb Z.leb Z.ltb]. apply IndexByte_hasByte. Qed.

Lemma HasPrefix_CRLF c rest :
  HasPrefix (String c rest) CRLF
  = Ascii.eqb c "013"
    && match rest with String d _ => Ascii.eqb d "010" | "" => false end.
Proof.
  change CRLF with (String "013" (String "010" "")). rewrite HasPrefix_cons.
  destruct rest as [|d rest']; [now rewrite HasPrefix_empty|].
  now rewrite HasPrefix_cons, HasPrefix_nil, andb_true_r.
Qed.

Lemma Contains_CRLF s : Contains s CRLF = hasCRLF s.
Proof.
  unfold Contains. induction s as [|c rest IH]; [reflexivity|].
  cbn [Index hasCRLF]. rewrite HasPrefix_CRLF.
  destruct (_ && _); [reflexivity|]. cbn [orb]. rewrite <- IH.
  destruct (Z.ltb_spec (Index rest CRLF) 0).
  - symmetry. apply Z.leb_gt. lia.
  - rewrite (proj2 (Z.leb_le 0 (Index rest CRLF))) by lia. apply Z.leb_le. lia.
Qed.

Lemma replaceFrom_CRLF s :
  (forall n, n < 0 -> replaceFrom 0 n s CRLF "" = withoutCRLF s)
  /\ (forall n, n < 0 -> replaceFrom 0 n (afterFirstByte s) CRLF "" = withoutCRLF (afterFirstByte s)).
Proof.
  induction s as [|c rest [IH1 IH2]]; [split; reflexivity|].
  split; [|exact IH1]. intros n Hn. cbn [replaceFrom].
  rewrite HasPrefix_CRLF. destruct (Z.eqb_spec n 0) as [->|_]; [lia|].
  cbn [negb andb]. destruct rest as [|d rest'].
  - rewrite andb_false_r. reflexivity.
  - cbn [withoutCRLF]. destruct (Ascii.eqb c "013" && Ascii.eqb d "010").
    + rewrite str_app_nil_l. change (Nat.pred (String.length CRLF)) with 1%nat.
      cbn [replaceFrom]. apply IH2. lia.
    + f_equal. now apply IH1.
Qed.

Lemma Replace_CRLF s : Replace s CRLF "" (-1) = withoutCRLF s.
Proof.
  unfold Replace. change (String.eqb CRLF "" || (-1 =? 0) || String.eqb CRLF "")
    with false. cbn iota. now apply replaceFrom_CRLF.
Qed.

(** C6.  The check fails exactly when more than one of the three
    classifications holds of the raw text; a text whose CRLF pairs are its
    only line ends passes, one with a CRLF pair and a bare LF fails. *)
Theorem consistentNewlines_fails_iff_mixed args :
  let text := fileAsString args in
  (ruleCheckConsistentNewlines args
   = if moreThanOne (hasCRLF text) (hasBareLF text) (hasBareCR text)
     then Ok (fileError (filePath args) "File uses inconsistent newlines")
     else Ok "")
  /\ (ruleCheckConsistentNewlines args <> Ok ""
      <-> moreThanOne (hasCRLF text) (hasBareLF text) (hasBareCR text) = true)
  /\ (hasBareLF text = false -> hasBareCR text = false ->
      ruleCheckConsistentNewlines args = Ok "")
  /\ (hasCRLF text = true -> hasBareLF text = true ->
      ruleCheckConsistentNewlines args <> Ok "").
Proof.
  intros text.
  assert (ruleCheckConsistentNewlines args
          = if moreThanOne (hasCRLF text) (hasBareLF text) (hasBareCR text)
            then Ok (fileError (filePath args) "File uses inconsistent newlines")
            else Ok "") as E.
  { unfold ruleCheckConsistentNewlines, hasBareLF, hasBareCR.
    rewrite Contains_CRLF, Replace_CRLF, ContainsRune_LF, ContainsRune_CR.
    fold text.
    destruct (hasCRLF text), (hasByte "010" _), (hasByte "013" _); reflexivity. }
  split; [exact E|]. rewrite E.
  assert (forall p, Ok (fileError p "File uses inconsistent newlines") <> Ok "")
    as Hne.
  { intros p [= H]. now apply fileError_nonempty in H. }
  repeat split.
  - destruct (moreThanOne _ _ _); [reflexivity | congruence].
  - intros ->. apply Hne.
  - intros -> ->. now destruct (hasCRLF text).
  - intros -> ->. apply Hne.
Qed.

Lemma consistentNewlines_witness :
  hasCRLF (fileAsString mixedNewlines) = true
  /\ hasBareLF (fileAsString mixedNewlines) = true
  /\ ruleCheckConsistentNewlines mixedNewlines <> Ok "".
Proof.
  split; [reflexivity|]. split; [reflexivity|].
  apply (proj2 (proj2 (proj2
           (consistentNewlines_fails_iff_mixed mixedNewlines))));
    reflexivity.
Defined.

End Newlines.

(** * BadClassName *)

Module BadClassName.
Import Go GoFacts Spec Helpers Fixtures.

Lemma slice_base base :
  slice (base +:+ ".cs") 0 (len (base +:+ ".cs") - len ".cs") = Ok base.
Proof.
  rewrite len_app. replace (len base + len ".cs" - len ".cs") with (len base) by lia.
  unfold len at 1. rewrite slice_prefix_ok by (rewrite str_length_app; lia).
  now rewrite takeBytes_app.
Qed.

(** One turn of the loop, by the kind of line. *)
Lemma badClassNameFrom_cons p base n line rest :
  badClassNameFrom p base n (line :: rest)
  = match classDeclaration line with
    | Some className =>
        if negb (String.eqb className base)
        then Ok (fileAndLineError p (n + 1) (classNameMsg className base))
        else badClassNameFrom p base (n + 1) rest
    | None => badClassNameFrom p base (n + 1) rest
    end.
Proof.
  cbn [badClassNameFrom]. unfold classDeclaration.
  destruct (HasPrefix (Trim line spaceTab) "class ") eqn:E1.
  { now rewrite (HasPrefix_sliceFrom _ _ E1). }
  destruct (HasPrefix (Trim line spaceTab) "public class ") eqn:E2.
  { now rewrite (HasPrefix_sliceFrom _ _ E2). }
  destruct (HasPrefix (Trim line spaceTab) "internal class ") eqn:E3.
  { now rewrite (HasPrefix_sliceFrom _ _ E3). }
  reflexivity.
Qed.

Lemma badClassNameFrom_passes p base n lines :
  (forall line className, In line lines ->
     classDeclaration line = Some className -> className = base) ->
  badClassNameFrom p base n lines = Ok "".
Proof.
  revert n. induction lines as [|l lines IH]; intros n H; [reflexivity|].
  rewrite badClassNameFrom_cons.
  destruct (classDeclaration l) as [cn|] eqn:E.
  - rewrite (H l cn (or_introl eq_refl) E), String.eqb_refl. cbn.
    apply IH. intros line cn' Hin. apply H. now right.
  - apply IH. intros line cn' Hin. apply H. now right.
Qed.

Lemma badClassNameFrom_first p base n lines (i : nat) line className :
  lines !! i = Some line ->
  classDeclaration line = Some className ->
  className <> base ->
  (forall (j : nat) l cn, (j < i)%nat -> lines !! j = Some l ->
     classDeclaration l = Some cn -> cn = base) ->
  badClassNameFrom p base n lines
  = Ok (fileAndLineError p (n + Z.of_nat i + 1) (classNameMsg className base)).
Proof.
  revert n i. induction lines as [|l lines IH]; intros n i Hi Hd Hne Hbefore;
    [discriminate|].
  rewrite badClassNameFrom_cons. destruct i as [|i].
  - injection Hi as ->. rewrite Hd.
    rewrite (proj2 (String.eqb_neq _ _) Hne). cbn. do 2 f_equal; lia.
  - assert (badClassNameFrom p base (n + 1) lines
            = Ok (fileAndLineError p (n + Z.of_nat (S i) + 1)
                    (classNameMsg className base))) as E.
    { rewrite (IH (n + 1) i Hi Hd Hne).
      - do 2 f_equal; lia.
      - intros j l' cn Hj. apply (Hbefore (S j)). lia. }
    destruct (classDeclaration l) as [cn|] eqn:El; [|exact E].
    rewrite (Hbefore 0%nat l cn ltac:(lia) eq_refl El), String.eqb_refl.
    exact E.
Qed.

(** C3, the claim as worded fails: of two offending lines only the first
    has a diagnostic. *)
Lemma badClassName_second_offender_not_reported :
  ~ badClassNameClaim twoBadClasses.
Proof.
  intros H.
  destruct (H "Widget" eq_refl 1%nat "class B" "B" eq_refl eq_refl)
    as (out & E & C); [discriminate|].
  vm_compute in E. injection E as <-. vm_compute in C. discriminate.
Qed.

(** C3, amended.  The check passes when no declaration line disagrees
    with the base name; otherwise it returns one diagnostic, that of the
    first declaration line whose name disagrees. *)
Theorem badClassName_reports_first_offender args base :
  Go.Base (filePath args) = base +:+ ".cs" ->
  ((forall line className, In line (fileAsLines args) ->
      classDeclaration line = Some className -> className = base) ->
   ruleCheckBadClassName args = Ok "")
  /\ (forall (i : nat) line className,
        fileAsLines args !! i = Some line ->
        classDeclaration line = Some className ->
        className <> base ->
        (forall (j : nat) l cn, (j < i)%nat -> fileAsLines args !! j = Some l ->
           classDeclaration l = Some cn -> cn = base) ->
        ruleCheckBadClassName args
        = Ok (fileAndLineError (filePath args) (Z.of_nat i + 1)
                (classNameMsg className base))).
Proof.
  intros Hbase. unfold ruleCheckBadClassName. rewrite Hbase, slice_base.
  cbn [mbind result_bind]. split.
  - apply badClassNameFrom_passes.
  - intros i line cn Hi Hd Hne Hbefore.
    rewrite (badClassNameFrom_first _ _ 0 _ i line cn Hi Hd Hne Hbefore).
    do 2 f_equal.
Qed.

Lemma badClassName_reports_first_offender_witness :
  Go.Base (filePath twoBadClasses) = "Widget" +:+ ".cs"
  /\ ruleCheckBadClassName twoBadClasses
     = Ok "Widget.cs:1: Class name A should be Widget instead".
Proof.
  split; [reflexivity|].
  apply (proj2 (badClassName_reports_first_offender twoBadClasses "Widget"
                  eq_refl) 0%nat "class A" "A");
    try reflexivity; [discriminate | lia].
Defined.

End BadClassName.

(** * BadNameSpace *)

Module BadNameSpace.
Import Go GoFacts Spec Helpers Fixtures.

Lemma HasSuffix_dotSuffix D N :
  HasSuffix D ("." +:+ N) = true <-> dotSuffix N D.
Proof. apply HasSuffix_spec. Qed.

Lemma not_dotSuffix_self D : ~ dotSuffix D D.
Proof.
  intros [front H]. apply (f_equal String.length) in H.
  rewrite !str_length_app in H. cbn in H. lia.
Qed.

Section DerivedNameSpace.

(** The path of the file and the namespace derived from it. *)
Variables (p D : string).
Hypothesis derived : getFilePathAsNameSpace p = Ok D.

(** One turn of the loop.  The local [pathAsNameSpace] is empty or holds
    the derived value. *)
Lemma badNameSpaceFrom_cons n cache line rest :
  cache = "" \/ cache = D ->
  badNameSpaceFrom p n cache (line :: rest)
  = match namespaceDeclaration line with
    | Some N =>
        if HasSuffix D ("." +:+ N)
        then badNameSpaceFrom p (n + 1) D rest
        else Ok (fileAndLineError p (n + 1) (nameSpaceMsg N D))
    | None => badNameSpaceFrom p (n + 1) cache rest
    end.
Proof.
  intros Hcache. cbn [badNameSpaceFrom]. unfold namespaceDeclaration.
  destruct (HasPrefix (Trim line spaceTab) "namespace ") eqn:E; [|reflexivity].
  cbn [negb]. rewrite (HasPrefix_sliceFrom _ _ E). cbn [mbind result_bind].
  assert ((if String.eqb cache "" then getFilePathAsNameSpace p else Ok cache)
          = Ok D) as ->.
  { destruct Hcache as [->| ->]; [exact derived|].
    destruct (String.eqb_spec D "") as [->|_]; [exact derived | reflexivity]. }
  cbn. now destruct (HasSuffix D _).
Qed.

Lemma badNameSpaceFrom_passes n cache lines :
  cache = "" \/ cache = D ->
  (forall line N, In line lines -> namespaceDeclaration line = Some N ->
                  dotSuffix N D) ->
  badNameSpaceFrom p n cache lines = Ok "".
Proof.
  revert n cache. induction lines as [|l lines IH];
    intros n cache Hcache H; [reflexivity|].
  rewrite badNameSpaceFrom_cons by assumption.
  destruct (namespaceDeclaration l) as [N|] eqn:E.
  - rewrite (proj2 (HasSuffix_dotSuffix D N)) by (apply (H l); [now left | exact E]).
    apply IH; [now right|]. intros line N' Hin. apply H. now right.
  - apply IH; [exact Hcache|]. intros line N' Hin. apply H. now right.
Qed.

Lemma badNameSpaceFrom_first n cache lines (i : nat) line N :
  cache = "" \/ cache = D ->
  lines !! i = Some line ->
  namespaceDeclaration line = Some N ->
  ~ dotSuffix N D ->
  (forall (j : nat) l N', (j < i)%nat -> lines !! j = Some l ->
     namespaceDeclaration l = Some N' -> dotSuffix N' D) ->
  badNameSpaceFrom p n cache lines
  = Ok (fileAndLineError p (n + Z.of_nat i + 1) (nameSpaceMsg N D)).
Proof.
  revert n cache i. induction lines as [|l lines IH];
    intros n cache i Hcache Hi Hd Hbad Hbefore; [discriminate|].
  rewrite badNameSpaceFrom_cons by assumption. destruct i as [|i].
  - injection Hi as ->. rewrite Hd.
    destruct (HasSuffix D ("." +:+ N)) eqn:E.
    + now apply HasSuffix_dotSuffix in E.
    + do 2 f_equal; lia.
  - assert (forall c, c = "" \/ c = D ->
              badNameSpaceFrom p (n + 1) c lines
              = Ok (fileAndLineError p (n + Z.of_nat (S i) + 1)
                      (nameSpaceMsg N D))) as E.
    { intros c Hc. rewrite (IH (n + 1) c i Hc Hi Hd Hbad).
      - do 2 f_equal; lia.
      - intros j l' N' Hj. apply (Hbefore (S j)). lia. }
    destruct (namespaceDeclaration l) as [N'|] eqn:El; [|now apply E].
    rewrite (proj2 (HasSuffix_dotSuffix D N'))
      by (apply (Hbefore 0%nat l); [lia | reflexivity | exact El]).
    apply E. now right.
Qed.

End DerivedNameSpace.

(** A file always has a first declaration line that fails, if it has one
    that fails. *)
Lemma first_failing_declaration D lines line N :
  In line lines -> namespaceDeclaration line = Some N -> ~ dotSuffix N D ->
  exists (i : nat) l N',
    lines !! i = Some l /\ namespaceDeclaration l = Some N'
    /\ HasSuffix D ("." +:+ N') = false
    /\ (forall (j : nat) l0 N0, (j < i)%nat -> lines !! j = Some l0 ->
          namespaceDeclaration l0 = Some N0 -> dotSuffix N0 D).
Proof.
  induction lines as [|l lines IH]; intros Hin Hd Hbad; [destruct Hin|].
  destruct (namespaceDeclaration l) as [N'|] eqn:El.
  - destruct (HasSuffix D ("." +:+ N')) eqn:E.
    + destruct Hin as [->|Hin].
      { rewrite Hd in El. injection El as ->.
        now apply HasSuffix_dotSuffix in E. }
      destruct (IH Hin Hd Hbad) as (i & l0 & N0 & Hi & H0 & Hs & Hb).
      exists (S i), l0, N0. repeat split; try assumption.
      intros [|j] l1 N1 Hj Hl1 Hn1.
      * injection Hl1 as <-. rewrite El in Hn1. injection Hn1 as <-.
        now apply HasSuffix_dotSuffix.
      * apply (Hb j l1); [lia | exact Hl1 | exact Hn1].
    + exists 0%nat, l, N'. repeat split; try assumption. intros j; lia.
  - destruct Hin as [->|Hin]; [congruence|].
    destruct (IH Hin Hd Hbad) as (i & l0 & N0 & Hi & H0 & Hs & Hb).
    exists (S i), l0, N0. repeat split; try assumption.
    intros [|j] l1 N1 Hj Hl1 Hn1.
    + injection Hl1 as <-. congruence.
    + apply (Hb j l1); [lia | exact Hl1 | exact Hn1].
Qed.

(** C10.  With [D] the namespace derived from the path, the check passes
    exactly when every declared namespace [N] has ["." + N] as a suffix of
    [D]; the first declaration that has not is the one reported; and a
    declaration of [D] itself always fails. *)
Theorem badNameSpace_passes_iff_dot_suffix args D :
  getFilePathAsNameSpace (filePath args) = Ok D ->
  (ruleCheckBadNameSpace args = Ok ""
   <-> forall line N, In line (fileAsLines args) ->
         namespaceDeclaration line = Some N -> dotSuffix N D)
  /\ (forall (i : nat) line N,
        fileAsLines args !! i = Some line ->
        namespaceDeclaration line = Some N ->
        ~ dotSuffix N D ->
        (forall (j : nat) l N', (j < i)%nat -> fileAsLines args !! j = Some l ->
           namespaceDeclaration l = Some N' -> dotSuffix N' D) ->
        ruleCheckBadNameSpace args
        = Ok (fileAndLineError (filePath args) (Z.of_nat i + 1)
                (nameSpaceMsg N D)))
  /\ (forall line, In line (fileAsLines args) ->
        namespaceDeclaration line = Some D ->
        ruleCheckBadNameSpace args <> Ok "").
Proof.
  intros HD. unfold ruleCheckBadNameSpace.
  assert (forall (i : nat) line N,
            fileAsLines args !! i = Some line ->
            namespaceDeclaration line = Some N ->
            ~ dotSuffix N D ->
            (forall (j : nat) l N', (j < i)%nat ->
               fileAsLines args !! j = Some l ->
               namespaceDeclaration l = Some N' -> dotSuffix N' D) ->
            badNameSpaceFrom (filePath args) 0 "" (fileAsLines args)
            = Ok (fileAndLineError (filePath args) (Z.of_nat i + 1)
                    (nameSpaceMsg N D))) as Hfirst.
  { intros i line N Hi Hd Hbad Hbefore.
    rewrite (badNameSpaceFrom_first _ D HD 0 "" _ i line N); auto. }
  assert (forall line N, In line (fileAsLines args) ->
            namespaceDeclaration line = Some N -> ~ dotSuffix N D ->
            badNameSpaceFrom (filePath args) 0 "" (fileAsLines args) <> Ok "")
    as Hfails.
  { intros line N Hin Hd Hbad.
    destruct (first_failing_declaration D _ line N Hin Hd Hbad)
      as (i & l & N' & Hi & Hd' & Hs & Hb).
    rewrite (Hfirst i l N' Hi Hd'); [|rewrite <- HasSuffix_dotSuffix; congruence|exact Hb].
    intros [= H]. now apply fileAndLineError_nonempty in H. }
  split; [|split].
  - split.
    + intros Hpass line N Hin Hd.
      destruct (HasSuffix D ("." +:+ N)) eqn:E;
        [now apply HasSuffix_dotSuffix|].
      exfalso. apply (Hfails line N Hin Hd); [|exact Hpass].
      rewrite <- HasSuffix_dotSuffix. congruence.
    + intros H. apply (badNameSpaceFrom_passes _ D HD); auto.
  - exact Hfirst.
  - intros line Hin Hd. apply (Hfails line D Hin Hd), not_dotSuffix_self.
Qed.

Lemma badNameSpace_passes_iff_dot_suffix_witness :
  getFilePathAsNameSpace (filePath (bazFile ["namespace bar"; "namespace src.foo.bar"]))
  = Ok "src.foo.bar"
  /\ ruleCheckBadNameSpace (bazFile ["namespace bar"; "namespace src.foo.bar"])
     <> Ok "".
Proof.
  split; [reflexivity|].
  apply (proj2 (proj2 (badNameSpace_passes_iff_dot_suffix
                         (bazFile ["namespace bar"; "namespace src.foo.bar"])
                         "src.foo.bar" eq_refl))
           "namespace src.foo.bar").
  - right. now left.
  - reflexivity.
Defined.

End BadNameSpace.

(** * The evaluator *)

Module Evaluator.
Import Go GoFacts Spec Helpers Fixtures.

Lemma bind_Ok {A B} (t : list event) (a : A) (f : A -> io B) :
  mbind f ((t, Ok a) : io A) = (t ++ trace (f a), outcome (f a)).
Proof. unfold mbind, io_bind, trace, outcome. now destruct (f a). Qed.

Lemma bind_Fatal {A B} (t : list event) msg (f : A -> io B) :
  mbind f ((t, Fatal msg) : io A) = (t, Fatal msg).
Proof. reflexivity. Qed.

Lemma bind_Panic {A B} (t : list event) msg (f : A -> io B) :
  mbind f ((t, Panic msg) : io A) = (t, Panic msg).
Proof. reflexivity. Qed.

(** The events of a sequence are those of its first part, followed by those
    of the rest when the first part ends normally. *)
Lemma trace_bind {A B} (m : io A) (f : A -> io B) :
  trace (mbind f m)
  = trace m ++ match outcome m with
               | Ok a => trace (f a)
               | _ => []
               end.
Proof.
  destruct m as [t [a|msg|msg]].
  - now rewrite bind_Ok.
  - rewrite bind_Fatal. cbn. now rewrite app_nil_r.
  - rewrite bind_Panic. cbn. now rewrite app_nil_r.
Qed.

Lemma stringArrayContains_In array s :
  stringArrayContains array s = true <-> In s array.
Proof.
  induction array as [|e array IH]; cbn [stringArrayContains In].
  - split; [discriminate | tauto].
  - destruct (String.eqb_spec s e) as [->|Hne].
    + split; auto.
    + rewrite IH. split; [auto | intros [H|H]; [congruence | exact H]].
Qed.

Lemma testbit_2 n : Z.testbit 2 n = (n =? 1).
Proof.
  destruct (Z.eqb_spec n 1) as [->|Hn]; [reflexivity|].
  destruct (Z.lt_trichotomy n 0) as [H|[->|H]].
  - now apply Z.testbit_neg_r.
  - reflexivity.
  - apply Z.bits_above_log2; [lia|]. change (Z.log2 2) with 1. lia.
Qed.

Lemma land_flagBinaryFile x :
  (Z.land x flagBinaryFile =? 0) = negb (Z.testbit x 1).
Proof.
  unfold flagBinaryFile. destruct (Z.testbit x 1) eqn:E; cbn [negb].
  - apply Z.eqb_neq. intros H. apply (f_equal (fun z => Z.testbit z 1)) in H.
    rewrite Z.land_spec, E in H. discriminate.
  - apply Z.eqb_eq, Z.bits_inj_0. intros n.
    rewrite Z.land_spec, testbit_2.
    destruct (Z.eqb_spec n 1) as [->|_]; [now rewrite E | apply andb_false_r].
Qed.

Lemma land_flagTextFile x :
  (Z.land x flagTextFile =? 0) = negb (Z.testbit x 0).
Proof.
  unfold flagTextFile. change 1 with (Z.ones 1).
  rewrite Z.land_ones by lia. change (2 ^ 1) with 2.
  rewrite <- Z.bit0_mod. now destruct (Z.testbit x 0).
Qed.

Lemma skipped_false ext isBinary r :
  skipped ext isBinary r = false
  <-> extensionAccepted r ext /\ typeAccepted r isBinary.
Proof.
  unfold skipped, extensionAccepted, typeAccepted, appliesToBinary, appliesToText.
  rewrite land_flagBinaryFile, land_flagTextFile.
  rewrite <- (stringArrayContains_In (fileExtensions r) ext).
  generalize (Z.testbit (fileTypeFlags r) 0) (Z.testbit (fileTypeFlags r) 1).
  intros b0 b1. destruct (fileExtensions r) as [|e l] eqn:El.
  - cbn. destruct isBinary, b0, b1; cbn; intuition congruence.
  - change (length (e :: l) =? 0)%nat with false. cbn [negb andb].
    destruct (stringArrayContains (e :: l) ext), isBinary, b0, b1; cbn;
      intuition congruence.
Qed.

(** A rule whose flags are 0, as [cloneRule] leaves them, is passed over
    for every file. *)
Lemma zero_flags_always_skipped ext isBinary r :
  fileTypeFlags r = 0 -> skipped ext isBinary r = true.
Proof.
  intros H. unfold skipped. rewrite H.
  change (Z.land 0 flagBinaryFile =? 0) with true.
  change (Z.land 0 flagTextFile =? 0) with true.
  destruct isBinary, (negb (length (fileExtensions r) =? 0)%nat
                      && negb (stringArrayContains (fileExtensions r) ext));
    reflexivity.
Qed.

Lemma loads_app t1 t2 : loads (t1 ++ t2) = (loads t1 + loads t2)%nat.
Proof.
  induction t1 as [|e t1 IH]; [reflexivity|].
  destruct e; cbn [loads app]; rewrite IH; reflexivity.
Qed.

Section RuleLoop.

(** The file system, and the extension and classification of the file the
    loop runs for. *)
Variables (w : world) (ext : string) (isBinary : bool).

Lemma runRulesLoop_skipped r rest loaded a :
  skipped ext isBinary r = true ->
  runRulesLoop w ext isBinary (r :: rest) loaded a
  = runRulesLoop w ext isBinary rest loaded a.
Proof.
  unfold skipped. cbn [runRulesLoop]. intros H.
  destruct (negb (length (fileExtensions r) =? 0)%nat
            && negb (stringArrayContains (fileExtensions r) ext));
    [reflexivity|].
  destruct (isBinary && (Z.land (fileTypeFlags r) flagBinaryFile =? 0));
    [reflexivity|].
  destruct (negb isBinary && (Z.land (fileTypeFlags r) flagTextFile =? 0));
    [reflexivity | discriminate].
Qed.

Lemma runRulesLoop_applied r rest loaded a :
  skipped ext isBinary r = false ->
  runRulesLoop w ext isBinary (r :: rest) loaded a
  = (args ← lazyLoad w loaded a;
     emit (EvCheck r args);;
     msg ← lift (checkFunc r args);
     (if negb (String.eqb msg "") then emit (EvPrintln msg) else mret tt);;
     runRulesLoop w ext isBinary rest true args).
Proof.
  unfold skipped. cbn [runRulesLoop]. intros H.
  destruct (negb (length (fileExtensions r) =? 0)%nat
            && negb (stringArrayContains (fileExtensions r) ext));
    [discriminate|].
  destruct (isBinary && (Z.land (fileTypeFlags r) flagBinaryFile =? 0));
    [discriminate|].
  destruct (negb isBinary && (Z.land (fileTypeFlags r) flagTextFile =? 0));
    [discriminate | reflexivity].
Qed.

Lemma lazyLoad_trace loaded a :
  trace (lazyLoad w loaded a)
  = if loaded then [] else [EvReadFile (filePath a)].
Proof.
  unfold lazyLoad, readFileString. destruct loaded; [reflexivity|].
  cbn [negb]. rewrite !trace_bind. cbn.
  now destruct (ioutilReadFile w (filePath a)).
Qed.

Lemma lazyLoad_path loaded a a' :
  outcome (lazyLoad w loaded a) = Ok a' -> filePath a' = filePath a.
Proof.
  unfold lazyLoad, readFileString. destruct loaded; cbn [negb].
  - now intros [= <-].
  - unfold emit. rewrite bind_Ok.
    destruct (ioutilReadFile w (filePath a)); cbn; [|discriminate].
    now intros [= <-].
Qed.

(** The events of one turn of the loop for a rule that is let through. *)
Lemma applied_trace r rest loaded a :
  skipped ext isBinary r = false ->
  trace (runRulesLoop w ext isBinary (r :: rest) loaded a)
  = (if loaded then [] else [EvReadFile (filePath a)])
    ++ match outcome (lazyLoad w loaded a) with
       | Ok args =>
           EvCheck r args
           :: match checkFunc r args with
              | Ok msg =>
                  (if negb (String.eqb msg "") then [EvPrintln msg] else [])
                  ++ trace (runRulesLoop w ext isBinary rest true args)
              | _ => []
              end
       | _ => []
       end.
Proof.
  intros H. rewrite runRulesLoop_applied by exact H.
  rewrite trace_bind, lazyLoad_trace. f_equal.
  destruct (outcome (lazyLoad w loaded a)) as [args| |]; try reflexivity.
  rewrite trace_bind. cbn [emit trace outcome fst snd app]. f_equal.
  rewrite trace_bind. cbn [lift trace outcome fst snd app].
  destruct (checkFunc r args) as [msg| |]; try reflexivity.
  rewrite trace_bind. now destruct (negb (String.eqb msg "")).
Qed.

(** A check is run only for a rule of the list that the guards let
    through, and on the path the loop was started with. *)
Lemma loop_checks rules loaded a r args :
  In (EvCheck r args) (trace (runRulesLoop w ext isBinary rules loaded a)) ->
  In r rules /\ filePath args = filePath a /\ skipped ext isBinary r = false.
Proof.
  revert loaded a. induction rules as [|r0 rules IH]; intros loaded a Hin;
    [destruct Hin|].
  destruct (skipped ext isBinary r0) eqn:Hs.
  - rewrite runRulesLoop_skipped in Hin by exact Hs.
    destruct (IH _ _ Hin) as (H1 & H2 & H3). repeat split; auto. now right.
  - rewrite applied_trace in Hin by exact Hs.
    apply in_app_or in Hin as [Hin|Hin].
    { destruct loaded; [destruct Hin|]. destruct Hin as [Hin|[]]. discriminate. }
    destruct (outcome (lazyLoad w loaded a)) as [a'| |] eqn:Ha;
      try (destruct Hin).
    + injection H as <- <-. repeat split; [now left | | exact Hs].
      now apply lazyLoad_path in Ha.
    + destruct (checkFunc r0 a') as [msg| |]; try (destruct H).
      apply in_app_or in H as [H|H].
      { destruct (negb (String.eqb msg "")); [|destruct H].
        destruct H as [H|[]]. discriminate. }
      destruct (IH _ _ H) as (H1 & H2 & H3).
      repeat split; [now right | | exact H3].
      rewrite H2. now apply lazyLoad_path in Ha.
Qed.

(** The loop reads the content once if it is not there and a rule is let
    through, and never otherwise. *)
Lemma loop_loads rules loaded a :
  loads (trace (runRulesLoop w ext isBinary rules loaded a))
  = if loaded || forallb (skipped ext isBinary) rules then 0%nat else 1%nat.
Proof.
  revert loaded a. induction rules as [|r0 rules IH]; intros loaded a.
  - cbn. now rewrite orb_true_r.
  - cbn [forallb]. destruct (skipped ext isBinary r0) eqn:Hs.
    + rewrite runRulesLoop_skipped by exact Hs. now rewrite IH.
    + rewrite applied_trace by exact Hs. rewrite loads_app, andb_false_l, orb_false_r.
      assert (loads match outcome (lazyLoad w loaded a) with
                    | Ok args =>
                        EvCheck r0 args
                        :: match checkFunc r0 args with
                           | Ok msg =>
                               (if negb (String.eqb msg "")
                                then [EvPrintln msg] else [])
                               ++ trace (runRulesLoop w ext isBinary rules true args)
                           | _ => []
                           end
                    | _ => []
                    end = 0%nat) as ->.
      { destruct (outcome (lazyLoad w loaded a)) as [a'| |]; try reflexivity.
        cbn [loads]. destruct (checkFunc r0 a') as [msg| |]; try reflexivity.
        rewrite loads_app, IH. cbn [orb].
        now destruct (negb (String.eqb msg "")). }
      now destruct loaded.
Qed.

End RuleLoop.

Lemma readFirstNChars_trace w p n :
  trace (readFirstNChars w p n) = [EvOpen p].
Proof.
  unfold readFirstNChars. rewrite trace_bind. cbn.
  now destruct (osOpen w p).
Qed.

Lemma runRulesOnFile_trace w rules f :
  trace (runRulesOnFile w rules f)
  = EvOpen (getCanonicalPath w f)
    :: match outcome (readFirstNChars w (getCanonicalPath w f) 50) with
       | Ok firstNChars =>
           trace (runRulesLoop w (Ext f) (hasControlCharacters firstNChars)
                    rules false
                    {| filePath := getCanonicalPath w f;
                       fileAsString := ""; fileAsLines := [] |})
       | _ => []
       end.
Proof.
  unfold runRulesOnFile. now rewrite trace_bind, readFirstNChars_trace.
Qed.

(** A run on one text file with five stub rules: one read, and a check for
    the two rules that accept the file. *)
Example stub_run :
  map eventLabel (trace (runRulesOnFiles widgetWorld stubRules ["Widget.cs"]))
  = ["open /repo/Widget.cs"; "read /repo/Widget.cs";
     "check text-cs /repo/Widget.cs"; "check text-any /repo/Widget.cs"].
Proof. vm_compute. reflexivity. Qed.

(** What the evaluation of one file invokes. *)
Lemma file_checks w rules f r args :
  In (EvCheck r args) (trace (runRulesOnFile w rules f)) ->
  exists firstNChars,
    outcome (readFirstNChars w (getCanonicalPath w f) 50) = Ok firstNChars
    /\ In r rules
    /\ filePath args = getCanonicalPath w f
    /\ extensionAccepted r (Ext f)
    /\ typeAccepted r (hasControlCharacters firstNChars).
Proof.
  rewrite runRulesOnFile_trace. intros [H|H]; [discriminate|].
  destruct (outcome (readFirstNChars w (getCanonicalPath w f) 50))
    as [firstNChars| |]; try (destruct H).
  apply loop_checks in H as (H1 & H2 & H3).
  apply skipped_false in H3 as [H3 H4].
  exists firstNChars. repeat split; assumption.
Qed.

(** C7.  Over a whole run, every invocation of a check is that of a rule of
    the list on a file of the list whose extension the rule's extension set
    accepts (the set is empty or contains it) and whose classification
    matches the rule's flags; and in the evaluation of one file a rule whose
    extension set or flags do not accept the file is never invoked. *)
Theorem checks_only_where_filters_accept w rules files :
  (forall r args,
      In (EvCheck r args) (trace (runRulesOnFiles w rules files)) ->
      exists f firstNChars,
        In f files
        /\ outcome (readFirstNChars w (getCanonicalPath w f) 50) = Ok firstNChars
        /\ In r rules
        /\ filePath args = getCanonicalPath w f
        /\ extensionAccepted r (Ext f)
        /\ typeAccepted r (hasControlCharacters firstNChars))
  /\ (forall f firstNChars r args,
        outcome (readFirstNChars w (getCanonicalPath w f) 50) = Ok firstNChars ->
        ~ (extensionAccepted r (Ext f)
           /\ typeAccepted r (hasControlCharacters firstNChars)) ->
        ~ In (EvCheck r args) (trace (runRulesOnFile w rules f))).
Proof.
  split.
  - induction files as [|f files IH]; intros r args Hin; [destruct Hin|].
    cbn [runRulesOnFiles] in Hin. rewrite trace_bind in Hin.
    apply in_app_or in Hin as [Hin|Hin].
    + apply file_checks in Hin as (p & H1 & H2 & H3 & H4 & H5).
      exists f, p. repeat split; try assumption. now left.
    + destruct (outcome (runRulesOnFile w rules f)); try (destruct Hin).
      destruct (IH r args Hin) as (f' & p & H0 & H1 & H2 & H3 & H4 & H5).
      exists f', p. repeat split; try assumption. now right.
  - intros f p r args Hp Hno Hin.
    apply file_checks in Hin as (p' & H1 & _ & _ & H4 & H5).
    rewrite Hp in H1. injection H1 as <-. apply Hno. now split.
Qed.

(** C8.  The evaluation of one file loads its content at most once, and
    not at all when no rule of the list accepts the file; a whole run loads
    at most once per file of the list. *)
Theorem content_loaded_at_most_once w rules :
  (forall f, (loads (trace (runRulesOnFile w rules f)) <= 1)%nat)
  /\ (forall f firstNChars,
        outcome (readFirstNChars w (getCanonicalPath w f) 50) = Ok firstNChars ->
        (forall r, In r rules ->
           ~ (extensionAccepted r (Ext f)
              /\ typeAccepted r (hasControlCharacters firstNChars))) ->
        loads (trace (runRulesOnFile w rules f)) = 0%nat)
  /\ (forall files,
        (loads (trace (runRulesOnFiles w rules files)) <= length files)%nat).
Proof.
  assert (forall f, (loads (trace (runRulesOnFile w rules f)) <= 1)%nat) as H1.
  { intros f. rewrite runRulesOnFile_trace. cbn [loads].
    destruct (outcome (readFirstNChars w (getCanonicalPath w f) 50));
      cbn [loads]; try lia.
    rewrite loop_loads. destruct (_ || _); lia. }
  split; [exact H1|]. split.
  - intros f p Hp Hno. rewrite runRulesOnFile_trace, Hp. cbn [loads].
    rewrite loop_loads.
    assert (forallb (skipped (Ext f) (hasControlCharacters p)) rules = true)
      as ->; [|reflexivity].
    apply forallb_forall. intros r Hr.
    destruct (skipped (Ext f) (hasControlCharacters p) r) eqn:E; [reflexivity|].
    apply skipped_false in E. now destruct (Hno r Hr).
  - induction files as [|f files IH]; [cbn; lia|].
    cbn [runRulesOnFiles length]. rewrite trace_bind, loads_app.
    specialize (H1 f).
    destruct (outcome (runRulesOnFile w rules f)); cbn [loads]; lia.
Qed.

Lemma checks_only_where_filters_accept_witness :
  ~ In (EvCheck javaRule widgetArgs)
       (trace (runRulesOnFile widgetWorld stubRules "Widget.cs")).
Proof.
  apply (proj2 (checks_only_where_filters_accept widgetWorld stubRules
                  ["Widget.cs"])
           "Widget.cs" (fileRead (make 50) widgetSource)).
  - reflexivity.
  - intros [[H|[H|[]]] _]; discriminate.
Defined.

Lemma content_loaded_at_most_once_witness :
  (loads (trace (runRulesOnFile widgetWorld stubRules "Widget.cs")) <= 1)%nat.
Proof.
  apply (proj1 (content_loaded_at_most_once widgetWorld stubRules)).
Defined.

End Evaluator.

(** * Reading the config *)

Module Config.
Import Go GoFacts Spec Helpers Fixtures Resolver.

Lemma argument_of_catalog n R : rulesDefinitions !! n = Some R -> argument R = "".
Proof.
  revert n R. change (map_Forall (fun _ R => argument R = "") rulesDefinitions).
  unfold rulesDefinitions, initRulesDefinitions. cbv zeta. unfold addRule.
  repeat (apply map_Forall_insert_2; [reflexivity|]).
  apply map_Forall_empty.
Qed.

Lemma afterFirstSpace_no_space line :
  containsSpace line = false -> afterFirstSpace line = "".
Proof.
  induction line as [|c s IH]; [reflexivity|]. cbn.
  destruct (Ascii.eqb c " "); [discriminate | exact IH].
Qed.

(** What resolving one trimmed line gives. *)
Lemma parseRule_Ok t r :
  parseRule t = Ok r ->
  exists R, rulesDefinitions !! leadingToken t = Some R
    /\ name r = leadingToken t
    /\ checkFunc r = checkFunc R
    /\ fileExtensions r = fileExtensions R
    /\ argument r = afterFirstSpace t.
Proof.
  rewrite parseRule_unfold. unfold getRuleMustExist.
  destruct (containsSpace t) eqn:E.
  - destruct (rulesDefinitions !! leadingToken t) as [R|] eqn:HR; [|discriminate].
    cbn. intros [= <-]. exists R. cbn.
    repeat split. now destruct (catalog_entries _ _ HR).
  - destruct (Index_no_space t E) as [_ Ht]. rewrite Ht.
    destruct (rulesDefinitions !! t) as [R|] eqn:HR; [|discriminate].
    intros [= <-]. exists R. repeat split.
    + now destruct (catalog_entries _ _ HR).
    + rewrite (argument_of_catalog _ _ HR). symmetry.
      now apply afterFirstSpace_no_space.
Qed.

Lemma parseRule_Fatal t msg :
  parseRule t = Fatal msg ->
  rulesDefinitions !! leadingToken t = None
  /\ msg = "Unrecognized rule: " +:+ leadingToken t.
Proof.
  rewrite parseRule_unfold. unfold getRuleMustExist, fatal.
  destruct (containsSpace t) eqn:E.
  - destruct (rulesDefinitions !! leadingToken t) as [R|] eqn:HR.
    + cbn. discriminate.
    + cbn. now intros [= <-].
  - destruct (Index_no_space t E) as [_ Ht]. rewrite Ht.
    destruct (rulesDefinitions !! t) as [R|] eqn:HR; [discriminate|].
    now intros [= <-].
Qed.

Lemma parseRule_no_Panic t msg : parseRule t <> Panic msg.
Proof.
  rewrite parseRule_unfold. unfold getRuleMustExist, fatal.
  destruct (containsSpace t);
    [destruct (rulesDefinitions !! leadingToken t)
    |destruct (rulesDefinitions !! t)]; cbn; discriminate.
Qed.

Lemma parseConfigLines_cons line rest acc :
  parseConfigLines (line :: rest) acc
  = if effective line
    then r ← parseRule (Trim line spaceTab); parseConfigLines rest (acc ++ [r])
    else parseConfigLines rest acc.
Proof.
  cbn [parseConfigLines]. unfold effective.
  now destruct (String.eqb (Trim line spaceTab) "" || _ || _).
Qed.

(** The loop appends to the rules it starts with one rule for every line
    that counts, in the order of the lines. *)
Lemma parseConfigLines_Ok lines acc rules :
  parseConfigLines lines acc = Ok rules ->
  exists new, rules = acc ++ new
    /\ Forall2 answers (List.filter effective lines) new.
Proof.
  revert acc. induction lines as [|l lines IH]; intros acc.
  - cbn. intros [= <-]. exists []. split; [now rewrite app_nil_r | constructor].
  - rewrite parseConfigLines_cons. cbn [List.filter].
    destruct (effective l) eqn:E.
    + destruct (parseRule (Trim l spaceTab)) as [r| |] eqn:Hr; try discriminate.
      cbn [mbind result_bind]. intros H.
      destruct (IH _ H) as (new & -> & Hnew).
      exists (r :: new). split; [now rewrite <- app_assoc|].
      constructor; [|exact Hnew].
      apply parseRule_Ok in Hr as (R & H1 & H2 & H3 & H4 & H5).
      exists R. repeat split; assumption.
    + apply IH.
Qed.

(** X1.  When the config is accepted, the rule list is not empty and holds
    one rule for every line that counts, in the order of the file: the rule
    has the name the line asks for, the check and the extensions of the
    catalog entry of that name, and the rest of the line as its argument. *)
Theorem parseConfigRules_one_rule_per_line configFilePath lines rules :
  parseConfigRules configFilePath lines = Ok rules ->
  rules <> [] /\ Forall2 answers (List.filter effective lines) rules.
Proof.
  unfold parseConfigRules.
  destruct (parseConfigLines lines []) as [rs| |] eqn:E; try discriminate.
  cbn [mbind result_bind].
  destruct rs as [|r rs]; [discriminate|]. cbn. intros [= <-].
  split; [discriminate|].
  now destruct (parseConfigLines_Ok _ _ _ E) as (new & -> & H).
Qed.

Lemma parseConfigRules_one_rule_per_line_witness :
  exists rules,
    parseConfigRules "git-sanity-checker.cfg" sampleConfig = Ok rules
    /\ rules <> []
    /\ Forall2 answers (List.filter effective sampleConfig) rules
    /\ map name rules = ["NoTabs"; "BadClassName"].
Proof.
  destruct (parseConfigRules "git-sanity-checker.cfg" sampleConfig)
    as [rules| |] eqn:E; [|vm_compute in E; discriminate..].
  exists rules. split; [reflexivity|].
  destruct (parseConfigRules_one_rule_per_line _ _ _ E) as [H1 H2].
  split; [exact H1|]. split; [exact H2|].
  vm_compute in E. injection E as <-. reflexivity.
Defined.

Lemma parseRule_registered t R :
  rulesDefinitions !! leadingToken t = Some R -> exists r, parseRule t = Ok r.
Proof.
  intros HR. rewrite parseRule_unfold. unfold getRuleMustExist.
  destruct (containsSpace t) eqn:E.
  - rewrite HR. cbn. eauto.
  - destruct (Index_no_space t E) as [_ Ht]. rewrite Ht in HR. rewrite HR. eauto.
Qed.

Lemma parseRule_unregistered t :
  rulesDefinitions !! leadingToken t = None ->
  parseRule t = Fatal ("Unrecognized rule: " +:+ leadingToken t).
Proof.
  intros HR. rewrite parseRule_unfold. unfold getRuleMustExist, fatal.
  destruct (containsSpace t) eqn:E.
  - now rewrite HR.
  - destruct (Index_no_space t E) as [_ Ht]. rewrite Ht in *. now rewrite HR.
Qed.

(** How the loop ends: at the first unrecognized name, or with as many new
    rules as lines count. *)
Lemma parseConfigLines_outcome lines acc :
  match firstUnrecognized lines with
  | Some n => parseConfigLines lines acc = Fatal ("Unrecognized rule: " +:+ n)
  | None => exists new,
      parseConfigLines lines acc = Ok (acc ++ new)
      /\ length new = length (List.filter effective lines)
  end.
Proof.
  revert acc. induction lines as [|l lines IH]; intros acc.
  - cbn. exists []. now rewrite app_nil_r.
  - rewrite parseConfigLines_cons. cbn [firstUnrecognized List.filter].
    destruct (effective l); [|apply IH]. unfold requestedName.
    destruct (rulesDefinitions !! leadingToken (Trim l spaceTab)) as [R|] eqn:HR.
    + destruct (parseRule_registered _ _ HR) as [r ->]. cbn [mbind result_bind].
      specialize (IH (acc ++ [r])).
      destruct (firstUnrecognized lines); [exact IH|].
      destruct IH as (new & -> & Hlen). exists (r :: new).
      split; [now rewrite <- app_assoc | cbn; now rewrite Hlen].
    + now rewrite (parseRule_unregistered _ HR).
Qed.

(** X2.  How reading the config ends.  The first line that counts and
    names no registered rule ends it with [Unrecognized rule] and that name,
    whatever follows; a config in which no line counts ends it with
    [No rules are loaded]; every other config is accepted.  It never
    panics. *)
Theorem parseConfigRules_outcome configFilePath lines :
  match firstUnrecognized lines with
  | Some n =>
      parseConfigRules configFilePath lines
      = Fatal ("Unrecognized rule: " +:+ n)
  | None =>
      if (length (List.filter effective lines) =? 0)%nat
      then parseConfigRules configFilePath lines
           = Fatal (noRulesMsg configFilePath)
      else exists rules, parseConfigRules configFilePath lines = Ok rules
  end.
Proof.
  unfold parseConfigRules.
  pose proof (parseConfigLines_outcome lines []) as H.
  destruct (firstUnrecognized lines) as [n|].
  - now rewrite H.
  - destruct H as (new & -> & Hlen). cbn [mbind result_bind app].
    rewrite <- Hlen. destruct new; cbn; eauto.
Qed.

End Config.

(** * The classifier, byte by byte *)

Module ClassifierBytes.
Import Go GoFacts Spec Helpers Fixtures Classifier.

Lemma isControlCharacter_byte c :
  isControlCharacter (byteval c) = controlByte c.
Proof.
  unfold isControlCharacter, controlByte. pose proof (byteval_range c) as H.
  destruct (Z.eqb_spec (byteval c) 127) as [->|_]; [reflexivity|].
  rewrite orb_false_r. cbn [orb].
  destruct (Z.leb_spec 0 (byteval c)); [|lia]. cbn [andb].
  destruct (Z.leb_spec (byteval c) 31), (Z.ltb_spec (byteval c) 32);
    try lia; reflexivity.
Qed.

Lemma controlByte_high c : RuneSelf <= byteval c -> controlByte c = false.
Proof.
  unfold controlByte, RuneSelf. intros H.
  destruct (Z.ltb_spec (byteval c) 32); [lia|].
  destruct (Z.eqb_spec (byteval c) 127); [lia | reflexivity].
Qed.

Lemma isControlCharacter_high r : 128 <= r -> isControlCharacter r = false.
Proof.
  unfold isControlCharacter. intros H.
  destruct (Z.eqb_spec r 127); [lia|].
  destruct (Z.leb_spec r 31); [lia|]. now rewrite andb_false_r.
Qed.

Lemma hasControlCharactersIn_runesFrom s k :
  highPrefix k s ->
  hasControlCharactersIn (runesFrom k s) = hasControlByte s.
Proof.
  revert k. induction s as [|c s IH]; intros k Hk.
  - now destruct k.
  - destruct k as [|k].
    + destruct (runes_head c s) as (r & k' & E & Hk' & Hlo & Hhi).
      unfold runes in E. rewrite E. cbn [hasControlCharactersIn hasControlByte].
      rewrite (IH k' Hk').
      destruct (Z.lt_ge_cases (byteval c) RuneSelf) as [H|H].
      * destruct (Hlo H) as [-> _]. rewrite isControlCharacter_byte.
        now destruct (controlByte c).
      * rewrite (isControlCharacter_high r (Hhi H)), (controlByte_high c H).
        reflexivity.
    + cbn [runesFrom hasControlByte]. destruct Hk as [Hc Hk].
      rewrite (controlByte_high c Hc). now apply IH.
Qed.

(** X3.  The scan of the runes of a string for a control character finds
    one exactly when the string has a control byte: a byte below 32 other
    than tab, line feed and carriage return, or 127.  Bytes that are not
    valid UTF-8 make no difference. *)
Theorem hasControlCharacters_iff_control_byte s :
  hasControlCharacters s = hasControlByte s.
Proof.
  unfold hasControlCharacters, runes. now apply hasControlCharactersIn_runesFrom.
Qed.

Lemma length_make n : String.length (make n) = n.
Proof. induction n; simpl; congruence. Qed.

Lemma fileRead_long data (n : nat) :
  (n <= String.length data)%nat -> fileRead (make n) data = takeBytes n data.
Proof.
  intros H. unfold fileRead. rewrite length_make, Nat.min_l by exact H.
  rewrite dropBytes_make, Nat.sub_diag. apply str_app_nil_r.
Qed.

(** X4.  A file of at least 50 bytes is classified by its first 50 bytes
    alone: the prefix read is those bytes, and the file is declared binary
    exactly when one of them is a control byte. *)
Theorem long_file_classified_by_first_50_bytes w path data :
  osOpen w path = SysOk data ->
  (50 <= String.length data)%nat ->
  exists firstNChars,
    outcome (readFirstNChars w path 50) = Ok firstNChars
    /\ firstNChars = takeBytes 50 data
    /\ hasControlCharacters firstNChars = hasControlByte (takeBytes 50 data).
Proof.
  intros Hopen Hlen. unfold readFirstNChars. rewrite Hopen.
  eexists. split; [reflexivity|].
  change (Z.to_nat 50) with 50%nat. rewrite fileRead_long by exact Hlen.
  split; [reflexivity|].
  unfold hasControlCharacters, runes. now apply hasControlCharactersIn_runesFrom.
Qed.

Lemma long_file_classified_by_first_50_bytes_witness :
  exists firstNChars,
    outcome (readFirstNChars widgetWorld "/repo/Widget.cs" 50) = Ok firstNChars
    /\ firstNChars = takeBytes 50 widgetSource
    /\ hasControlCharacters firstNChars = hasControlByte (takeBytes 50 widgetSource).
Proof.
  apply (long_file_classified_by_first_50_bytes widgetWorld "/repo/Widget.cs"
           widgetSource).
  - reflexivity.
  - vm_compute. lia.
Defined.

End ClassifierBytes.

(** * The rules that look at one line at a time *)

Module LineRules.
Import Go GoFacts Spec Helpers Fixtures Newlines.

Section EachLine.

Variables (p errMsg : string) (isBad : string -> bool).

Lemma checkEachLineFrom_passes n lines :
  Forall (fun line => isBad line = false) lines ->
  checkEachLineFrom n p lines errMsg isBad = "".
Proof.
  revert n. induction lines as [|l lines IH]; intros n H; [reflexivity|].
  apply Forall_cons in H as [Hl H]. cbn [checkEachLineFrom]. rewrite Hl.
  now apply IH.
Qed.

Lemma checkEachLineFrom_first n lines (i : nat) line :
  lines !! i = Some line ->
  isBad line = true ->
  (forall (j : nat) l, (j < i)%nat -> lines !! j = Some l -> isBad l = false) ->
  checkEachLineFrom n p lines errMsg isBad
  = fileAndLineError p (n + Z.of_nat i + 1) errMsg.
Proof.
  revert n i. induction lines as [|l lines IH]; intros n i Hi Hbad Hbefore;
    [discriminate|].
  cbn [checkEachLineFrom]. destruct i as [|i].
  - injection Hi as ->. rewrite Hbad. f_equal; lia.
  - rewrite (Hbefore 0%nat l) by (lia || reflexivity).
    rewrite (IH (n + 1) i Hi Hbad).
    + f_equal; lia.
    + intros j l' Hj. apply (Hbefore (S j)). lia.
Qed.

Lemma checkEachLineFrom_bad n lines line :
  In line lines -> isBad line = true ->
  checkEachLineFrom n p lines errMsg isBad <> "".
Proof.
  revert n. induction lines as [|l lines IH]; intros n Hin Hbad; [destruct Hin|].
  cbn [checkEachLineFrom]. destruct (isBad l) eqn:E.
  - apply fileAndLineError_nonempty.
  - destruct Hin as [->|Hin]; [congruence|]. now apply IH.
Qed.

(** X5.  [checkEachLine] returns the empty string exactly when no line is
    bad, and otherwise the diagnostic, with the given message, of the first
    bad line, numbered from 1. *)
Theorem checkEachLine_reports_first_bad_line lines :
  (checkEachLine p lines errMsg isBad = ""
   <-> Forall (fun line => isBad line = false) lines)
  /\ (forall (i : nat) line,
        lines !! i = Some line ->
        isBad line = true ->
        (forall (j : nat) l, (j < i)%nat -> lines !! j = Some l ->
                             isBad l = false) ->
        checkEachLine p lines errMsg isBad
        = fileAndLineError p (Z.of_nat i + 1) errMsg).
Proof.
  unfold checkEachLine. split.
  - split; [|apply checkEachLineFrom_passes].
    intros H. apply Forall_forall. intros l Hl.
    destruct (isBad l) eqn:E; [|reflexivity]. exfalso.
    apply list_elem_of_In in Hl.
    now apply (checkEachLineFrom_bad 0 lines l Hl E).
  - intros i line Hi Hbad Hbefore.
    rewrite (checkEachLineFrom_first 0 lines i line Hi Hbad Hbefore).
    f_equal.
Qed.

End EachLine.

Lemma lineContainsTab_byte line : lineContainsTab line = hasByte "009" line.
Proof.
  unfold lineContainsTab, ContainsRune, IndexRune. cbn [andb Z.leb Z.ltb].
  apply IndexByte_hasByte.
Qed.

(** X6.  NoTabs passes exactly when no line holds a tab byte, anywhere in
    the line; otherwise it reports the first line that holds one. *)
Theorem noTabs_reports_first_line_with_tab args :
  (ruleCheckNoTabs args = Ok ""
   <-> Forall (fun line => hasByte "009" line = false) (fileAsLines args))
  /\ (forall (i : nat) line,
        fileAsLines args !! i = Some line ->
        hasByte "009" line = true ->
        (forall (j : nat) l, (j < i)%nat -> fileAsLines args !! j = Some l ->
                             hasByte "009" l = false) ->
        ruleCheckNoTabs args
        = Ok (fileAndLineError (filePath args) (Z.of_nat i + 1)
                "Tabs not allowed")).
Proof.
  unfold ruleCheckNoTabs, checkEachLine. split.
  - split.
    + intros [= H]. apply Forall_forall. intros l Hl.
      destruct (hasByte "009" l) eqn:E; [|reflexivity]. exfalso.
      apply list_elem_of_In in Hl. rewrite <- lineContainsTab_byte in E.
      now apply (checkEachLineFrom_bad (filePath args) "Tabs not allowed"
                   lineContainsTab 0 _ l Hl E).
    + intros H. f_equal. apply checkEachLineFrom_passes.
      eapply Forall_impl; [exact H|]. intros l Hl.
      now rewrite lineContainsTab_byte.
  - intros i line Hi Hbad Hbefore. f_equal.
    rewrite (checkEachLineFrom_first _ _ lineContainsTab 0 _ i line Hi).
    + f_equal.
    + now rewrite lineContainsTab_byte.
    + intros j l Hj Hl. rewrite lineContainsTab_byte. now apply (Hbefore j).
Qed.

Lemma noTabs_reports_first_line_with_tab_witness :
  ruleCheckNoTabs tabsOnLines23
  = Ok (fileAndLineError "f.txt" 2 "Tabs not allowed").
Proof.
  apply (proj2 (noTabs_reports_first_line_with_tab tabsOnLines23)
           1%nat ("b" +:+ TAB)); [reflexivity | reflexivity |].
  intros [|j] l Hj H; [|lia]. vm_compute in H. injection H as <-. reflexivity.
Defined.

Lemma lineHasLeadingSpacesLoop_true rs : lineHasLeadingSpacesLoop true rs = true.
Proof.
  induction rs as [|r rs IH]; [reflexivity|]. cbn.
  now destruct (r =? 32).
Qed.

(** A line has leading spaces, for the rule, when its first byte is a
    space: what follows a leading tab is not looked at. *)
Lemma lineHasLeadingSpaces_startsWithSpace line :
  lineHasLeadingSpaces line = startsWithSpace line.
Proof.
  unfold lineHasLeadingSpaces. destruct line as [|c s]; [reflexivity|].
  change (String.eqb (String c s) "") with false. cbn [startsWithSpace].
  destruct (Ascii.eqb_spec c " ") as [->|Hc].
  - rewrite runes_ascii by (vm_compute; reflexivity).
    change (byteval " ") with 32. cbn [lineHasLeadingSpacesLoop Z.eqb Pos.eqb].
    apply lineHasLeadingSpacesLoop_true.
  - destruct (runes_head c s) as (r & k & -> & _ & Hlo & Hhi).
    cbn [lineHasLeadingSpacesLoop].
    destruct (Z.eqb_spec r 32) as [->|_]; [exfalso | reflexivity].
    destruct (Z.lt_ge_cases (byteval c) RuneSelf) as [H|H].
    + destruct (Hlo H) as [E _]. apply Hc, byteval_inj. now rewrite <- E.
    + specialize (Hhi H). lia.
Qed.

(** X7.  NoLeadingSpaces passes exactly when no line starts with a space,
    and otherwise reports the first line that does.  Spaces behind a
    leading tab are let through. *)
Theorem noLeadingSpaces_reports_first_line_starting_with_space args :
  (ruleCheckNoLeadingSpaces args = Ok ""
   <-> Forall (fun line => startsWithSpace line = false) (fileAsLines args))
  /\ (forall (i : nat) line,
        fileAsLines args !! i = Some line ->
        startsWithSpace line = true ->
        (forall (j : nat) l, (j < i)%nat -> fileAsLines args !! j = Some l ->
                             startsWithSpace l = false) ->
        ruleCheckNoLeadingSpaces args
        = Ok (fileAndLineError (filePath args) (Z.of_nat i + 1)
                "Leading spaces not allowed")).
Proof.
  unfold ruleCheckNoLeadingSpaces, checkEachLine. split.
  - split.
    + intros [= H]. apply Forall_forall. intros l Hl.
      destruct (startsWithSpace l) eqn:E; [|reflexivity]. exfalso.
      apply list_elem_of_In in Hl.
      rewrite <- lineHasLeadingSpaces_startsWithSpace in E.
      now apply (checkEachLineFrom_bad (filePath args)
                   "Leading spaces not allowed" lineHasLeadingSpaces 0 _ l Hl E).
    + intros H. f_equal. apply checkEachLineFrom_passes.
      eapply Forall_impl; [exact H|]. intros l Hl.
      now rewrite lineHasLeadingSpaces_startsWithSpace.
  - intros i line Hi Hbad Hbefore. f_equal.
    rewrite (checkEachLineFrom_first _ _ lineHasLeadingSpaces 0 _ i line Hi).
    + f_equal.
    + now rewrite lineHasLeadingSpaces_startsWithSpace.
    + intros j l Hj Hl. rewrite lineHasLeadingSpaces_startsWithSpace.
      now apply (Hbefore j).
Qed.

Lemma noLeadingSpaces_reports_first_line_starting_with_space_witness :
  ruleCheckNoLeadingSpaces tabSpaceThenSpaceTab
  = Ok (fileAndLineError "f.txt" 2 "Leading spaces not allowed").
Proof.
  apply (proj2 (noLeadingSpaces_reports_first_line_starting_with_space
                  tabSpaceThenSpaceTab)
           1%nat (" " +:+ TAB +:+ "b")); [reflexivity | reflexivity |].
  intros [|j] l Hj H; [|lia]. vm_compute in H. injection H as <-. reflexivity.
Defined.

Section PublicClasses.

Variable p : string.

Lemma noMultiplePublicClassesFrom_cons n count line rest :
  noMultiplePublicClassesFrom p n count (line :: rest)
  = if publicClassLine line
    then if 1 <? count + 1
         then fileAndLineError p (n + 1)
                "Cannot have multiple public classes per file"
         else noMultiplePublicClassesFrom p (n + 1) (count + 1) rest
    else noMultiplePublicClassesFrom p (n + 1) count rest.
Proof. reflexivity. Qed.

Lemma noMultiplePublicClassesFrom_passes lines n count :
  0 <= count ->
  count + Z.of_nat (length (List.filter publicClassLine lines)) <= 1 ->
  noMultiplePublicClassesFrom p n count lines = "".
Proof.
  revert n count. induction lines as [|l lines IH]; intros n count H0 H;
    [reflexivity|].
  rewrite noMultiplePublicClassesFrom_cons. cbn [List.filter] in H.
  destruct (publicClassLine l).
  - cbn [length] in H. destruct (Z.ltb_spec 1 (count + 1)); [lia|].
    apply IH; lia.
  - now apply IH.
Qed.

Lemma noMultiplePublicClassesFrom_fails lines n count :
  0 <= count <= 1 ->
  2 <= count + Z.of_nat (length (List.filter publicClassLine lines)) ->
  noMultiplePublicClassesFrom p n count lines <> "".
Proof.
  revert n count. induction lines as [|l lines IH]; intros n count H0 H;
    [cbn in H; lia|].
  rewrite noMultiplePublicClassesFrom_cons. cbn [List.filter] in H.
  destruct (publicClassLine l).
  - cbn [length] in H. destruct (Z.ltb_spec 1 (count + 1)).
    + apply fileAndLineError_nonempty.
    + apply IH; lia.
  - now apply IH.
Qed.

Lemma noMultiplePublicClassesFrom_second lines n count (j : nat) lj :
  0 <= count ->
  lines !! j = Some lj ->
  publicClassLine lj = true ->
  count + Z.of_nat (length (List.filter publicClassLine (take j lines))) = 1 ->
  noMultiplePublicClassesFrom p n count lines
  = fileAndLineError p (n + Z.of_nat j + 1)
      "Cannot have multiple public classes per file".
Proof.
  revert n count j. induction lines as [|l lines IH];
    intros n count j H0 Hj Hpub H; [discriminate|].
  rewrite noMultiplePublicClassesFrom_cons. destruct j as [|j].
  - injection Hj as ->. rewrite Hpub. cbn in H.
    destruct (Z.ltb_spec 1 (count + 1)); [|lia]. f_equal; lia.
  - cbn [take List.filter] in H. cbn in Hj.
    destruct (publicClassLine l).
    + cbn [length] in H. destruct (Z.ltb_spec 1 (count + 1)); [lia|].
      rewrite (IH (n + 1) (count + 1) j); [f_equal; lia | lia | exact Hj
                                           | exact Hpub | lia].
    + rewrite (IH (n + 1) count j H0 Hj Hpub H). f_equal; lia.
Qed.

End PublicClasses.

(** X8.  NoMultiplePublicClasses passes exactly when at most one line,
    trimmed, begins with [public class ]; otherwise it reports the second
    such line of the file. *)
Theorem noMultiplePublicClasses_reports_second args :
  (ruleCheckNoMultiplePublicClasses args = Ok ""
   <-> (length (List.filter publicClassLine (fileAsLines args)) <= 1)%nat)
  /\ (forall (j : nat) lj,
        fileAsLines args !! j = Some lj ->
        publicClassLine lj = true ->
        length (List.filter publicClassLine (take j (fileAsLines args))) = 1%nat ->
        ruleCheckNoMultiplePublicClasses args
        = Ok (fileAndLineError (filePath args) (Z.of_nat j + 1)
                "Cannot have multiple public classes per file")).
Proof.
  unfold ruleCheckNoMultiplePublicClasses. split.
  - split.
    + intros [= H].
      destruct (le_lt_dec
                  (length (List.filter publicClassLine (fileAsLines args))) 1)
        as [Hle|Hgt]; [exact Hle|]. exfalso.
      apply (noMultiplePublicClassesFrom_fails (filePath args)
               (fileAsLines args) 0 0); [lia | lia | exact H].
    + intros H. f_equal. apply noMultiplePublicClassesFrom_passes; lia.
  - intros j lj Hj Hpub H. f_equal.
    rewrite (noMultiplePublicClassesFrom_second _ _ 0 0 j lj); try assumption.
    + f_equal.
    + lia.
    + lia.
Qed.

Lemma noMultiplePublicClasses_reports_second_witness :
  ruleCheckNoMultiplePublicClasses threePublicClasses
  = Ok (fileAndLineError "f.cs" 3 "Cannot have multiple public classes per file").
Proof.
  apply (proj2 (noMultiplePublicClasses_reports_second threePublicClasses)
           2%nat "  public class C"); reflexivity.
Defined.

End LineRules.

(** * The rules for one newline convention *)

Module NewlineRules.
Import Go GoFacts Spec Helpers Fixtures Newlines.

Lemma withoutCRLF_unchanged text : hasCRLF text = false -> withoutCRLF text = text.
Proof.
  induction text as [|c rest IH]; [reflexivity|].
  cbn [hasCRLF withoutCRLF]. intros H. apply orb_false_iff in H as [H1 H2].
  destruct rest as [|d rest']; [reflexivity|].
  rewrite H1. now rewrite IH.
Qed.

Lemma hasCRLF_has_both text :
  hasCRLF text = true -> hasByte "013" text = true /\ hasByte "010" text = true.
Proof.
  induction text as [|c rest IH]; [discriminate|].
  cbn [hasCRLF hasByte]. intros H. apply orb_true_iff in H as [H|H].
  - apply andb_true_iff in H as [H1 H2]. rewrite H1.
    destruct rest as [|d rest']; [discriminate|]. cbn [hasByte]. rewrite H2.
    split; [reflexivity | apply orb_true_r].
  - destruct (IH H) as [-> ->]. now rewrite !orb_true_r.
Qed.

(** No carriage return at all: no CRLF pair and no bare CR; and the same
    for the line feed. *)
Lemma no_CR_byte text :
  hasByte "013" text = false <-> hasCRLF text = false /\ hasBareCR text = false.
Proof.
  unfold hasBareCR. split.
  - intros H. assert (hasCRLF text = false) as E.
    { destruct (hasCRLF text) eqn:E; [|reflexivity].
      apply hasCRLF_has_both in E as [E _]. congruence. }
    split; [exact E|]. now rewrite withoutCRLF_unchanged.
  - intros [E H]. now rewrite withoutCRLF_unchanged in H.
Qed.

Lemma no_LF_byte text :
  hasByte "010" text = false <-> hasCRLF text = false /\ hasBareLF text = false.
Proof.
  unfold hasBareLF. split.
  - intros H. assert (hasCRLF text = false) as E.
    { destruct (hasCRLF text) eqn:E; [|reflexivity].
      apply hasCRLF_has_both in E as [_ E]. congruence. }
    split; [exact E|]. now rewrite withoutCRLF_unchanged.
  - intros [E H]. now rewrite withoutCRLF_unchanged in H.
Qed.

Lemma fileError_not_empty p err : Ok (fileError p err) <> Ok "".
Proof. intros [= H]. now apply fileError_nonempty in H. Qed.

(** X9.  WindowsNewlines passes exactly when, the CRLF pairs taken away,
    no line feed and no carriage return is left; a bare line feed is
    reported before a bare carriage return. *)
Theorem windowsNewlines_passes_iff_only_CRLF args :
  let text := fileAsString args in
  (ruleCheckWindowsNewlines args = Ok ""
   <-> hasBareLF text = false /\ hasBareCR text = false)
  /\ (hasBareLF text = true ->
      ruleCheckWindowsNewlines args
      = Ok (fileError (filePath args)
              "File contains non-Windows (Linux) newlines"))
  /\ (hasBareLF text = false -> hasBareCR text = true ->
      ruleCheckWindowsNewlines args
      = Ok (fileError (filePath args)
              "File contains non-Windows (Old Mac) newlines")).
Proof.
  intros text. unfold ruleCheckWindowsNewlines, hasBareLF, hasBareCR.
  rewrite Replace_CRLF, ContainsRune_LF, ContainsRune_CR. fold text.
  generalize (hasByte "010" (withoutCRLF text)) (hasByte "013" (withoutCRLF text)).
  intros bl bc. split; [|split].
  - destruct bl, bc; split; intros H; try (now split);
      first [ exfalso; exact (fileError_not_empty _ _ H)
            | destruct H; discriminate ].
  - now intros ->.
  - now intros -> ->.
Qed.

Lemma windowsNewlines_passes_iff_only_CRLF_witness :
  hasBareLF (fileAsString crlfAndLF) = true
  /\ ruleCheckWindowsNewlines crlfAndLF
     = Ok (fileError "f.txt" "File contains non-Windows (Linux) newlines").
Proof.
  split; [reflexivity|].
  apply (proj1 (proj2 (windowsNewlines_passes_iff_only_CRLF crlfAndLF))).
  reflexivity.
Defined.

(** X10.  LinuxNewlines passes exactly when the text holds no carriage
    return byte at all; a CRLF pair is reported before a bare carriage
    return. *)
Theorem linuxNewlines_passes_iff_no_CR args :
  let text := fileAsString args in
  (ruleCheckLinuxNewlines args = Ok "" <-> hasByte "013" text = false)
  /\ (hasCRLF text = true ->
      ruleCheckLinuxNewlines args
      = Ok (fileError (filePath args)
              "File contains non-Linux (Windows) newlines"))
  /\ (hasCRLF text = false -> hasByte "013" text = true ->
      ruleCheckLinuxNewlines args
      = Ok (fileError (filePath args)
              "File contains non-Linux (Old Mac) newlines")).
Proof.
  intros text. unfold ruleCheckLinuxNewlines.
  rewrite Contains_CRLF, Replace_CRLF, ContainsRune_CR. fold text.
  rewrite (no_CR_byte text). unfold hasBareCR.
  destruct (hasCRLF text) eqn:E.
  - split; [|split].
    + split; intros H; [exfalso; exact (fileError_not_empty _ _ H)
                       | destruct H; discriminate].
    + reflexivity.
    + discriminate.
  - rewrite (withoutCRLF_unchanged text E).
    generalize (hasByte "013" text). intros bc. split; [|split].
    + destruct bc; split; intros H; try (now split);
        first [ exfalso; exact (fileError_not_empty _ _ H)
              | destruct H; discriminate ].
    + discriminate.
    + now intros _ ->.
Qed.

Lemma linuxNewlines_passes_iff_no_CR_witness :
  hasCRLF (fileAsString crlfAndLF) = true
  /\ ruleCheckLinuxNewlines crlfAndLF
     = Ok (fileError "f.txt" "File contains non-Linux (Windows) newlines").
Proof.
  split; [reflexivity|].
  apply (proj1 (proj2 (linuxNewlines_passes_iff_no_CR crlfAndLF))).
  reflexivity.
Defined.

(** X11.  OldMacNewlines passes exactly when the text holds no line feed
    byte at all; a CRLF pair is reported before a bare line feed. *)
Theorem oldMacNewlines_passes_iff_no_LF args :
  let text := fileAsString args in
  (ruleCheckOldMacNewlines args = Ok "" <-> hasByte "010" text = false)
  /\ (hasCRLF text = true ->
      ruleCheckOldMacNewlines args
      = Ok (fileError (filePath args)
              "File contains non-Old Mac (Windows) newlines"))
  /\ (hasCRLF text = false -> hasByte "010" text = true ->
      ruleCheckOldMacNewlines args
      = Ok (fileError (filePath args)
              "File contains non-Old Mac (Linux) newlines")).
Proof.
  intros text. unfold ruleCheckOldMacNewlines.
  rewrite Contains_CRLF, Replace_CRLF, ContainsRune_LF. fold text.
  rewrite (no_LF_byte text). unfold hasBareLF.
  destruct (hasCRLF text) eqn:E.
  - split; [|split].
    + split; intros H; [exfalso; exact (fileError_not_empty _ _ H)
                       | destruct H; discriminate].
    + reflexivity.
    + discriminate.
  - rewrite (withoutCRLF_unchanged text E).
    generalize (hasByte "010" text). intros bl. split; [|split].
    + destruct bl; split; intros H; try (now split);
        first [ exfalso; exact (fileError_not_empty _ _ H)
              | destruct H; discriminate ].
    + discriminate.
    + now intros _ ->.
Qed.

Lemma oldMacNewlines_passes_iff_no_LF_witness :
  hasCRLF (fileAsString lfOnly) = false
  /\ hasByte "010" (fileAsString lfOnly) = true
  /\ ruleCheckOldMacNewlines lfOnly
     = Ok (fileError "f.txt" "File contains non-Old Mac (Linux) newlines").
Proof.
  split; [reflexivity|]. split; [reflexivity|].
  apply (proj2 (proj2 (oldMacNewlines_passes_iff_no_LF lfOnly))); reflexivity.
Defined.

(** X12.  ConsistentNewlines passes exactly when at least one of
    WindowsNewlines, LinuxNewlines and OldMacNewlines passes. *)
Theorem consistentNewlines_iff_one_convention_passes args :
  ruleCheckConsistentNewlines args = Ok ""
  <-> (ruleCheckWindowsNewlines args = Ok ""
       \/ ruleCheckLinuxNewlines args = Ok ""
       \/ ruleCheckOldMacNewlines args = Ok "").
Proof.
  unfold ruleCheckConsistentNewlines, ruleCheckWindowsNewlines,
    ruleCheckLinuxNewlines, ruleCheckOldMacNewlines.
  rewrite Contains_CRLF, Replace_CRLF, ContainsRune_LF, ContainsRune_CR.
  generalize (hasCRLF (fileAsString args))
    (hasByte "010" (withoutCRLF (fileAsString args)))
    (hasByte "013" (withoutCRLF (fileAsString args))).
  intros a b c. cbv zeta.
  assert (forall err, Ok (fileError (filePath args) err) = Ok "" <-> False)
    as Hne.
  { intros err. split; [apply fileError_not_empty | tauto]. }
  destruct a, b, c; cbv iota;
    match goal with
    | |- context [1 <? ?e] =>
        let v := eval vm_compute in (1 <? e) in change (1 <? e) with v
    end; cbv iota; rewrite ?Hne; intuition.
Qed.

End NewlineRules.

(** * NeedSpaceAfterKeyword *)

Module Keywords.
Import Go GoFacts Spec Helpers Fixtures.

Lemma str_app_empty (a b : string) : a +:+ b = "" <-> a = "" /\ b = "".
Proof.
  split; [|now intros [-> ->]].
  destruct a; [now split | rewrite str_app_cons; discriminate].
Qed.

(** No line begins with two of the keywords before a parenthesis. *)
Lemma keyword_exclusive t k1 k2 :
  In k1 csharpKeywordsWithSpacedParens ->
  In k2 csharpKeywordsWithSpacedParens ->
  HasPrefix t (k1 +:+ "(") = true ->
  HasPrefix t (k2 +:+ "(") = true ->
  k1 = k2.
Proof.
  intros H1 H2 [r1 E1]%HasPrefix_spec [r2 E2]%HasPrefix_spec. subst t.
  cbn in H1, H2.
  repeat (destruct H1 as [<-|H1]; [|]); try (destruct H1);
    repeat (destruct H2 as [<-|H2]; [|]); try (destruct H2);
    try reflexivity; exfalso; vm_compute in E2; discriminate.
Qed.

Section OneLine.

Variables (p : string) (n : Z) (t : string).

Lemma needSpaceKeywords_no_match kws buf :
  Forall (fun k => HasPrefix t (k +:+ "(") = false) kws ->
  needSpaceKeywords p n t kws buf = buf.
Proof.
  revert buf. induction kws as [|k kws IH]; intros buf H; [reflexivity|].
  apply Forall_cons in H as [Hk H]. cbn [needSpaceKeywords]. rewrite Hk.
  now apply IH.
Qed.

Lemma needSpaceKeywords_find kws buf :
  NoDup kws ->
  (forall k, In k kws -> In k csharpKeywordsWithSpacedParens) ->
  needSpaceKeywords p n t kws buf
  = buf +:+ match List.find (fun k => HasPrefix t (k +:+ "(")) kws with
            | Some k => needSpaceMsg p (n + 1) k
            | None => ""
            end.
Proof.
  revert buf. induction kws as [|k kws IH]; intros buf Hnd Hin.
  - cbn. now rewrite str_app_nil_r.
  - apply NoDup_cons in Hnd as [Hk Hnd]. cbn [needSpaceKeywords List.find].
    destruct (HasPrefix t (k +:+ "(")) eqn:E.
    + apply needSpaceKeywords_no_match. apply Forall_forall. intros k' Hk'.
      destruct (HasPrefix t (k' +:+ "(")) eqn:E'; [|reflexivity]. exfalso.
      apply Hk. apply list_elem_of_In in Hk'.
      assert (k = k') as ->; [|now apply list_elem_of_In].
      apply (keyword_exclusive t); [| |exact E|exact E'].
      * apply Hin. now left.
      * apply Hin. now right.
    + apply IH; [exact Hnd|]. intros k' Hk'. apply Hin. now right.
Qed.

End OneLine.

Lemma keywords_NoDup : NoDup csharpKeywordsWithSpacedParens.
Proof.
  unfold csharpKeywordsWithSpacedParens.
  repeat (apply NoDup_cons; split;
          [intros H; repeat (apply elem_of_cons in H as [H|H];
                             [discriminate|]); now apply elem_of_nil in H|]).
  apply NoDup_nil. exact I.
Qed.

Lemma needSpaceFrom_report p lines n buf :
  needSpaceFrom p n lines buf = buf +:+ needSpaceReport p n lines.
Proof.
  revert n buf. induction lines as [|l lines IH]; intros n buf.
  - cbn. now rewrite str_app_nil_r.
  - cbn [needSpaceFrom needSpaceReport]. rewrite IH.
    rewrite needSpaceKeywords_find; [|apply keywords_NoDup | auto].
    unfold keywordBeforeParen. now rewrite str_app_assoc.
Qed.

Lemma needSpaceReport_empty p lines n :
  needSpaceReport p n lines = ""
  <-> Forall (fun line => keywordBeforeParen line = None) lines.
Proof.
  revert n. induction lines as [|l lines IH]; intros n.
  - split; [constructor | reflexivity].
  - cbn [needSpaceReport]. rewrite str_app_empty, IH, Forall_cons.
    destruct (keywordBeforeParen l) as [k|].
    + split; intros [H _]; [now apply fileAndLineError_nonempty in H
                           | discriminate].
    + tauto.
Qed.

(** X13.  NeedSpaceAfterKeyword returns one message for every line that,
    trimmed, begins with one of the eight keywords directly before an open
    parenthesis, in the order of the lines and each ended by a line feed; no
    line gets two.  It passes exactly when there is no such line. *)
Theorem needSpaceAfterKeyword_one_message_per_line args :
  ruleCheckNeedSpaceAfterKeyword args
  = Ok (needSpaceReport (filePath args) 0 (fileAsLines args))
  /\ (ruleCheckNeedSpaceAfterKeyword args = Ok ""
      <-> Forall (fun line => keywordBeforeParen line = None)
            (fileAsLines args)).
Proof.
  unfold ruleCheckNeedSpaceAfterKeyword. rewrite needSpaceFrom_report.
  rewrite str_app_nil_l. split; [reflexivity|].
  rewrite <- (needSpaceReport_empty (filePath args) _ 0).
  split; [now intros [= ->] | now intros ->].
Qed.

Example needSpaceAfterKeyword_sample :
  ruleCheckNeedSpaceAfterKeyword keywordLines
  = Ok ("f.cs:2: Need space between keyword foreach and open paren" +:+ LF
        +:+ "f.cs:3: Need space between keyword for and open paren" +:+ LF).
Proof. reflexivity. Qed.

End Keywords.

(** * Paths, namespaces and class names *)

Module Paths.
Import Go GoFacts Spec Helpers Fixtures Newlines.

Lemma Replace_byte s a b :
  a <> b -> Replace s (String a "") (String b "") (-1) = replaceByte a b s.
Proof.
  intros Hab. unfold Replace.
  assert (String.eqb (String a "") (String b "") = false) as ->.
  { apply String.eqb_neq. congruence. }
  cbn [orb Z.eqb String.eqb].
  assert (forall n, n < 0 ->
            replaceFrom 0 n s (String a "") (String b "") = replaceByte a b s)
    as H; [|apply H; lia].
  induction s as [|c s IH]; intros n Hn; [reflexivity|].
  cbn [replaceFrom replaceByte]. rewrite HasPrefix_char.
  destruct (Z.eqb_spec n 0); [lia|]. cbn [negb andb String.length Nat.pred].
  destruct (Ascii.eqb c a).
  - rewrite str_app_cons, str_app_nil_l. f_equal. apply IH. lia.
  - f_equal. now apply IH.
Qed.

Lemma hasByte_replaceByte_gone a b s : a <> b -> hasByte a (replaceByte a b s) = false.
Proof.
  intros Hab. induction s as [|c s IH]; [reflexivity|].
  cbn [replaceByte hasByte]. rewrite IH, orb_false_r.
  destruct (Ascii.eqb_spec c a) as [->|Hc]; apply Ascii.eqb_neq; congruence.
Qed.

Lemma hasByte_replaceByte_other a b x s :
  x <> a -> x <> b -> hasByte x (replaceByte a b s) = hasByte x s.
Proof.
  intros Ha Hb. induction s as [|c s IH]; [reflexivity|].
  cbn [replaceByte hasByte]. rewrite IH. f_equal.
  destruct (Ascii.eqb_spec c a) as [->|Hc]; [|reflexivity].
  rewrite (proj2 (Ascii.eqb_neq b x)) by congruence.
  now rewrite (proj2 (Ascii.eqb_neq a x)) by congruence.
Qed.

Lemma hasByte_replaceByte_target a b s :
  hasByte b (replaceByte a b s) = hasByte a s || hasByte b s.
Proof.
  induction s as [|c s IH]; [reflexivity|].
  cbn [replaceByte hasByte]. rewrite IH.
  destruct (Ascii.eqb_spec c a) as [->|Hc].
  - rewrite Ascii.eqb_refl. reflexivity.
  - destruct (Ascii.eqb c b), (hasByte a s), (hasByte b s); reflexivity.
Qed.

Lemma length_beforeLastByte b s :
  (String.length (beforeLastByte b s) <= String.length s)%nat.
Proof.
  induction s as [|c s IH]; cbn; [lia|]. destruct (hasByte b s); cbn; lia.
Qed.

(** [LastIndex] of a single byte: -1 when the byte is missing, and
    otherwise the length of what comes before its last instance. *)
Lemma LastIndex_byte s b :
  LastIndex s (String b "")
  = if hasByte b s then Z.of_nat (String.length (beforeLastByte b s)) else -1.
Proof.
  induction s as [|c s IH].
  - cbn [LastIndex hasByte]. now rewrite HasPrefix_empty.
  - cbn [LastIndex hasByte beforeLastByte]. rewrite IH, HasPrefix_char.
    destruct (hasByte b s).
    + rewrite orb_true_r.
      destruct (Z.leb_spec 0 (Z.of_nat (String.length (beforeLastByte b s))));
        [|lia].
      cbn [String.length]. lia.
    + rewrite orb_false_r. cbn [Z.leb Z.compare].
      now destruct (Ascii.eqb c b).
Qed.

Lemma takeBytes_beforeLastByte s b :
  takeBytes (String.length (beforeLastByte b s)) s = beforeLastByte b s.
Proof.
  induction s as [|c s IH]; [reflexivity|]. cbn [beforeLastByte].
  destruct (hasByte b s); [|reflexivity]. cbn. now rewrite IH.
Qed.

Lemma IndexByte_lt s b : IndexByte s b < len s.
Proof.
  induction s as [|c s IH]; [cbn; unfold len; cbn; lia|].
  cbn [IndexByte]. rewrite len_String. pose proof (len_nonneg s).
  destruct (Ascii.eqb c b); [lia|].
  destruct (Z.ltb_spec (IndexByte s b) 0); lia.
Qed.

(** Cutting behind the first instance of a byte. *)
Lemma sliceFrom_IndexByte s b :
  0 <= IndexByte s b ->
  sliceFrom s (IndexByte s b + 1) = Ok (afterByte b s).
Proof.
  induction s as [|c s IH]; [cbn; lia|].
  cbn [IndexByte afterByte]. destruct (Ascii.eqb c b).
  - intros _. apply (sliceFrom_ok (String c s) 1%nat). cbn. lia.
  - rewrite <- IndexByte_hasByte.
    destruct (Z.ltb_spec (IndexByte s b) 0) as [Hlt|Hge]; [lia|]. intros _.
    rewrite (proj2 (Z.leb_le 0 (IndexByte s b)) Hge).
    specialize (IH Hge). pose proof (IndexByte_lt s b) as Hlt.
    pose proof (len_String c s) as HL. unfold sliceFrom in *.
    rewrite slice_ok in IH by lia. rewrite slice_ok by lia.
    injection IH as IH. f_equal. rewrite <- IH, HL.
    replace (len s + 1 - (IndexByte s b + 1 + 1))
      with (len s - (IndexByte s b + 1)) by lia.
    replace (Z.to_nat (IndexByte s b + 1 + 1))
      with (S (Z.to_nat (IndexByte s b + 1))) by lia.
    reflexivity.
Qed.

Lemma afterByte_none s b : hasByte b s = false -> afterByte b s = s.
Proof.
  destruct s as [|c s]; [reflexivity|]. cbn [hasByte afterByte].
  intros H. apply orb_false_iff in H as [-> ->]. reflexivity.
Qed.

Lemma hasByte_beforeLastByte x b s :
  hasByte x s = false -> hasByte x (beforeLastByte b s) = false.
Proof.
  induction s as [|c s IH]; [reflexivity|].
  cbn [beforeLastByte hasByte]. intros H.
  apply orb_false_iff in H as [H1 H2].
  destruct (hasByte b s); [|reflexivity]. cbn [hasByte]. now rewrite H1, IH.
Qed.

Lemma hasByte_afterByte x b s :
  hasByte x s = false -> hasByte x (afterByte b s) = false.
Proof.
  induction s as [|c s IH]; [reflexivity|].
  cbn [afterByte hasByte]. intros H. apply orb_false_iff in H as [H1 H2].
  destruct (Ascii.eqb c b); [exact H2|].
  destruct (hasByte b s); [now apply IH|]. cbn [hasByte]. now rewrite H1, H2.
Qed.

Lemma hasByte_withoutLeadingSlash x s :
  hasByte x s = false -> hasByte x (withoutLeadingSlash s) = false.
Proof.
  destruct s as [|c s]; [reflexivity|]. cbn [withoutLeadingSlash hasByte].
  intros H. apply orb_false_iff in H as [H1 H2].
  destruct (Ascii.eqb c "/"); [exact H2|]. cbn [hasByte]. now rewrite H1, H2.
Qed.

(** Nothing is replaced in a text that has no instance of the byte. *)
Lemma Replace_absent s a b :
  hasByte a s = false -> Replace s (String a "") b (-1) = s.
Proof.
  intros Hs. unfold Replace.
  destruct (String.eqb (String a "") b); [reflexivity|].
  cbn [Z.eqb String.eqb orb].
  assert (forall n, n < 0 -> replaceFrom 0 n s (String a "") b = s) as H;
    [|apply H; lia].
  induction s as [|c s IH]; intros n Hn; [reflexivity|].
  cbn [hasByte] in Hs. apply orb_false_iff in Hs as [H1 H2].
  cbn [replaceFrom]. rewrite HasPrefix_char, H1, andb_false_r.
  f_equal. now apply IH.
Qed.

Lemma backslash_gone path :
  hasByte "\" (derivedNameSpace path) = false.
Proof.
  unfold derivedNameSpace.
  rewrite hasByte_replaceByte_other by discriminate.
  apply hasByte_withoutLeadingSlash, hasByte_afterByte,
    hasByte_beforeLastByte, hasByte_replaceByte_gone. discriminate.
Qed.

Lemma getFilePathAsNameSpace_no_separator path :
  hasSeparator path = false ->
  getFilePathAsNameSpace path = Panic "slice bounds out of range".
Proof.
  unfold getFilePathAsNameSpace, hasSeparator. intros H.
  rewrite (Replace_byte path "\" "/") by discriminate.
  rewrite LastIndex_byte, hasByte_replaceByte_target, orb_comm, H.
  reflexivity.
Qed.

Lemma getFilePathAsNameSpace_separator path :
  hasSeparator path = true ->
  getFilePathAsNameSpace path = Ok (derivedNameSpace path).
Proof.
  intros H. pose proof (backslash_gone path) as Hgone. revert Hgone.
  unfold getFilePathAsNameSpace, hasSeparator, derivedNameSpace in *.
  rewrite (Replace_byte path "\" "/") by discriminate.
  rewrite LastIndex_byte, hasByte_replaceByte_target, orb_comm, H.
  set (q := replaceByte "\" "/" path).
  rewrite slice_prefix_ok by apply length_beforeLastByte.
  rewrite takeBytes_beforeLastByte. cbn [mbind result_bind].
  set (dir := beforeLastByte "/" q).
  assert ((if 0 <=? IndexRune dir 58
           then sliceFrom dir (IndexRune dir 58 + 1) else Ok dir)
          = Ok (afterByte ":" dir)) as ->.
  { unfold IndexRune. cbn [andb Z.leb Z.ltb Z.compare Pos.compare
                            Pos.compare_cont RuneSelf].
    change (ascii_of_N (Z.to_N 58)) with ":"%char.
    destruct (Z.leb_spec 0 (IndexByte dir ":")) as [H0|H0].
    - now apply sliceFrom_IndexByte.
    - rewrite afterByte_none; [reflexivity|].
      rewrite <- IndexByte_hasByte. apply Z.leb_gt. lia. }
  cbn [mbind result_bind]. set (d := afterByte ":" dir).
  assert ((if HasPrefix d "/" then sliceFrom d 1 else Ok d)
          = Ok (withoutLeadingSlash d)) as ->.
  { destruct d as [|c d']; [now rewrite HasPrefix_empty|].
    rewrite HasPrefix_char. cbn [withoutLeadingSlash].
    destruct (Ascii.eqb c "/"); [|reflexivity].
    apply (sliceFrom_ok (String c d') 1%nat). cbn. lia. }
  cbn [mbind result_bind]. rewrite (Replace_byte _ "/" ".") by discriminate.
  intros Hgone. now rewrite Replace_absent.
Qed.

(** X14.  The namespace derived from a path: a path with no separator, of
    either kind, makes the derivation panic; every other path gives its
    directory part without the drive and the leading separator, with dots
    for separators, and no separator is left in it. *)
Theorem getFilePathAsNameSpace_of_path path :
  (if hasSeparator path
   then getFilePathAsNameSpace path = Ok (derivedNameSpace path)
   else getFilePathAsNameSpace path = Panic "slice bounds out of range")
  /\ hasSeparator (derivedNameSpace path) = false.
Proof.
  split.
  - destruct (hasSeparator path) eqn:E.
    + now apply getFilePathAsNameSpace_separator.
    + now apply getFilePathAsNameSpace_no_separator.
  - unfold hasSeparator. rewrite backslash_gone, orb_false_r.
    unfold derivedNameSpace. apply hasByte_replaceByte_gone. discriminate.
Qed.

Example getFilePathAsNameSpace_windows :
  getFilePathAsNameSpace windowsPath = Ok "src.Acme".
Proof. reflexivity. Qed.

(** ** BadNameSpace on a path without a directory *)

Lemma badNameSpaceFrom_no_separator p n lines :
  hasSeparator p = false ->
  badNameSpaceFrom p n "" lines
  = if declaresNameSpace lines
    then Panic "slice bounds out of range" else Ok "".
Proof.
  intros Hp. revert n. induction lines as [|l lines IH]; intros n;
    [reflexivity|].
  cbn [badNameSpaceFrom declaresNameSpace existsb].
  unfold namespaceDeclaration.
  destruct (HasPrefix (Trim l spaceTab) "namespace ") eqn:E; cbn [negb orb].
  - rewrite (HasPrefix_sliceFrom _ _ E). cbn [mbind result_bind String.eqb].
    now rewrite (getFilePathAsNameSpace_no_separator p Hp).
  - apply IH.
Qed.

(** X15.  BadNameSpace on a path that has no separator: the file passes
    when no line declares a namespace, and the check panics when one
    does. *)
Theorem badNameSpace_without_directory args :
  hasSeparator (filePath args) = false ->
  ruleCheckBadNameSpace args
  = if declaresNameSpace (fileAsLines args)
    then Panic "slice bounds out of range" else Ok "".
Proof. apply badNameSpaceFrom_no_separator. Qed.

Lemma badNameSpace_without_directory_witness :
  ruleCheckBadNameSpace
    {| filePath := bareName; fileAsString := ""; fileAsLines := acmeSource |}
  = Panic "slice bounds out of range".
Proof.
  exact (badNameSpace_without_directory
           {| filePath := bareName; fileAsString := "";
              fileAsLines := acmeSource |} eq_refl).
Defined.

(** ** BadClassName and the base name *)

Lemma badClassNameFrom_returns p base n lines :
  exists out,
    badClassNameFrom p base n lines = Ok out
    /\ (out = "" <-> Forall (declaresOnly base) lines).
Proof.
  revert n. induction lines as [|l lines IH]; intros n.
  - exists "". split; [reflexivity|]. split; [constructor|reflexivity].
  - rewrite BadClassName.badClassNameFrom_cons.
    destruct (IH (n + 1)) as (out & Hout & Hiff).
    destruct (classDeclaration l) as [cn|] eqn:E.
    + destruct (String.eqb_spec cn base) as [->|Hne]; cbn [negb].
      * exists out. split; [exact Hout|]. rewrite Hiff. split.
        -- intros H. constructor; [|exact H]. intros cn' Hcn'. congruence.
        -- intros H. now inversion H.
      * eexists. split; [reflexivity|]. split.
        -- intros H. now apply fileAndLineError_nonempty in H.
        -- intros H. inversion H as [|? ? H1 H2]. subst.
           now specialize (H1 cn E).
    + exists out. split; [exact Hout|]. rewrite Hiff. split.
      * intros H. constructor; [|exact H]. intros cn' Hcn'. congruence.
      * intros H. now inversion H.
Qed.

(** X16.  BadClassName expects the base name of the path without its last
    three bytes, whatever they are: the file passes exactly when every
    class declaration has that name.  With a base name of fewer than three
    bytes the check panics. *)
Theorem badClassName_expects_base_without_three_bytes args :
  match expectedClassName (filePath args) with
  | None => ruleCheckBadClassName args = Panic "slice bounds out of range"
  | Some expected =>
      exists out,
        ruleCheckBadClassName args = Ok out
        /\ (out = "" <-> Forall (declaresOnly expected) (fileAsLines args))
  end.
Proof.
  unfold expectedClassName, ruleCheckBadClassName.
  set (base := Base (filePath args)).
  destruct (Nat.ltb_spec (String.length base) 3) as [Hlt|Hge].
  - unfold slice.
    replace (0 <=? len base - len ".cs") with false
      by (symmetry; apply Z.leb_gt; unfold len; cbn; lia).
    reflexivity.
  - replace (len base - len ".cs")
      with (Z.of_nat (String.length base - 3)) by (unfold len; cbn; lia).
    rewrite slice_prefix_ok by lia. cbn [mbind result_bind].
    apply badClassNameFrom_returns.
Qed.

Example badClassName_short_name :
  ruleCheckBadClassName
    {| filePath := shortName; fileAsString := ""; fileAsLines := [] |}
  = Panic "slice bounds out of range".
Proof. reflexivity. Qed.

End Paths.

(** * Whole runs *)

Module Runs.
Import Go GoFacts Spec Helpers Fixtures Evaluator.

Lemma outcome_bind {A B} (m : io A) (f : A -> io B) :
  outcome (mbind f m)
  = match outcome m with
    | Ok a => outcome (f a)
    | Fatal msg => Fatal msg
    | Panic msg => Panic msg
    end.
Proof.
  destruct m as [t [a|msg|msg]]; [|reflexivity..].
  now rewrite bind_Ok.
Qed.

Lemma checks_app t1 t2 : checks (t1 ++ t2) = checks t1 ++ checks t2.
Proof.
  induction t1 as [|e t1 IH]; [reflexivity|].
  destruct e; cbn [checks app]; rewrite IH; reflexivity.
Qed.


Lemma In_checks r args t : In (r, args) (checks t) <-> In (EvCheck r args) t.
Proof.
  induction t as [|e t IH]; [reflexivity|].
  destruct e; cbn [checks In]; rewrite IH; split;
    try (intros [H|H]; [discriminate|exact H]); try (now right).
  - intros [[= -> ->]|H]; [now left|now right].
  - intros [[= -> ->]|H]; [now left|now right].
Qed.

Section OneFile.

Variables (w : world) (ext : string) (isBinary : bool).

Lemma lazyLoad_outcome loaded a a' :
  outcome (lazyLoad w loaded a) = Ok a' ->
  (loaded = true -> holdsContent w a) -> holdsContent w a'.
Proof.
  unfold lazyLoad, readFileString. destruct loaded; cbn [negb].
  - intros [= <-] H. now apply H.
  - intros H _. unfold emit in H. rewrite bind_Ok in H.
    destruct (ioutilReadFile w (filePath a)) as [s|e] eqn:E; cbn in H;
      [|discriminate].
    injection H as <-. split; [exact E|reflexivity].
Qed.

(** The outcome of one turn of the loop for a rule that is let through. *)
Lemma applied_outcome r rest loaded a :
  skipped ext isBinary r = false ->
  outcome (runRulesLoop w ext isBinary (r :: rest) loaded a)
  = match outcome (lazyLoad w loaded a) with
    | Ok args =>
        match checkFunc r args with
        | Ok msg => outcome (runRulesLoop w ext isBinary rest true args)
        | Fatal m => Fatal m
        | Panic m => Panic m
        end
    | Fatal m => Fatal m
    | Panic m => Panic m
    end.
Proof.
  intros H. rewrite runRulesLoop_applied by exact H.
  rewrite outcome_bind.
  destruct (outcome (lazyLoad w loaded a)) as [args| |]; try reflexivity.
  rewrite outcome_bind. cbn [emit outcome snd].
  rewrite outcome_bind. cbn [lift outcome snd].
  destruct (checkFunc r args) as [msg| |]; try reflexivity.
  rewrite outcome_bind. now destruct (negb (String.eqb msg "")).
Qed.

(** When the loop comes to its end, it has invoked the rules that the
    guards let through, each once and in the order of the list. *)
Lemma loop_complete rules loaded a :
  outcome (runRulesLoop w ext isBinary rules loaded a) = Ok tt ->
  map fst (checks (trace (runRulesLoop w ext isBinary rules loaded a)))
  = List.filter (fun r => negb (skipped ext isBinary r)) rules.
Proof.
  revert loaded a. induction rules as [|r rules IH]; intros loaded a Hout;
    [reflexivity|].
  cbn [List.filter]. destruct (skipped ext isBinary r) eqn:Hs; cbn [negb].
  - rewrite runRulesLoop_skipped in * by exact Hs. now apply IH.
  - rewrite applied_outcome in Hout by exact Hs.
    rewrite applied_trace by exact Hs. rewrite checks_app.
    assert (checks (if loaded then [] else [EvReadFile (filePath a)]) = [])
      as -> by now destruct loaded.
    cbn [app].
    destruct (outcome (lazyLoad w loaded a)) as [args| |]; try discriminate.
    destruct (checkFunc r args) as [msg| |]; try discriminate.
    cbn [checks map fst]. f_equal. rewrite checks_app.
    assert (checks (if negb (String.eqb msg "") then [EvPrintln msg] else [])
            = []) as -> by now destruct (negb (String.eqb msg "")).
    now apply IH.
Qed.

(** Every check is given the content of the file. *)
Lemma loop_args rules loaded a r args :
  (loaded = true -> holdsContent w a) ->
  In (EvCheck r args) (trace (runRulesLoop w ext isBinary rules loaded a)) ->
  holdsContent w args.
Proof.
  revert loaded a. induction rules as [|r0 rules IH]; intros loaded a Ha Hin;
    [destruct Hin|].
  destruct (skipped ext isBinary r0) eqn:Hs.
  - rewrite runRulesLoop_skipped in Hin by exact Hs. now apply (IH loaded a).
  - rewrite applied_trace in Hin by exact Hs.
    apply in_app_or in Hin as [Hin|Hin].
    { destruct loaded; [destruct Hin|]. destruct Hin as [Hin|[]]. discriminate. }
    destruct (outcome (lazyLoad w loaded a)) as [a'| |] eqn:Hl;
      [|destruct Hin..].
    pose proof (lazyLoad_outcome _ _ _ Hl Ha) as Ha'.
    destruct Hin as [Hin|Hin]; [now injection Hin as <- <-|].
    destruct (checkFunc r0 a') as [msg| |]; [|destruct Hin..].
    apply in_app_or in Hin as [Hin|Hin].
    { destruct (negb (String.eqb msg "")); [|destruct Hin].
      destruct Hin as [Hin|[]]. discriminate. }
    now apply (IH true a').
Qed.


End OneFile.

Lemma skipped_accepts ext isBinary r :
  skipped ext isBinary r = negb (accepts ext isBinary r).
Proof.
  unfold skipped, accepts, appliesToBinary, appliesToText.
  rewrite land_flagBinaryFile, land_flagTextFile.
  assert (forall l, stringArrayContains l ext = existsb (String.eqb ext) l)
    as Hc.
  { induction l as [|e l IH]; [reflexivity|]. cbn. rewrite IH.
    now destruct (String.eqb ext e). }
  rewrite Hc.
  generalize (Z.testbit (fileTypeFlags r) 0) (Z.testbit (fileTypeFlags r) 1).
  intros b0 b1. destruct (fileExtensions r) as [|e l].
  - cbn. now destruct isBinary, b0, b1.
  - change (length (e :: l) =? 0)%nat with false. cbn [negb andb].
    now destruct (existsb (String.eqb ext) (e :: l)), isBinary, b0, b1.
Qed.

Lemma readFirstNChars_outcome w p :
  outcome (readFirstNChars w p 50)
  = match osOpen w p with
    | SysOk data => Ok (fileRead (make 50) data)
    | SysErr err => Fatal (cannotOpenMsg p err)
    end.
Proof.
  unfold readFirstNChars, emit. rewrite bind_Ok.
  now destruct (osOpen w p).
Qed.

Lemma runRulesOnFile_outcome w rules f :
  outcome (runRulesOnFile w rules f)
  = match osOpen w (getCanonicalPath w f) with
    | SysOk data =>
        outcome (runRulesLoop w (Ext f) (classifiedBinary data) rules false
                   {| filePath := getCanonicalPath w f;
                      fileAsString := ""; fileAsLines := [] |})
    | SysErr err => Fatal (cannotOpenMsg (getCanonicalPath w f) err)
    end.
Proof.
  unfold runRulesOnFile. rewrite outcome_bind, readFirstNChars_outcome.
  now destruct (osOpen w (getCanonicalPath w f)).
Qed.

Lemma runRulesOnFile_opened w rules f data :
  osOpen w (getCanonicalPath w f) = SysOk data ->
  trace (runRulesOnFile w rules f)
  = EvOpen (getCanonicalPath w f)
    :: trace (runRulesLoop w (Ext f) (classifiedBinary data) rules false
                {| filePath := getCanonicalPath w f;
                   fileAsString := ""; fileAsLines := [] |}).
Proof.
  intros H. rewrite runRulesOnFile_trace, readFirstNChars_outcome, H.
  reflexivity.
Qed.

Lemma runRulesOnFile_unopened w rules f err :
  osOpen w (getCanonicalPath w f) = SysErr err ->
  runRulesOnFile w rules f
  = ([EvOpen (getCanonicalPath w f)],
     Fatal (cannotOpenMsg (getCanonicalPath w f) err)).
Proof.
  intros H. unfold runRulesOnFile, readFirstNChars, emit.
  rewrite H. reflexivity.
Qed.

Lemma runRulesOnFiles_app_trace w rules pre post :
  trace (runRulesOnFiles w rules (pre ++ post))
  = trace (runRulesOnFiles w rules pre)
    ++ match outcome (runRulesOnFiles w rules pre) with
       | Ok _ => trace (runRulesOnFiles w rules post)
       | _ => []
       end.
Proof.
  induction pre as [|f pre IH]; [reflexivity|].
  cbn [app runRulesOnFiles]. rewrite !trace_bind, outcome_bind, IH.
  destruct (outcome (runRulesOnFile w rules f));
    [now rewrite app_assoc | now rewrite !app_nil_r..].
Qed.

Lemma runRulesOnFiles_app_outcome w rules pre post :
  outcome (runRulesOnFiles w rules (pre ++ post))
  = match outcome (runRulesOnFiles w rules pre) with
    | Ok _ => outcome (runRulesOnFiles w rules post)
    | Fatal msg => Fatal msg
    | Panic msg => Panic msg
    end.
Proof.
  induction pre as [|f pre IH]; [reflexivity|].
  cbn [app runRulesOnFiles]. rewrite !outcome_bind, IH.
  now destruct (outcome (runRulesOnFile w rules f)).
Qed.


(** An event of a run belongs to the evaluation of one of its files. *)
Lemma run_event w rules files e :
  In e (trace (runRulesOnFiles w rules files)) ->
  exists f, In f files /\ In e (trace (runRulesOnFile w rules f)).
Proof.
  induction files as [|f files IH]; intros Hin; [destruct Hin|].
  cbn [runRulesOnFiles] in Hin. rewrite trace_bind in Hin.
  apply in_app_or in Hin as [Hin|Hin].
  - exists f. split; [now left|exact Hin].
  - destruct (outcome (runRulesOnFile w rules f)); [|destruct Hin..].
    destruct (IH Hin) as (f' & H1 & H2). exists f'. split; [now right|exact H2].
Qed.

(** X17.  When the evaluation of a file comes to its end, the file could
    be opened, and the checks invoked are those of the rules that accept
    its extension and its classification, each once and in the order of
    the rule list. *)
Theorem file_run_checks_accepted_rules_in_order w rules f :
  outcome (runRulesOnFile w rules f) = Ok tt ->
  exists data,
    osOpen w (getCanonicalPath w f) = SysOk data
    /\ map fst (checks (trace (runRulesOnFile w rules f)))
       = List.filter (accepts (Ext f) (classifiedBinary data)) rules.
Proof.
  rewrite runRulesOnFile_outcome.
  destruct (osOpen w (getCanonicalPath w f)) as [data|err] eqn:E;
    [|discriminate].
  intros H. exists data. split; [reflexivity|].
  rewrite (runRulesOnFile_opened _ _ _ _ E). cbn [checks].
  rewrite (loop_complete _ _ _ _ _ _ H).
  clear. induction rules as [|r rules IH]; [reflexivity|].
  cbn [List.filter]. rewrite skipped_accepts, negb_involutive, IH.
  reflexivity.
Qed.

Lemma file_run_checks_accepted_rules_in_order_witness :
  map name
    (map fst (checks (trace (runRulesOnFile widgetWorld stubRules "Widget.cs"))))
  = ["text-cs"; "text-any"].
Proof.
  destruct (file_run_checks_accepted_rules_in_order
              widgetWorld stubRules "Widget.cs" eq_refl) as (data & H1 & H2).
  rewrite H2. injection H1 as <-. reflexivity.
Defined.

(** X18.  Every check of a run is given the content that reading the file
    at its path returns, and the lines of that content with the empty ones
    kept. *)
Theorem checks_are_given_the_content w rules files r args :
  In (EvCheck r args) (trace (runRulesOnFiles w rules files)) ->
  holdsContent w args.
Proof.
  intros Hin. apply run_event in Hin as (f & _ & Hin).
  rewrite runRulesOnFile_trace in Hin. destruct Hin as [Hin|Hin];
    [discriminate|].
  destruct (outcome (readFirstNChars w (getCanonicalPath w f) 50));
    [|destruct Hin..].
  apply loop_args in Hin; [exact Hin|discriminate].
Qed.

Lemma checks_are_given_the_content_witness :
  holdsContent widgetWorld widgetArgs.
Proof.
  apply (checks_are_given_the_content widgetWorld stubRules ["Widget.cs"]
           (stubRule "text-any" flagTextFile [])).
  vm_compute. right. right. right. left. reflexivity.
Defined.


(** X20.  A file of the list that cannot be opened ends the run with a
    fatal error, whatever the rules are: nothing is done for the files
    behind it. *)
Theorem unopened_file_ends_the_run w rules pre f post err :
  outcome (runRulesOnFiles w rules pre) = Ok tt ->
  osOpen w (getCanonicalPath w f) = SysErr err ->
  runRulesOnFiles w rules (pre ++ f :: post)
  = (trace (runRulesOnFiles w rules pre) ++ [EvOpen (getCanonicalPath w f)],
     Fatal (cannotOpenMsg (getCanonicalPath w f) err)).
Proof.
  intros Hpre Hf.
  rewrite (surjective_pairing (runRulesOnFiles w rules (pre ++ f :: post))).
  change (fst ?m) with (trace m). change (snd ?m) with (outcome m).
  rewrite runRulesOnFiles_app_trace, runRulesOnFiles_app_outcome, Hpre.
  cbn [runRulesOnFiles].
  rewrite (runRulesOnFile_unopened _ _ _ _ Hf). reflexivity.
Qed.

Lemma unopened_file_ends_the_run_witness :
  map eventLabel
    (trace (runRulesOnFiles widgetWorld stubRules
              (["Widget.cs"] ++ "Gadget.cs" :: ["Widget.cs"])))
  = ["open /repo/Widget.cs"; "read /repo/Widget.cs";
     "check text-cs /repo/Widget.cs"; "check text-any /repo/Widget.cs";
     "open /repo/Gadget.cs"].
Proof.
  rewrite (unopened_file_ends_the_run widgetWorld stubRules ["Widget.cs"]
             "Gadget.cs" ["Widget.cs"] "no such file" eq_refl eq_refl).
  vm_compute. reflexivity.
Defined.



(** X22.  A rule resolved from a config line with an argument is never
    invoked, in any run on any files: its copy has no file-type flag. *)
Theorem rule_with_argument_is_never_invoked w line r rules files args :
  parseRule line = Ok r ->
  containsSpace line = true ->
  ~ In (EvCheck r args) (trace (runRulesOnFiles w rules files)).
Proof.
  intros Hp Hs Hin. rewrite Resolver.parseRule_unfold, Hs in Hp.
  destruct (getRuleMustExist (leadingToken line)) as [R| |]; try discriminate.
  injection Hp as <-.
  apply run_event in Hin as (f & _ & Hin).
  apply file_checks in Hin as (p & _ & _ & _ & H1 & H2).
  assert (skipped (Ext f) (hasControlCharacters p)
            (setArgument (cloneRule R) (afterFirstSpace line)) = false) as E
      by now apply skipped_false.
  rewrite zero_flags_always_skipped in E by reflexivity. discriminate.
Qed.

Lemma rule_with_argument_is_never_invoked_witness :
  ~ In (EvCheck noTabsStrict widgetArgs)
       (trace (runRulesOnFiles widgetWorld [noTabsStrict] ["Widget.cs"])).
Proof.
  apply (rule_with_argument_is_never_invoked widgetWorld "NoTabs strict");
    vm_compute; reflexivity.
Defined.

End Runs.

(** * The lines of a text *)

Module Lines.
Import Go GoFacts Spec Helpers Fixtures Newlines Paths.

Lemma replaceFrom_CRLF_LF s :
  (forall n, n < 0 -> replaceFrom 0 n s CRLF LF = crlfToLF s)
  /\ (forall n, n < 0 ->
        replaceFrom 0 n (afterFirstByte s) CRLF LF = crlfToLF (afterFirstByte s)).
Proof.
  induction s as [|c rest [IH1 IH2]]; [split; reflexivity|].
  split; [|exact IH1]. intros n Hn. cbn [replaceFrom].
  rewrite HasPrefix_CRLF. destruct (Z.eqb_spec n 0) as [->|_]; [lia|].
  cbn [negb andb]. destruct rest as [|d rest'].
  - rewrite andb_false_r. reflexivity.
  - cbn [crlfToLF]. destruct (Ascii.eqb c "013" && Ascii.eqb d "010").
    + change (Nat.pred (String.length CRLF)) with 1%nat.
      cbn [replaceFrom]. change LF with (String "010" "").
      rewrite str_app_cons, str_app_nil_l. f_equal.
      apply (IH2 (n - 1)). lia.
    + f_equal. now apply IH1.
Qed.

Lemma Replace_CRLF_LF s : Replace s CRLF LF (-1) = crlfToLF s.
Proof.
  unfold Replace.
  change (String.eqb CRLF LF || (-1 =? 0) || String.eqb CRLF "") with false.
  cbn iota. now apply replaceFrom_CRLF_LF.
Qed.

Lemma splitFrom_attach u cur :
  splitFrom 0 cur u LF = attach cur (splitFrom 0 "" u LF).
Proof.
  revert cur. induction u as [|c u IH]; intros cur.
  - cbn. now rewrite str_app_nil_r.
  - cbn [splitFrom]. change LF with (String "010" ""). rewrite HasPrefix_char.
    destruct (Ascii.eqb c "010").
    + cbn [attach]. now rewrite str_app_nil_r.
    + change (String "010" "") with LF.
      rewrite (IH (cur +:+ String c "")), (IH ("" +:+ String c "")).
      destruct (splitFrom 0 "" u LF) as [|p ps]; cbn [attach].
      * now rewrite str_app_nil_l.
      * now rewrite str_app_nil_l, str_app_assoc.
Qed.

Lemma splitFrom_LF c u :
  splitFrom 0 "" (String c u) LF
  = if Ascii.eqb c "010" then "" :: splitFrom 0 "" u LF
    else attach (String c "") (splitFrom 0 "" u LF).
Proof.
  cbn [splitFrom]. change LF with (String "010" ""). rewrite HasPrefix_char.
  destruct (Ascii.eqb c "010"); [reflexivity|].
  change (String "010" "") with LF. now rewrite splitFrom_attach, str_app_nil_l.
Qed.

Lemma attach_linesOf c s :
  attach (String c "") (linesOf s)
  = match linesOf s with
    | line :: lines => String c line :: lines
    | [] => [String c ""]
    end.
Proof. now destruct (linesOf s). Qed.

Lemma crlfToLF_two c d rest :
  crlfToLF (String c (String d rest))
  = if Ascii.eqb c "013" && Ascii.eqb d "010"
    then String "010" (crlfToLF rest)
    else String c (crlfToLF (String d rest)).
Proof. reflexivity. Qed.

Lemma linesOf_two c d rest :
  linesOf (String c (String d rest))
  = if Ascii.eqb c "010" then "" :: linesOf (String d rest)
    else if Ascii.eqb c "013" then
      if Ascii.eqb d "010" then "" :: linesOf rest
      else "" :: linesOf (String d rest)
    else match linesOf (String d rest) with
         | line :: lines => String c line :: lines
         | [] => [String c ""]
         end.
Proof. reflexivity. Qed.

(** The three calls of the library, together. *)
Lemma split_normalised s :
  Split (Replace (Replace s CRLF LF (-1)) CR LF (-1)) LF = linesOf s.
Proof.
  rewrite Replace_CRLF_LF. change CR with (String "013" "").
  change LF with (String "010" "") at 1.
  rewrite Replace_byte by discriminate. unfold Split.
  enough ((splitFrom 0 "" (replaceByte "013" "010" (crlfToLF s)) LF = linesOf s)
          /\ (splitFrom 0 "" (replaceByte "013" "010"
                                (crlfToLF (afterFirstByte s))) LF
              = linesOf (afterFirstByte s))) as [H _] by exact H.
  induction s as [|c rest [IH1 IH2]]; [split; reflexivity|].
  split; [|exact IH1]. destruct rest as [|d rest'].
  - cbn [crlfToLF replaceByte linesOf]. rewrite splitFrom_LF.
    destruct (Ascii.eqb_spec c "013") as [->|Hc]; [reflexivity|].
    destruct (Ascii.eqb c "010"); reflexivity.
  - cbn [afterFirstByte] in IH2. rewrite crlfToLF_two, linesOf_two.
    destruct (Ascii.eqb_spec c "013") as [->|Hc]; cbn [andb].
    + change (Ascii.eqb "013" "010") with false. cbv iota.
      destruct (Ascii.eqb d "010"); cbn [replaceByte]; rewrite splitFrom_LF.
      * change (Ascii.eqb "010" "013") with false.
        change (Ascii.eqb "010" "010") with true. cbv iota. now rewrite IH2.
      * change (Ascii.eqb "013" "013") with true. cbv iota.
        change (Ascii.eqb "010" "010") with true. cbv iota. now rewrite IH1.
    + cbn [replaceByte]. rewrite (proj2 (Ascii.eqb_neq c "013") Hc).
      rewrite splitFrom_LF, IH1.
      destruct (Ascii.eqb c "010"); [reflexivity|]. apply attach_linesOf.
Qed.

Lemma linesOf_noLineEnd s : Forall noLineEnd (linesOf s).
Proof.
  enough (Forall noLineEnd (linesOf s)
          /\ Forall noLineEnd (linesOf (afterFirstByte s))) as [H _] by exact H.
  assert (noLineEnd "") as H0 by (split; reflexivity).
  induction s as [|c rest [IH1 IH2]]; [split; repeat constructor; exact H0|].
  split; [|exact IH1]. cbn [linesOf].
  destruct (Ascii.eqb_spec c "010") as [->|Hlf]; [now constructor|].
  destruct (Ascii.eqb_spec c "013") as [->|Hcr].
  - destruct rest as [|d rest']; [now constructor|].
    destruct (Ascii.eqb d "010"); now constructor.
  - destruct (linesOf rest) as [|l ls].
    + repeat constructor; cbn [hasByte]; rewrite orb_false_r;
        apply Ascii.eqb_neq; congruence.
    + inversion IH1 as [|? ? [H1 H2] H3]; subst. constructor; [|exact H3].
      split; cbn [hasByte]; rewrite ?H1, ?H2, orb_false_r;
        apply Ascii.eqb_neq; congruence.
Qed.

(** X23.  The lines of a text, as the checks and the file lists get them:
    a line ends at a CR LF pair, at a single CR or at a single LF; an empty
    text has no line at all, every other text has the line behind its last
    line end too; with [returnNonEmptyOnly] the empty lines are left out;
    and no line holds a CR or an LF. *)
Theorem convertStringToLines_lines s :
  convertStringToLines s false = (if String.eqb s "" then [] else linesOf s)
  /\ convertStringToLines s true = List.filter nonEmpty (linesOf s)
  /\ forall nonEmptyOnly,
       Forall noLineEnd (convertStringToLines s nonEmptyOnly).
Proof.
  assert (convertStringToLines s false
          = (if String.eqb s "" then [] else linesOf s)) as H1.
  { unfold convertStringToLines. destruct (String.eqb s ""); [reflexivity|].
    apply split_normalised. }
  assert (convertStringToLines s true = List.filter nonEmpty (linesOf s)) as H2.
  { unfold convertStringToLines.
    destruct (String.eqb s "") eqn:E.
    - apply String.eqb_eq in E. now rewrite E.
    - cbn [negb]. now rewrite split_normalised. }
  split; [exact H1|]. split; [exact H2|]. intros [|].
  - rewrite H2. generalize (linesOf_noLineEnd s). generalize (linesOf s).
    intros lines H. induction H as [|l ls Hl Hls IH]; [constructor|].
    cbn [List.filter]. destruct (nonEmpty l); [now constructor|exact IH].
  - rewrite H1. destruct (String.eqb s ""); [constructor|].
    apply linesOf_noLineEnd.
Qed.

Example convertStringToLines_three_line_ends :
  convertStringToLines threeLineEnds false = ["a"; ""; "b"; ""]
  /\ convertStringToLines threeLineEnds true = ["a"; "b"].
Proof. split; reflexivity. Qed.

End Lines.

(** * The files that git reports *)

Module GitFiles.
Import Go GoFacts Spec Helpers Fixtures Newlines Paths Lines.

Lemma splitFrom_attach_byte b u cur :
  splitFrom 0 cur u (String b "")
  = attach cur (splitFrom 0 "" u (String b "")).
Proof.
  revert cur. induction u as [|c u IH]; intros cur.
  - cbn. now rewrite str_app_nil_r.
  - cbn [splitFrom]. rewrite HasPrefix_char.
    destruct (Ascii.eqb c b).
    + cbn [attach]. now rewrite str_app_nil_r.
    + rewrite (IH (cur +:+ String c "")), (IH ("" +:+ String c "")).
      destruct (splitFrom 0 "" u (String b "")) as [|p ps]; cbn [attach].
      * now rewrite str_app_nil_l.
      * now rewrite str_app_nil_l, str_app_assoc.
Qed.

(** Splitting at [/] after the backslashes are replaced. *)
Lemma Split_elements path :
  Split (Replace path "\" "/" (-1)) "/" = elementsOf path.
Proof.
  rewrite Replace_byte by discriminate. unfold Split.
  induction path as [|c path IH]; [reflexivity|].
  cbn [replaceByte elementsOf splitFrom]. rewrite HasPrefix_char.
  destruct (Ascii.eqb_spec c "\") as [->|Hc].
  - cbn. now rewrite IH.
  - rewrite orb_false_r. destruct (Ascii.eqb c "/"); [now rewrite <- IH|].
    cbn [String.length Nat.pred]. rewrite splitFrom_attach_byte, IH.
    rewrite str_app_nil_l. now destruct (elementsOf path).
Qed.

Lemma gotoGitRepoRootDirFrom_nearest sh cwd elements (n : nat) :
  match gotoGitRepoRootDirFrom sh cwd n elements with
  | Ok cwd' =>
      exists k : nat,
        (1 <= k <= n)%nat
        /\ holdsRepository sh (ancestor elements k) = true
        /\ (forall j : nat, (k < j <= n)%nat ->
              holdsRepository sh (ancestor elements j) = false)
        /\ cwd' = (if osChdir sh (ancestor elements k)
                   then ancestor elements k else cwd)
  | Fatal msg =>
      msg = "Not a git repository"
      /\ forall j : nat, (1 <= j <= n)%nat ->
           holdsRepository sh (ancestor elements j) = false
  | Panic _ => False
  end.
Proof.
  induction n as [|n IH].
  - cbn. split; [reflexivity|]. intros j Hj. lia.
  - cbn [gotoGitRepoRootDirFrom].
    fold (ancestor elements (S n)). fold (holdsRepository sh (ancestor elements (S n))).
    destruct (holdsRepository sh (ancestor elements (S n))) eqn:E.
    + exists (S n). split; [lia|]. split; [exact E|]. split; [|reflexivity].
      intros j Hj. lia.
    + destruct (gotoGitRepoRootDirFrom sh cwd n elements) as [d|msg|msg];
        [|destruct IH as [-> IH]; split; [reflexivity|]|exact IH].
      * destruct IH as (k & Hk & H1 & H2 & H3). exists k.
        split; [lia|]. split; [exact H1|]. split; [|exact H3].
        intros j Hj. destruct (Nat.eq_dec j (S n)) as [->|Hne]; [exact E|].
        apply H2. lia.
      * intros j Hj. destruct (Nat.eq_dec j (S n)) as [->|Hne]; [exact E|].
        apply IH. lia.
Qed.

(** X24.  Without arguments the program goes to the nearest directory,
    from the one it starts in upwards, that has a directory [.git]; when no
    directory on the way has one, that is fatal.  The check of each
    directory is that of the first elements of the starting path, taken
    with either separator. *)
Theorem gotoGitRepoRootDir_nearest_repository w sh cwd :
  let elements := elementsOf (startingDirectory w) in
  match gotoGitRepoRootDir w sh cwd with
  | Ok cwd' =>
      exists k : nat,
        (1 <= k <= length elements)%nat
        /\ holdsRepository sh (ancestor elements k) = true
        /\ (forall j : nat, (k < j <= length elements)%nat ->
              holdsRepository sh (ancestor elements j) = false)
        /\ cwd' = (if osChdir sh (ancestor elements k)
                   then ancestor elements k else cwd)
  | Fatal msg =>
      msg = "Not a git repository"
      /\ forall j : nat, (1 <= j <= length elements)%nat ->
           holdsRepository sh (ancestor elements j) = false
  | Panic _ => False
  end.
Proof.
  unfold gotoGitRepoRootDir. fold (startingDirectory w).
  rewrite Split_elements. apply gotoGitRepoRootDirFrom_nearest.
Qed.

Example gotoGitRepoRootDir_from_src :
  gotoGitRepoRootDir repoWorld repoShell "." = Ok "C:/repo".
Proof. reflexivity. Qed.

Lemma namesIn_lines output : convertStringToLines output true = namesIn output.
Proof.
  unfold convertStringToLines, namesIn.
  destruct (String.eqb output "") eqn:E.
  - apply String.eqb_eq in E. now rewrite E.
  - cbn [negb]. now rewrite split_normalised.
Qed.

Lemma namesIn_names output :
  Forall (fun f => f <> "" /\ noLineEnd f) (namesIn output).
Proof.
  unfold namesIn. generalize (linesOf_noLineEnd output).
  generalize (linesOf output). intros lines H.
  induction H as [|l ls Hl Hls IH]; [constructor|].
  cbn [List.filter]. unfold nonEmpty at 1.
  destruct (String.eqb_spec l "") as [->|Hne]; cbn [negb]; [exact IH|].
  constructor; [now split|exact IH].
Qed.

(** X25.  In a repository, the files that the program checks without
    arguments are the names that git prints for the staged changes, then
    for the changes not staged, then for the files not tracked, one name
    on a line: in this order, with a name as often as it is printed, and
    never an empty name. *)
Theorem getListOfFilesFromGit_changed_files w sh cwd d staged unstaged
    untracked :
  gotoGitRepoRootDir w sh cwd = Ok d ->
  combinedOutput sh d "git" ["diff"; "--name-only"; "--cached"]
  = (staged, true) ->
  combinedOutput sh d "git" ["diff"; "--name-only"] = (unstaged, true) ->
  combinedOutput sh d "git" ["ls-files"; "--others"; "--exclude-standard"]
  = (untracked, true) ->
  getListOfFilesFromGit w sh cwd
  = Ok (namesIn staged ++ namesIn unstaged ++ namesIn untracked)
  /\ Forall (fun f => f <> "" /\ noLineEnd f)
       (namesIn staged ++ namesIn unstaged ++ namesIn untracked).
Proof.
  intros Hd H1 H2 H3. split.
  - unfold getListOfFilesFromGit, execAndGetOutput. rewrite Hd.
    cbn [mbind result_bind]. rewrite H1. cbn [negb mbind result_bind].
    rewrite H2. cbn [negb mbind result_bind]. rewrite H3.
    cbn [negb mbind result_bind]. now rewrite !namesIn_lines, <- app_assoc.
  - rewrite !Forall_app. repeat split; apply namesIn_names.
Qed.

Lemma getListOfFilesFromGit_changed_files_witness :
  getListOfFilesFromGit repoWorld repoShell "." = Ok ["a.cs"; "a.cs"; "b.cs"].
Proof.
  exact (proj1 (getListOfFilesFromGit_changed_files repoWorld repoShell "."
                  "C:/repo" ("a.cs" +:+ LF) ("a.cs" +:+ LF +:+ "b.cs" +:+ LF) ""
                  eq_refl eq_refl eq_refl eq_refl)).
Defined.

End GitFiles.

(** * The files of the command line *)

Module CommandLine.
Import Go GoFacts Spec Helpers Fixtures.

Lemma insert_middle {A} (l1 l2 : list A) x y :
  <[length l1 := y]> (l1 ++ x :: l2) = l1 ++ y :: l2.
Proof.
  replace (length l1) with (length l1 + 0)%nat by lia.
  now rewrite insert_app_r.
Qed.

(** The loop reverses what lies between its two indices. *)
Lemma stringArrayReverseFrom_middle (turns : nat) (pre mid post : list string) :
  (length mid <= turns)%nat ->
  stringArrayReverseFrom turns (Z.of_nat (length pre))
    (Z.of_nat (length pre + length mid) - 1) (pre ++ mid ++ post)
  = Ok (pre ++ rev mid ++ post).
Proof.
  revert pre mid post. induction turns as [|k IH]; intros pre mid post Hlen.
  { destruct mid; [reflexivity|cbn in Hlen; lia]. }
  cbn [stringArrayReverseFrom].
  destruct mid as [|x mid].
  { destruct (Z.ltb_spec (Z.of_nat (length pre))
                (Z.of_nat (length pre + length (@nil string)) - 1));
      [cbn in *; lia|reflexivity]. }
  destruct (exists_last (l := x :: mid)) as (mid' & y & E); [discriminate|].
  destruct mid' as [|x' mid'].
  { cbn in E. destruct mid; [|destruct mid; discriminate].
    destruct (Z.ltb_spec (Z.of_nat (length pre))
                (Z.of_nat (length pre + length [x]) - 1));
      [cbn in *; lia|reflexivity]. }
  cbn [app] in E. injection E as <- ->.
  assert (length (x :: mid' ++ [y]) = S (S (length mid'))) as Hl
      by (cbn; rewrite length_app; cbn; lia).
  rewrite Hl in *.
  destruct (Z.ltb_spec (Z.of_nat (length pre))
              (Z.of_nat (length pre + S (S (length mid'))) - 1)); [|lia].
  unfold index.
  destruct (Z.ltb_spec (Z.of_nat (length pre)) 0); [lia|].
  destruct (Z.ltb_spec (Z.of_nat (length pre + S (S (length mid'))) - 1) 0);
    [lia|].
  rewrite Nat2Z.id.
  replace (Z.to_nat (Z.of_nat (length pre + S (S (length mid'))) - 1))
    with (length (pre ++ x :: mid')) by (rewrite length_app; cbn; lia).
  assert ((pre ++ (x :: mid' ++ [y]) ++ post) !! length pre = Some x) as ->.
  { now apply list_lookup_middle. }
  assert ((pre ++ (x :: mid' ++ [y]) ++ post) !! length (pre ++ x :: mid')
          = Some y) as ->.
  { replace (pre ++ (x :: mid' ++ [y]) ++ post)
      with ((pre ++ x :: mid') ++ y :: post)
      by (cbn; now rewrite <- !app_assoc).
    now apply list_lookup_middle. }
  replace (<[length pre:=y]> (pre ++ (x :: mid' ++ [y]) ++ post))
    with ((pre ++ y :: mid') ++ y :: post).
  2:{ cbn [app]. rewrite insert_middle. cbn. now rewrite <- !app_assoc. }
  replace (length (pre ++ x :: mid')) with (length (pre ++ y :: mid'))
    by (rewrite !length_app; reflexivity).
  rewrite insert_middle.
  replace ((pre ++ y :: mid') ++ x :: post)
    with ((pre ++ [y]) ++ mid' ++ (x :: post))
    by (now rewrite <- !app_assoc).
  replace (Z.of_nat (length pre) + 1) with (Z.of_nat (length (pre ++ [y])))
    by (rewrite length_app; cbn; lia).
  replace (Z.of_nat (length pre + S (S (length mid'))) - 1 - 1)
    with (Z.of_nat (length (pre ++ [y]) + length mid') - 1)
    by (rewrite length_app; cbn; lia).
  rewrite IH by lia. f_equal. cbn [rev]. rewrite rev_app_distr. cbn.
  now rewrite <- !app_assoc.
Qed.

Lemma stringArrayReverse_rev array : stringArrayReverse array = Ok (rev array).
Proof.
  unfold stringArrayReverse.
  pose proof (stringArrayReverseFrom_middle (length array) [] array []) as H.
  cbn [app length Nat.add] in H. rewrite !app_nil_r in H.
  apply H. lia.
Qed.

(** X26.  [stringArrayReverse] leaves the array reversed, whatever its
    length, and never panics; done twice, it leaves the array as it
    was. *)
Theorem stringArrayReverse_reverses array :
  stringArrayReverse array = Ok (rev array)
  /\ (stringArrayReverse array ≫= stringArrayReverse) = Ok array.
Proof.
  rewrite stringArrayReverse_rev. split; [reflexivity|].
  cbn [mbind result_bind]. now rewrite stringArrayReverse_rev, rev_involutive.
Qed.

Lemma ContainsAny_wildcard s :
  ContainsAny s "?*" = hasByte "?" s || hasByte "*" s.
Proof.
  induction s as [|c s IH]; [reflexivity|].
  cbn [ContainsAny hasByte]. rewrite IH. unfold inCutset.
  cbn [IndexByte]. rewrite (Ascii.eqb_sym "?" c), (Ascii.eqb_sym "*" c).
  destruct (Ascii.eqb c "?"), (Ascii.eqb c "*"), (hasByte "?" s),
    (hasByte "*" s); reflexivity.
Qed.

Lemma argumentFiles_concat fs args files :
  argumentFiles fs args files
  = files ++ concat (map (filesOfArgument fs) args).
Proof.
  revert files. induction args as [|a args IH]; intros files.
  - cbn. now rewrite app_nil_r.
  - cbn [argumentFiles map concat]. unfold filesOfArgument at 1.
    rewrite ContainsAny_wildcard.
    destruct (hasByte "?" a || hasByte "*" a).
    + destruct (filepathGlob fs a); rewrite IH; [|reflexivity].
      now rewrite <- app_assoc.
    + rewrite IH. now rewrite <- app_assoc.
Qed.

(** One turn of the second loop. *)
Lemma subdirFiles_turn fs k files f files2 :
  subdirFiles fs (S k) (files ++ [f]) files2
  = match osStat fs f with
    | None => subdirFiles fs k files files2
    | Some true => subdirFiles fs k files (files2 ++ [f])
    | Some false =>
        if String.eqb (Base f) ".git"
        then subdirFiles fs k files files2
        else
          match readdirnames fs f with
          | None => subdirFiles fs k files files2
          | Some fileNames =>
              subdirFiles fs k
                (files ++ map (pathJoin fs f) (sortStrings fileNames)) files2
          end
    end.
Proof.
  cbn [subdirFiles]. rewrite last_snoc.
  replace (take (length (files ++ [f]) - 1) (files ++ [f])) with files;
    [reflexivity|].
  rewrite length_app. cbn [length].
  replace (length files + 1 - 1)%nat with (length files) by lia.
  now rewrite take_app_length.
Qed.

(** The second loop works off the end of its list: what is found at the
    paths there is added, last first, to what was found before. *)
Lemma subdirFiles_listed fs work out :
  listed fs work out ->
  forall stack files2,
  exists n : nat, forall turns : nat,
    subdirFiles fs (n + turns) (stack ++ work) files2
    = subdirFiles fs turns stack (files2 ++ rev out).
Proof.
  induction 1 as [|f rest out Hs _ IH|f rest out Hs _ IH|f rest out Hs Hb _ IH
                  |f rest out Hs Hb Hr _ IH
                  |f rest names inside out Hs Hb Hr _ IHin _ IH];
    intros stack files2.
  - exists 0%nat. intros turns. cbn [rev Nat.add]. now rewrite !app_nil_r.
  - destruct (IH (stack ++ [f]) files2) as [n Hn]. exists (n + 1)%nat.
    intros turns. replace (stack ++ f :: rest) with ((stack ++ [f]) ++ rest)
      by now rewrite <- app_assoc.
    rewrite <- Nat.add_assoc, Hn. cbn [Nat.add].
    now rewrite subdirFiles_turn, Hs.
  - destruct (IH (stack ++ [f]) files2) as [n Hn]. exists (n + 1)%nat.
    intros turns. replace (stack ++ f :: rest) with ((stack ++ [f]) ++ rest)
      by now rewrite <- app_assoc.
    rewrite <- Nat.add_assoc, Hn. cbn [Nat.add].
    rewrite subdirFiles_turn, Hs. cbn [rev]. now rewrite <- !app_assoc.
  - destruct (IH (stack ++ [f]) files2) as [n Hn]. exists (n + 1)%nat.
    intros turns. replace (stack ++ f :: rest) with ((stack ++ [f]) ++ rest)
      by now rewrite <- app_assoc.
    rewrite <- Nat.add_assoc, Hn. cbn [Nat.add].
    now rewrite subdirFiles_turn, Hs, Hb.
  - destruct (IH (stack ++ [f]) files2) as [n Hn]. exists (n + 1)%nat.
    intros turns. replace (stack ++ f :: rest) with ((stack ++ [f]) ++ rest)
      by now rewrite <- app_assoc.
    rewrite <- Nat.add_assoc, Hn. cbn [Nat.add].
    rewrite subdirFiles_turn, Hs, Hr.
    now rewrite (proj2 (String.eqb_neq _ _) Hb).
  - destruct (IH (stack ++ [f]) files2) as [n Hn].
    destruct (IHin stack (files2 ++ rev out)) as [m Hm].
    exists (n + (1 + m))%nat.
    intros turns. replace (stack ++ f :: rest) with ((stack ++ [f]) ++ rest)
      by now rewrite <- app_assoc.
    rewrite <- Nat.add_assoc, Hn, <- Nat.add_assoc. cbn [Nat.add].
    rewrite subdirFiles_turn, Hs, Hr.
    rewrite (proj2 (String.eqb_neq _ _) Hb), Hm.
    now rewrite rev_app_distr, <- !app_assoc.
Qed.

Lemma subdirFiles_done fs work out :
  listed fs work out ->
  exists n : nat, forall turns : nat,
    (n <= turns)%nat -> subdirFiles fs turns work [] = Some (rev out).
Proof.
  intros H. destruct (subdirFiles_listed fs work out H [] []) as [n Hn].
  exists (n + 1)%nat. intros turns Ht.
  replace turns with (n + S (turns - n - 1))%nat by lia.
  cbn [app] in Hn. now rewrite Hn.
Qed.

(** X27.  With arguments, the files to check are those found at the
    arguments, depth first: an argument with [?] or [*] stands for its
    matches; a regular file is itself; a directory is what is found at its
    entries, taken in ascending order of their names; a path that cannot
    be examined, a directory [.git] and what cannot be opened give
    nothing.  Where this is a finite listing, the program comes to it,
    given turns enough. *)
Theorem getListOfFilesFromArguments_depth_first fs args out :
  listed fs (concat (map (filesOfArgument fs) args)) out ->
  exists n : nat, forall turns : nat,
    (n <= turns)%nat ->
    getListOfFilesFromArguments fs turns args = Some (Ok out).
Proof.
  intros H. destruct (subdirFiles_done _ _ _ H) as [n Hn]. exists n.
  intros turns Ht. unfold getListOfFilesFromArguments.
  rewrite argumentFiles_concat. cbn [app]. rewrite (Hn turns Ht).
  cbn [mbind option_bind]. now rewrite stringArrayReverse_rev, rev_involutive.
Qed.

Lemma getListOfFilesFromArguments_depth_first_witness :
  exists n : nat, forall turns : nat,
    (n <= turns)%nat ->
    getListOfFilesFromArguments smallTree turns ["README"; "src"]
    = Some (Ok ["README"; "src/a.cs"; "src/b.cs"]).
Proof.
  apply (getListOfFilesFromArguments_depth_first smallTree ["README"; "src"]).
  change (listed smallTree ["README"; "src"]
            ("README" :: ["src/a.cs"; "src/b.cs"] ++ [])).
  apply listed_regular; [reflexivity|].
  apply (listed_directory smallTree "src" [] ["b.cs"; ".git"; "a.cs"]);
    [reflexivity|discriminate|reflexivity| |constructor].
  change (listed smallTree ["src/.git"; "src/a.cs"; "src/b.cs"]
            ["src/a.cs"; "src/b.cs"]).
  apply listed_git; [reflexivity|reflexivity|].
  apply listed_regular; [reflexivity|].
  apply listed_regular; [reflexivity|]. constructor.
Defined.

Example getListOfFilesFromArguments_small_tree :
  getListOfFilesFromArguments smallTree 6 ["README"; "src"]
  = Some (Ok ["README"; "src/a.cs"; "src/b.cs"]).
Proof. reflexivity. Qed.

(** X28.  Arguments without [?] and [*] none of which is a directory: the
    files to check are those of the arguments that are regular files, in
    the order of the command line; an argument that cannot be examined is
    left out without a word.  One turn for each argument, and one more,
    are turns enough. *)
Theorem getListOfFilesFromArguments_plain_files fs args turns :
  forallb (fun a => negb (hasByte "?" a || hasByte "*" a)) args = true ->
  forallb (plain fs) args = true ->
  (length args < turns)%nat ->
  getListOfFilesFromArguments fs turns args
  = Some (Ok (List.filter (regular fs) args)).
Proof.
  intros Hw Hp Ht. unfold getListOfFilesFromArguments.
  rewrite argumentFiles_concat. cbn [app].
  assert (concat (map (filesOfArgument fs) args) = args) as ->.
  { clear Hp Ht. induction args as [|a args IH]; [reflexivity|].
    cbn [forallb] in Hw. apply andb_true_iff in Hw as [H1 H2].
    cbn [map concat]. unfold filesOfArgument at 1.
    apply negb_true_iff in H1. rewrite H1. cbn [app]. now rewrite IH. }
  clear Hw.
  assert (forall stack files2 k,
            forallb (plain fs) stack = true ->
            (length stack < k)%nat ->
            subdirFiles fs k stack files2
            = Some (files2 ++ rev (List.filter (regular fs) stack))) as Hloop.
  { clear. intros stack. induction stack as [|f stack IH] using rev_ind;
      intros files2 k Hp Hk.
    - destruct k; [cbn in Hk; lia|]. cbn. now rewrite app_nil_r.
    - destruct k; [cbn in Hk; lia|]. rewrite subdirFiles_turn.
      rewrite forallb_app in Hp. apply andb_true_iff in Hp as [Hp Hf].
      cbn [forallb] in Hf. rewrite andb_true_r in Hf. unfold plain in Hf.
      rewrite length_app in Hk. cbn [length] in Hk.
      rewrite List.filter_app, rev_app_distr. cbn [List.filter]. unfold regular at 1.
      destruct (osStat fs f) as [[|]|]; try discriminate.
      + rewrite IH by (auto; lia). cbn [rev app]. now rewrite <- app_assoc.
      + rewrite IH by (auto; lia). reflexivity. }
  rewrite (Hloop args [] turns Hp Ht). cbn [app mbind option_bind].
  now rewrite stringArrayReverse_rev, rev_involutive.
Qed.

Lemma getListOfFilesFromArguments_plain_files_witness :
  getListOfFilesFromArguments smallTree 4 ["README"; "missing"; "src/a.cs"]
  = Some (Ok ["README"; "src/a.cs"]).
Proof.
  apply (getListOfFilesFromArguments_plain_files smallTree
           ["README"; "missing"; "src/a.cs"] 4);
    [reflexivity|reflexivity|cbn; lia].
Defined.

End CommandLine.
